(** * phc2sys: disciplining a slave clock from a PHC, the system clock or a PPS

    A shallow embedding of [phc2sys.c].  Every function of the file is a
    Rocq function of the same name.  The C integers are [Z] with the
    conversions of the integer types written out; the [struct clock] that the
    C functions receive by pointer is a record that goes in and comes out;
    what the program asks of the operating system is answered by a [world],
    which also keeps the calls the program makes, oldest first. *)

From Stdlib Require Import ZArith List String Ascii Bool Lia DecimalString.
From Stdlib Require Import Floats.PrimFloat Uint63.
Import ListNotations.
Local Open Scope string_scope.
Local Open Scope list_scope.
Local Open Scope Z_scope.

(** ** Integer types *)

Definition to_unsigned (bits z : Z) : Z := z mod 2 ^ bits.

Definition to_signed (bits z : Z) : Z :=
  (z + 2 ^ (bits - 1)) mod 2 ^ bits - 2 ^ (bits - 1).

(** [int64_t], [uint64_t], [int] and [unsigned int]. *)
Definition int64 (z : Z) : Z := to_signed 64 z.
Definition uint64 (z : Z) : Z := to_unsigned 64 z.
Definition int32 (z : Z) : Z := to_signed 32 z.
Definition uint32 (z : Z) : Z := to_unsigned 32 z.

Definition INT64_MAX : Z := 2 ^ 63 - 1.

(** ** Constants of the file *)

Definition NS_PER_SEC : Z := 1000000000.
Definition max_ppb : Z := 512000.
Definition PHC_PPS_OFFSET_LIMIT : Z := 10000000.
Definition PMC_UPDATE_INTERVAL : Z := 60 * NS_PER_SEC.
Definition N_ID : Z := 2.

(** The conversion of an [int64_t] for [printf], of [<inttypes.h>]: where
    [long] has 64 bits, as on the machines the program is run on. *)
Definition PRId64 : string := "ld".

(** [KP] is the [double] nearest to 0.7 and [KI] the one nearest to 0.3. *)
Definition KP : float := 0x1.6666666666666p-1%float.
Definition KI : float := 0x1.3333333333333p-2%float.

(** ** Constants of headers that are not among the sources

    They are given the values of the Linux headers ([time.h], [poll.h]) and of
    the program's own [missing.h], [msg.h], [tlv.h], [ds.h] and [fsm.h]. *)

Definition CLOCK_REALTIME : Z := 0.
Definition CLOCK_INVALID : Z := -1.

(** [FD_TO_CLOCKID(fd)] is [((~(clockid_t) (fd) << 3) | 3)] and
    [CLOCKID_TO_FD(clk)] is [((unsigned int) ~((clk) >> 3))]. *)
Definition FD_TO_CLOCKID (fd : Z) : Z :=
  int32 (Z.lor (Z.shiftl (Z.lnot fd) 3) 3).
Definition CLOCKID_TO_FD (clk : Z) : Z :=
  int32 (uint32 (Z.lnot (Z.shiftr clk 3))).

Definition POLLIN : Z := 1.
Definition POLLPRI : Z := 2.
Definition POLLOUT : Z := 4.

Definition MANAGEMENT : Z := 13.
Definition RESPONSE : Z := 2.
Definition TLV_MANAGEMENT : Z := 1.
Definition PORT_DATA_SET : Z := 8196.
Definition TIME_PROPERTIES_DATA_SET : Z := 8200.
Definition PS_MASTER : Z := 6.
Definition PS_SLAVE : Z := 9.
Definition LEAP_61 : Z := 1.
Definition LEAP_59 : Z := 2.
Definition SYSOFF_SUPPORTED : Z := 0.

(** ** Data *)

Record timespec : Type := mk_timespec { tv_sec : Z; tv_nsec : Z }.

(** The assertion time stamp of [struct pps_fdata], field [info.assert_tu]. *)
Record pps_ktime : Type := mk_pps_ktime { pk_sec : Z; pk_nsec : Z }.

Inductive servo_state : Type := SERVO_UNLOCKED | SERVO_JUMP | SERVO_LOCKED.

Definition servo_state_code (s : servo_state) : Z :=
  match s with SERVO_UNLOCKED => 0 | SERVO_JUMP => 1 | SERVO_LOCKED => 2 end.

(** What [run_pmc] reads of a received message: the header fields that
    [is_msg_mgt] tests, the management id, and the fields it reads through
    the casts of the TLV data to [struct portDS] and
    [struct timePropertiesDS]. *)
Record ptp_message : Type := mk_ptp_message {
  msg_type : Z;
  management_action : Z;
  tlv_count : Z;
  tlv_type : Z;
  mgt_id : Z;
  portState : Z;
  currentUtcOffset : Z;
  tp_flags : Z
}.

(** The time stamping capabilities [sk_get_ts_info] reports. *)
Record sk_ts_info : Type := mk_sk_ts_info { ts_valid : Z; phc_index : Z }.

Inductive print_arg : Type :=
| P_int (z : Z)
| P_double (d : float)
| P_string (s : string).

(** The calls that leave the file, with their arguments, and the signal
    that ends the process when an [int] is divided by zero: the quotient is
    undefined in C, and where the program runs the processor raises a divide
    error, which reaches the process as SIGFPE.  Nothing follows [E_sigfpe]
    in what a function of the file does. *)
Inductive event : Type :=
| E_clock_gettime (clkid : Z)
| E_pps_fetch (fd : Z)
| E_poll (events timeout : Z)
| E_pmc_recv
| E_open (path : string)
| E_sk_get_ts_info (name : string)
| E_sysoff_probe (fd n_samples : Z)
| E_sysoff_measure (fd n_samples : Z)
| E_pmc_create
| E_clockadj_get_freq (clkid : Z)
| E_pr_err (fmt : string)
| E_pr_warning (fmt : string) (args : list print_arg)
| E_pr_notice (fmt : string)
| E_pr_info (fmt : string) (args : list print_arg)
| E_fprintf_stderr (fmt : string) (args : list print_arg)
| E_usage (progname : string)
| E_version_show
| E_print_set_progname (name : string)
| E_print_set_verbose (value : Z)
| E_print_set_syslog (value : Z)
| E_print_set_level (level : Z)
| E_usleep (usec : Z)
| E_close (fd : Z)
| E_servo_sample (offset ts : Z)
| E_clockadj_step (clkid step : Z)
| E_clockadj_set_freq (clkid : Z) (freq : float)
| E_clockadj_set_leap (clkid leap : Z)
| E_pmc_send_get_action (id : Z)
| E_pmc_destroy
| E_msg_put (msg : ptp_message)
| E_sigfpe.

(** ** The surroundings

    Each queue holds the answers the operating system will give to the next
    calls of one kind, in the order of the calls.  A reading of a clock is
    answered per clock: the entry tells what each clock shows at that moment
    ([None]: the read fails).  An exhausted queue answers with the failure of
    the call ([poll]: the timeout). *)
Record world : Type := mk_world {
  w_gettime : list (Z -> option timespec);
  w_pps : list (option pps_ktime);
  w_poll : list (Z * Z);
  w_recv : list (option ptp_message);
  w_open : list Z;
  w_ts_info : list (Z * sk_ts_info);
  w_sysoff_probe : list Z;
  w_sysoff : list (option (Z * Z * Z));
  w_pmc_create : list bool;
  w_get_freq : list float;
  w_trace : list event
}.

Definition set_gettime (q : list (Z -> option timespec)) (w : world) : world :=
  mk_world q (w_pps w) (w_poll w) (w_recv w) (w_open w) (w_ts_info w)
    (w_sysoff_probe w) (w_sysoff w) (w_pmc_create w) (w_get_freq w) (w_trace w).
Definition set_pps (q : list (option pps_ktime)) (w : world) : world :=
  mk_world (w_gettime w) q (w_poll w) (w_recv w) (w_open w) (w_ts_info w)
    (w_sysoff_probe w) (w_sysoff w) (w_pmc_create w) (w_get_freq w) (w_trace w).
Definition set_poll (q : list (Z * Z)) (w : world) : world :=
  mk_world (w_gettime w) (w_pps w) q (w_recv w) (w_open w) (w_ts_info w)
    (w_sysoff_probe w) (w_sysoff w) (w_pmc_create w) (w_get_freq w) (w_trace w).
Definition set_recv (q : list (option ptp_message)) (w : world) : world :=
  mk_world (w_gettime w) (w_pps w) (w_poll w) q (w_open w) (w_ts_info w)
    (w_sysoff_probe w) (w_sysoff w) (w_pmc_create w) (w_get_freq w) (w_trace w).
Definition set_open (q : list Z) (w : world) : world :=
  mk_world (w_gettime w) (w_pps w) (w_poll w) (w_recv w) q (w_ts_info w)
    (w_sysoff_probe w) (w_sysoff w) (w_pmc_create w) (w_get_freq w) (w_trace w).
Definition set_ts_info (q : list (Z * sk_ts_info)) (w : world) : world :=
  mk_world (w_gettime w) (w_pps w) (w_poll w) (w_recv w) (w_open w) q
    (w_sysoff_probe w) (w_sysoff w) (w_pmc_create w) (w_get_freq w) (w_trace w).
Definition set_sysoff_probe (q : list Z) (w : world) : world :=
  mk_world (w_gettime w) (w_pps w) (w_poll w) (w_recv w) (w_open w) (w_ts_info w)
    q (w_sysoff w) (w_pmc_create w) (w_get_freq w) (w_trace w).
Definition set_sysoff (q : list (option (Z * Z * Z))) (w : world) : world :=
  mk_world (w_gettime w) (w_pps w) (w_poll w) (w_recv w) (w_open w) (w_ts_info w)
    (w_sysoff_probe w) q (w_pmc_create w) (w_get_freq w) (w_trace w).
Definition set_pmc_create (q : list bool) (w : world) : world :=
  mk_world (w_gettime w) (w_pps w) (w_poll w) (w_recv w) (w_open w) (w_ts_info w)
    (w_sysoff_probe w) (w_sysoff w) q (w_get_freq w) (w_trace w).
Definition set_get_freq (q : list float) (w : world) : world :=
  mk_world (w_gettime w) (w_pps w) (w_poll w) (w_recv w) (w_open w) (w_ts_info w)
    (w_sysoff_probe w) (w_sysoff w) (w_pmc_create w) q (w_trace w).
Definition set_trace (t : list event) (w : world) : world :=
  mk_world (w_gettime w) (w_pps w) (w_poll w) (w_recv w) (w_open w) (w_ts_info w)
    (w_sysoff_probe w) (w_sysoff w) (w_pmc_create w) (w_get_freq w) t.

(** ** Computations in the surroundings *)

Definition M (A : Type) : Type := world -> A * world.

Definition ret {A : Type} (a : A) : M A := fun w => (a, w).

Definition bind {A B : Type} (m : M A) (k : A -> M B) : M B :=
  fun w => let (a, w') := m w in k a w'.

Notation "x <- m ;; k" := (bind m (fun x => k))
  (at level 61, m at next level, right associativity).
Notation "' p <- m ;; k" := (bind m (fun p => k))
  (at level 61, p pattern, m at next level, right associativity).
Notation "m ;;; k" := (bind m (fun _ => k))
  (at level 61, right associativity).

Definition emit (e : event) : M unit :=
  fun w => (tt, set_trace (w_trace w ++ [e]) w).

(** The events of [w'] that [w] does not have yet. *)
Definition emitted (w w' : world) (evs : list event) : Prop :=
  w_trace w' = w_trace w ++ evs.

(** *** The calls that bring something in *)

Definition answer {A : Type} (queue : world -> list A) (set : list A -> world -> world)
  (default : A) : M A :=
  fun w => match queue w with
           | r :: q => (r, set q w)
           | [] => (default, w)
           end.

Definition clock_gettime (clkid : Z) : M (option timespec) :=
  emit (E_clock_gettime clkid) ;;;
  now <- answer w_gettime set_gettime (fun _ => None) ;;
  ret (now clkid).

(** [ioctl(fd, PPS_FETCH, &pfd)]. *)
Definition pps_fetch (fd : Z) : M (option pps_ktime) :=
  emit (E_pps_fetch fd) ;;; answer w_pps set_pps None.

(** [poll] on the one descriptor of the management transport: the count it
    returns and the [revents] it stores. *)
Definition poll (events timeout : Z) : M (Z * Z) :=
  emit (E_poll events timeout) ;;; answer w_poll set_poll (0, 0).

Definition pmc_recv : M (option ptp_message) :=
  emit E_pmc_recv ;;; answer w_recv set_recv None.

(** ** [read_phc] *)

(** The three readings of one trial; [||] stops at the first that fails. *)
Definition read_trial (clkid sysclk : Z) : M (option (timespec * timespec * timespec)) :=
  tdst1 <- clock_gettime sysclk ;;
  match tdst1 with
  | None => ret None
  | Some tdst1 =>
    tsrc <- clock_gettime clkid ;;
    match tsrc with
    | None => ret None
    | Some tsrc =>
      tdst2 <- clock_gettime sysclk ;;
      match tdst2 with
      | None => ret None
      | Some tdst2 => ret (Some (tdst1, tsrc, tdst2))
      end
    end
  end.

Definition trial_interval (tdst1 tdst2 : timespec) : Z :=
  int64 ((tv_sec tdst2 - tv_sec tdst1) * NS_PER_SEC + tv_nsec tdst2 - tv_nsec tdst1).

Definition trial_offset (tdst1 tsrc : timespec) (interval : Z) : Z :=
  int64 ((tv_sec tdst1 - tv_sec tsrc) * NS_PER_SEC + tv_nsec tdst1 - tv_nsec tsrc
         + Z.quot interval 2).

Definition trial_ts (tdst2 : timespec) : Z :=
  uint64 (tv_sec tdst2 * NS_PER_SEC + tv_nsec tdst2).

(** The [for] loop with [n] rounds left; [offset] and [ts] are what [*offset]
    and [*ts] hold.  The boolean is [false] for the [return 0] out of the
    loop. *)
Fixpoint read_phc_loop (n : nat) (clkid sysclk : Z) (best_interval offset ts : Z)
  : M (bool * (Z * Z * Z)) :=
  match n with
  | O => ret (true, (best_interval, offset, ts))
  | S n' =>
    r <- read_trial clkid sysclk ;;
    match r with
    | None =>
      emit (E_pr_err "failed to read clock: %m") ;;;
      ret (false, (best_interval, offset, ts))
    | Some (tdst1, tsrc, tdst2) =>
      let interval := trial_interval tdst1 tdst2 in
      if interval <? best_interval
      then read_phc_loop n' clkid sysclk interval
             (trial_offset tdst1 tsrc interval) (trial_ts tdst2)
      else read_phc_loop n' clkid sysclk best_interval offset ts
    end
  end.

(** [read_phc] returns its [int] and what [*offset], [*ts] and [*delay] hold
    afterwards; the last three arguments are what they hold before. *)
Definition read_phc (clkid sysclk readings : Z) (offset ts delay : Z)
  : M (Z * (Z * Z * Z)) :=
  r <- read_phc_loop (Z.to_nat readings) clkid sysclk INT64_MAX offset ts ;;
  match r with
  | (false, (_, offset', ts')) => ret (0, (offset', ts', delay))
  | (true, (best_interval, offset', ts')) => ret (1, (offset', ts', best_interval))
  end.

(** ** [read_pps]

    [None] is the [return 0], which leaves [*offset] and [*ts] alone;
    [Some (offset, ts)] is the [return 1] with what it stored. *)
Definition read_pps (fd : Z) : M (option (Z * Z)) :=
  pfd <- pps_fetch fd ;;
  match pfd with
  | None => emit (E_pr_err "failed to fetch PPS: %m") ;;; ret None
  | Some assert_tu =>
    let ts := uint64 (pk_sec assert_tu * NS_PER_SEC) in
    let ts := uint64 (ts + pk_nsec assert_tu) in
    let offset := int64 (ts mod NS_PER_SEC) in
    let offset :=
      if offset >? Z.quot NS_PER_SEC 2 then int64 (offset - NS_PER_SEC) else offset in
    ret (Some (offset, ts))
  end.

(** ** The rest of the program

    [servo.c] with [pi.c], [stats.c] and [util.c] are not among the sources.
    Their functions are taken as given: anything proved below holds for every
    implementation of them.  An object they keep behind a pointer is a value
    that the function receives and returns. *)

(** The globals [configured_pi_kp], [configured_pi_ki] and
    [configured_pi_offset] of [pi.c], which [servo_create] reads. *)
Record pi_config : Type := mk_pi_config {
  configured_pi_kp : float;
  configured_pi_ki : float;
  configured_pi_offset : float
}.

(** The fields of [struct stats_result] that [update_clock_stats] prints. *)
Record stats_result : Type := mk_stats_result {
  sr_rms : float;
  sr_max_abs : float;
  sr_mean : float;
  sr_stddev : float
}.

Class Library : Type := {
  (** a [struct servo *] with what it points to; [servo_null] is [NULL] *)
  struct_servo : Type;
  servo_null : struct_servo;
  servo_create : pi_config -> float -> Z -> Z -> struct_servo;
  servo_sample : struct_servo -> Z -> Z -> float * servo_state * struct_servo;
  struct_stats : Type;
  stats_create : option struct_stats;
  stats_add_value : struct_stats -> float -> struct_stats;
  stats_get_num_values : struct_stats -> Z;
  stats_get_result : struct_stats -> Z * stats_result;
  stats_reset : struct_stats -> struct_stats;
  (** the conversion of an [int64_t] argument to [double] *)
  double_of_int64 : Z -> float;
  is_utc_ambiguous : Z -> Z;
  (** [leap_second_status ts leap_set leap utc_offset] gives the value
      returned and what [*leap] and [*utc_offset] hold afterwards *)
  leap_second_status : Z -> Z -> Z -> Z -> Z * (Z * Z)
}.

(** ** [struct clock] *)

Local Abbreviation enum_servo_state := servo_state (only parsing).

Module clock.

Record t `{Library} : Type := mk {
  clkid : Z;
  servo : struct_servo;
  servo_state : enum_servo_state;
  source_label : string;
  offset_stats : option struct_stats;
  freq_stats : option struct_stats;
  delay_stats : option struct_stats;
  stats_max_count : Z;
  sync_offset : Z;
  sync_offset_direction : Z;
  leap : Z;
  leap_set : Z;
  kernel_leap : Z;
  (** whether the pointer [pmc] is set *)
  pmc : bool;
  pmc_ds_idx : Z;
  pmc_ds_requested : Z;
  pmc_last_update : Z
}.

Section Setters.
Context `{Library}.

Definition set_clkid (v : Z) (c : t) : t :=
  mk _ v (servo c) (servo_state c) (source_label c) (offset_stats c) (freq_stats c)
    (delay_stats c) (stats_max_count c) (sync_offset c) (sync_offset_direction c)
    (leap c) (leap_set c) (kernel_leap c) (pmc c) (pmc_ds_idx c)
    (pmc_ds_requested c) (pmc_last_update c).
Definition set_servo (v : struct_servo) (c : t) : t :=
  mk _ (clkid c) v (servo_state c) (source_label c) (offset_stats c) (freq_stats c)
    (delay_stats c) (stats_max_count c) (sync_offset c) (sync_offset_direction c)
    (leap c) (leap_set c) (kernel_leap c) (pmc c) (pmc_ds_idx c)
    (pmc_ds_requested c) (pmc_last_update c).
Definition set_servo_state (v : enum_servo_state) (c : t) : t :=
  mk _ (clkid c) (servo c) v (source_label c) (offset_stats c) (freq_stats c)
    (delay_stats c) (stats_max_count c) (sync_offset c) (sync_offset_direction c)
    (leap c) (leap_set c) (kernel_leap c) (pmc c) (pmc_ds_idx c)
    (pmc_ds_requested c) (pmc_last_update c).
Definition set_source_label (v : string) (c : t) : t :=
  mk _ (clkid c) (servo c) (servo_state c) v (offset_stats c) (freq_stats c)
    (delay_stats c) (stats_max_count c) (sync_offset c) (sync_offset_direction c)
    (leap c) (leap_set c) (kernel_leap c) (pmc c) (pmc_ds_idx c)
    (pmc_ds_requested c) (pmc_last_update c).
Definition set_stats (o f d : option struct_stats) (c : t) : t :=
  mk _ (clkid c) (servo c) (servo_state c) (source_label c) o f
    d (stats_max_count c) (sync_offset c) (sync_offset_direction c)
    (leap c) (leap_set c) (kernel_leap c) (pmc c) (pmc_ds_idx c)
    (pmc_ds_requested c) (pmc_last_update c).
Definition set_stats_max_count (v : Z) (c : t) : t :=
  mk _ (clkid c) (servo c) (servo_state c) (source_label c) (offset_stats c) (freq_stats c)
    (delay_stats c) v (sync_offset c) (sync_offset_direction c)
    (leap c) (leap_set c) (kernel_leap c) (pmc c) (pmc_ds_idx c)
    (pmc_ds_requested c) (pmc_last_update c).
Definition set_sync_offset (v : Z) (c : t) : t :=
  mk _ (clkid c) (servo c) (servo_state c) (source_label c) (offset_stats c) (freq_stats c)
    (delay_stats c) (stats_max_count c) v (sync_offset_direction c)
    (leap c) (leap_set c) (kernel_leap c) (pmc c) (pmc_ds_idx c)
    (pmc_ds_requested c) (pmc_last_update c).
Definition set_sync_offset_direction (v : Z) (c : t) : t :=
  mk _ (clkid c) (servo c) (servo_state c) (source_label c) (offset_stats c) (freq_stats c)
    (delay_stats c) (stats_max_count c) (sync_offset c) v
    (leap c) (leap_set c) (kernel_leap c) (pmc c) (pmc_ds_idx c)
    (pmc_ds_requested c) (pmc_last_update c).
Definition set_leap (v : Z) (c : t) : t :=
  mk _ (clkid c) (servo c) (servo_state c) (source_label c) (offset_stats c) (freq_stats c)
    (delay_stats c) (stats_max_count c) (sync_offset c) (sync_offset_direction c)
    v (leap_set c) (kernel_leap c) (pmc c) (pmc_ds_idx c)
    (pmc_ds_requested c) (pmc_last_update c).
Definition set_leap_set (v : Z) (c : t) : t :=
  mk _ (clkid c) (servo c) (servo_state c) (source_label c) (offset_stats c) (freq_stats c)
    (delay_stats c) (stats_max_count c) (sync_offset c) (sync_offset_direction c)
    (leap c) v (kernel_leap c) (pmc c) (pmc_ds_idx c)
    (pmc_ds_requested c) (pmc_last_update c).
Definition set_kernel_leap (v : Z) (c : t) : t :=
  mk _ (clkid c) (servo c) (servo_state c) (source_label c) (offset_stats c) (freq_stats c)
    (delay_stats c) (stats_max_count c) (sync_offset c) (sync_offset_direction c)
    (leap c) (leap_set c) v (pmc c) (pmc_ds_idx c)
    (pmc_ds_requested c) (pmc_last_update c).
Definition set_pmc (v : bool) (c : t) : t :=
  mk _ (clkid c) (servo c) (servo_state c) (source_label c) (offset_stats c) (freq_stats c)
    (delay_stats c) (stats_max_count c) (sync_offset c) (sync_offset_direction c)
    (leap c) (leap_set c) (kernel_leap c) v (pmc_ds_idx c)
    (pmc_ds_requested c) (pmc_last_update c).
Definition set_pmc_ds_idx (v : Z) (c : t) : t :=
  mk _ (clkid c) (servo c) (servo_state c) (source_label c) (offset_stats c) (freq_stats c)
    (delay_stats c) (stats_max_count c) (sync_offset c) (sync_offset_direction c)
    (leap c) (leap_set c) (kernel_leap c) (pmc c) v
    (pmc_ds_requested c) (pmc_last_update c).
Definition set_pmc_ds_requested (v : Z) (c : t) : t :=
  mk _ (clkid c) (servo c) (servo_state c) (source_label c) (offset_stats c) (freq_stats c)
    (delay_stats c) (stats_max_count c) (sync_offset c) (sync_offset_direction c)
    (leap c) (leap_set c) (kernel_leap c) (pmc c) (pmc_ds_idx c)
    v (pmc_last_update c).
Definition set_pmc_last_update (v : Z) (c : t) : t :=
  mk _ (clkid c) (servo c) (servo_state c) (source_label c) (offset_stats c) (freq_stats c)
    (delay_stats c) (stats_max_count c) (sync_offset c) (sync_offset_direction c)
    (leap c) (leap_set c) (kernel_leap c) (pmc c) (pmc_ds_idx c)
    (pmc_ds_requested c) v.

End Setters.
End clock.

Section Program.
Context `{Library}.

(** ** [update_clock_stats]

    It is called with the three accumulators in place ([main] creates all
    three or none); were one missing, the C code would dereference a null
    pointer, and the model leaves the clock as it is. *)
Definition update_clock_stats (c : clock.t) (offset : Z) (freq : float) (delay : Z)
  : M clock.t :=
  match clock.offset_stats c, clock.freq_stats c, clock.delay_stats c with
  | Some os, Some fs, Some ds =>
    let os := stats_add_value os (double_of_int64 offset) in
    let fs := stats_add_value fs freq in
    let ds := if delay >=? 0 then stats_add_value ds (double_of_int64 delay) else ds in
    if stats_get_num_values os <? clock.stats_max_count c
    then ret (clock.set_stats (Some os) (Some fs) (Some ds) c)
    else
      let offset_stats := snd (stats_get_result os) in
      let freq_stats := snd (stats_get_result fs) in
      let (r, delay_stats) := stats_get_result ds in
      (if r =? 0
       then emit (E_pr_info "rms %4.0f max %4.0f freq %+6.0f +/- %3.0f delay %5.0f +/- %3.0f"
                    [P_double (sr_rms offset_stats); P_double (sr_max_abs offset_stats);
                     P_double (sr_mean freq_stats); P_double (sr_stddev freq_stats);
                     P_double (sr_mean delay_stats); P_double (sr_stddev delay_stats)])
       else emit (E_pr_info "rms %4.0f max %4.0f freq %+6.0f +/- %3.0f"
                    [P_double (sr_rms offset_stats); P_double (sr_max_abs offset_stats);
                     P_double (sr_mean freq_stats); P_double (sr_stddev freq_stats)])) ;;;
      ret (clock.set_stats (Some (stats_reset os)) (Some (stats_reset fs))
             (Some (stats_reset ds)) c)
  | _, _, _ => ret c
  end.

(** ** The management client: [is_msg_mgt], [get_mgt_id], [run_pmc] *)

Definition is_msg_mgt (msg : ptp_message) : Z :=
  if negb (msg_type msg =? MANAGEMENT) then 0
  else if negb (management_action msg =? RESPONSE) then 0
  else if negb (tlv_count msg =? 1) then 0
  else if negb (tlv_type msg =? TLV_MANAGEMENT) then 0
  else 1.

Definition get_mgt_id (msg : ptp_message) : Z := mgt_id msg.

(** The array [ds_ids] of [run_pmc]; the loop reads it at
    [0 <= idx < N_ID] only. *)
Definition ds_ids (idx : Z) : Z :=
  nth (Z.to_nat idx) [PORT_DATA_SET; TIME_PROPERTIES_DATA_SET] 0.

(** How one round of the [while] loop of [run_pmc] ends: with [continue] or
    the end of the body, or with a [return]. *)
Inductive pmc_round : Type :=
| Pmc_continue (c : clock.t)
| Pmc_return (r : Z) (c : clock.t).

(** The [switch] on the management id of an accepted message: the clock and
    [ds_done] afterwards. *)
Definition pmc_handle_data (c : clock.t) (msg : ptp_message) : clock.t * Z :=
  if get_mgt_id msg =? PORT_DATA_SET then
    if (portState msg =? PS_MASTER) || (portState msg =? PS_SLAVE)
    then (c, 1) else (c, 0)
  else if get_mgt_id msg =? TIME_PROPERTIES_DATA_SET then
    let c := clock.set_sync_offset (currentUtcOffset msg) c in
    let c :=
      if negb (Z.land (tp_flags msg) LEAP_61 =? 0) then clock.set_leap 1 c
      else if negb (Z.land (tp_flags msg) LEAP_59 =? 0) then clock.set_leap (-1) c
      else clock.set_leap 0 c in
    (c, 1)
  else (c, 0).

(** The body of the loop, entered with [pmc_ds_idx < N_ID]. *)
Definition run_pmc_round (c : clock.t) (timeout wait_sync get_utc_offset : Z)
  : M pmc_round :=
  let id := ds_ids (clock.pmc_ds_idx c) in
  if ((id =? PORT_DATA_SET) && (wait_sync =? 0))
     || ((id =? TIME_PROPERTIES_DATA_SET) && (get_utc_offset =? 0))
  then ret (Pmc_continue (clock.set_pmc_ds_idx (clock.pmc_ds_idx c + 1) c))
  else
    let events := Z.lor POLLIN POLLPRI in
    let events :=
      if clock.pmc_ds_requested c =? 0 then Z.lor events POLLOUT else events in
    '(cnt, revents) <- poll events timeout ;;
    if cnt <? 0 then
      emit (E_pr_err "poll failed") ;;; ret (Pmc_return (-1) c)
    else if cnt =? 0 then
      ret (Pmc_return 0 (clock.set_pmc_ds_requested 0 c))
    else
      c <- (if negb (Z.land revents POLLOUT =? 0)
               && (Z.land revents (Z.lor POLLIN POLLPRI) =? 0)
            then emit (E_pmc_send_get_action id) ;;;
                 ret (clock.set_pmc_ds_requested 1 c)
            else ret c) ;;
      if Z.land revents (Z.lor POLLIN POLLPRI) =? 0 then ret (Pmc_continue c)
      else
        msg <- pmc_recv ;;
        match msg with
        | None => ret (Pmc_continue c)
        | Some msg =>
          if (is_msg_mgt msg =? 0) || negb (get_mgt_id msg =? id) then
            emit (E_msg_put msg) ;;; ret (Pmc_continue c)
          else
            let (c, ds_done) := pmc_handle_data c msg in
            let c :=
              if negb (ds_done =? 0)
              then clock.set_pmc_ds_requested 0
                     (clock.set_pmc_ds_idx (clock.pmc_ds_idx c + 1) c)
              else c in
            emit (E_msg_put msg) ;;; ret (Pmc_continue c)
        end.

(** The loop, for at most [fuel] rounds: [None] when they are used up. *)
Fixpoint run_pmc_loop (fuel : nat) (c : clock.t) (timeout wait_sync get_utc_offset : Z)
  : M (option (Z * clock.t)) :=
  if clock.pmc_ds_idx c <? N_ID then
    match fuel with
    | O => ret None
    | S fuel' =>
      r <- run_pmc_round c timeout wait_sync get_utc_offset ;;
      match r with
      | Pmc_continue c' => run_pmc_loop fuel' c' timeout wait_sync get_utc_offset
      | Pmc_return r c' => ret (Some (r, c'))
      end
    end
  else ret (Some (1, clock.set_pmc_ds_idx 0 c)).

(** A round either moves the cursor forward or uses up an answer of [poll]
    (and returns when none is left), so this many rounds are never used up
    ([run_pmc_loop_fuel]). *)
Definition run_pmc_fuel (c : clock.t) (w : world) : nat :=
  (List.length (w_poll w) + Z.to_nat (N_ID - clock.pmc_ds_idx c) + 1)%nat.

Definition run_pmc (c : clock.t) (timeout wait_sync get_utc_offset : Z)
  : M (Z * clock.t) :=
  fun w =>
    match run_pmc_loop (run_pmc_fuel c w) c timeout wait_sync get_utc_offset w with
    | (Some r, w') => (r, w')
    | (None, w') => ((0, c), w')
    end.

(** ** [update_sync_offset] *)

(** [clock->sync_offset * NS_PER_SEC * clock->sync_offset_direction]. *)
Definition sync_offset_ns (c : clock.t) : Z :=
  int64 (clock.sync_offset c * NS_PER_SEC * clock.sync_offset_direction c).

(** The condition under which the management data are refreshed. *)
Definition pmc_update_due (c : clock.t) (ts : Z) : bool :=
  clock.pmc c
  && negb ((ts >? clock.pmc_last_update c)
           && (uint64 (ts - clock.pmc_last_update c) <? PMC_UPDATE_INTERVAL)).

(** The first part of [update_sync_offset]: the refresh of the management
    data. *)
Definition update_sync_offset_pmc (c : clock.t) (ts : Z) : M clock.t :=
  if pmc_update_due c ts then
    '(r, c') <- run_pmc c 0 0 1 ;;
    ret (if r >? 0 then clock.set_pmc_last_update ts c' else c')
  else ret c.

(** The end of [update_sync_offset], from the comment "Suspend clock updates
    in the last second before midnight" on, for the time stamp [ts] chosen
    before. *)
Definition update_sync_offset_status (c : clock.t) (ts : Z) : M (Z * clock.t) :=
  if negb (is_utc_ambiguous ts =? 0) then
    emit (E_pr_info "clock update suspended due to leap second" []) ;;;
    ret (-1, c)
  else
    let '(clock_leap, (leap', utc_offset')) :=
      leap_second_status ts (clock.leap_set c) (clock.leap c) (clock.sync_offset c) in
    let c := clock.set_sync_offset utc_offset' (clock.set_leap leap' c) in
    if negb (clock.leap_set c =? clock_leap) then
      (if (clock.clkid c =? CLOCK_REALTIME) && negb (clock.kernel_leap c =? 0)
       then emit (E_clockadj_set_leap (clock.clkid c) clock_leap)
       else ret tt) ;;;
      ret (0, clock.set_leap_set clock_leap c)
    else ret (0, c).

(** The second part, from the comment "Handle leap seconds" on. *)
Definition update_sync_offset_leap (c : clock.t) (offset ts : Z) : M (Z * clock.t) :=
  if (clock.leap c =? 0) && (clock.leap_set c =? 0) then ret (0, c)
  else
    now <- (if negb (clock.clkid c =? CLOCK_REALTIME) then
              tp <- clock_gettime CLOCK_REALTIME ;;
              match tp with
              | None => emit (E_pr_err "failed to read clock: %m") ;;; ret None
              | Some tp => ret (Some (uint64 (tv_sec tp * NS_PER_SEC + tv_nsec tp)))
              end
            else ret (Some ts)) ;;
    match now with
    | None => ret (-1, c)
    | Some ts =>
      let ts :=
        if (clock.clkid c =? CLOCK_REALTIME)
           && match clock.servo_state c with SERVO_UNLOCKED => true | _ => false end
        then uint64 (ts - int64 (offset + sync_offset_ns c))
        else ts in
      update_sync_offset_status c ts
    end.

Definition update_sync_offset (c : clock.t) (offset ts : Z) : M (Z * clock.t) :=
  c <- update_sync_offset_pmc c ts ;;
  update_sync_offset_leap c offset ts.

(** ** [update_clock] *)

(** The offset handed to the servo. *)
Definition corrected_offset (c : clock.t) (offset : Z) : Z :=
  if negb (clock.sync_offset_direction c =? 0)
  then int64 (offset + sync_offset_ns c)
  else offset.

(** The [switch] on the state the servo reports. *)
Definition adjust_clock (clkid : Z) (state : servo_state) (offset : Z) (ppb : float)
  : M unit :=
  match state with
  | SERVO_UNLOCKED => ret tt
  | SERVO_JUMP =>
    emit (E_clockadj_step clkid (int64 (- offset))) ;;;
    emit (E_clockadj_set_freq clkid (- ppb)%float)
  | SERVO_LOCKED => emit (E_clockadj_set_freq clkid (- ppb)%float)
  end.

Definition update_clock (c : clock.t) (offset ts delay : Z) : M clock.t :=
  '(r, c) <- update_sync_offset c offset ts ;;
  if negb (r =? 0) then ret c
  else
    let offset := corrected_offset c offset in
    emit (E_servo_sample offset ts) ;;;
    let '(ppb, state, sv) := servo_sample (clock.servo c) offset ts in
    let c := clock.set_servo_state state (clock.set_servo sv c) in
    adjust_clock (clock.clkid c) state offset ppb ;;;
    match clock.offset_stats c with
    | Some _ => update_clock_stats c offset ppb delay
    | None =>
      (if delay >=? 0
       then emit (E_pr_info ("%s offset %9" ++ PRId64 ++ " s%d freq %+7.0f "
                             ++ "delay %6" ++ PRId64)%string
                    [P_string (clock.source_label c); P_int offset;
                     P_int (servo_state_code state); P_double ppb; P_int delay])
       else emit (E_pr_info ("%s offset %9" ++ PRId64 ++ " s%d freq %+7.0f")%string
                    [P_string (clock.source_label c); P_int offset;
                     P_int (servo_state_code state); P_double ppb])) ;;;
      ret c
    end.

(** ** The sampling loops

    A loop that the C code never leaves is run for a number of rounds; the
    result is [None] when the function has not returned: the loop is still
    running after the rounds, or the process was ended by the signal of a
    division by zero, which is then the last event.  The automatic variables
    that a loop hands to [read_phc] live across its rounds, so a round
    receives and returns them.

    The loops that sleep compute [1000000 / rate] in every round, and [main]
    stores in [rate] whatever [atoi] makes of the argument of [-R]: with the
    rate 0 the division ends the process before [usleep] is called. *)

Inductive loop_round (L : Type) : Type :=
| Round_next (c : clock.t) (l : L)
| Round_return (r : Z) (c : clock.t)
| Round_killed (c : clock.t).
Arguments Round_next {L} c l.
Arguments Round_return {L} r c.
Arguments Round_killed {L} c.

(** *** [do_pps_loop] *)

(** One round; [l] holds [phc_offset], [phc_ts] and [phc_delay]. *)
Definition do_pps_round (c : clock.t) (fd src n_readings : Z) (l : Z * Z * Z)
  : M (loop_round (Z * Z * Z)) :=
  r <- read_pps fd ;;
  match r with
  | None => ret (Round_next c l)
  | Some (pps_offset, pps_ts) =>
    if negb (src =? CLOCK_INVALID) then
      let '(phc_offset, phc_ts, phc_delay) := l in
      '(ok, (phc_offset, phc_ts, phc_delay)) <-
        read_phc src (clock.clkid c) n_readings phc_offset phc_ts phc_delay ;;
      if ok =? 0 then ret (Round_return (-1) c)
      else
        let phc_ts := uint64 (phc_ts - phc_offset) in
        if phc_ts mod NS_PER_SEC >? PHC_PPS_OFFSET_LIMIT then
          emit (E_pr_warning "PPS is not in sync with PHC (0.%09lld)"
                  [P_int (phc_ts mod NS_PER_SEC)]) ;;;
          ret (Round_next c (phc_offset, phc_ts, phc_delay))
        else
          let phc_ts := uint64 (phc_ts / NS_PER_SEC * NS_PER_SEC) in
          let pps_offset := int64 (pps_ts - phc_ts) in
          c <- update_clock c pps_offset pps_ts (-1) ;;
          ret (Round_next c (phc_offset, phc_ts, phc_delay))
    else
      c <- update_clock c pps_offset pps_ts (-1) ;;
      ret (Round_next c l)
  end.

Fixpoint do_pps_rounds (rounds : nat) (c : clock.t) (fd src n_readings : Z)
  (l : Z * Z * Z) : M (option Z * clock.t) :=
  match rounds with
  | O => ret (None, c)
  | S rounds' =>
    r <- do_pps_round c fd src n_readings l ;;
    match r with
    | Round_next c' l' => do_pps_rounds rounds' c' fd src n_readings l'
    | Round_return r c' => ret (Some r, c')
    | Round_killed c' => ret (None, c')
    end
  end.

Definition do_pps_loop (rounds : nat) (c : clock.t) (fd src n_readings : Z)
  (l : Z * Z * Z) : M (option Z * clock.t) :=
  let c := clock.set_source_label "pps" c in
  let c :=
    if src =? CLOCK_INVALID then clock.set_sync_offset_direction 0 c else c in
  do_pps_rounds rounds c fd src n_readings l.

(** *** [do_sysoff_loop] *)

(** [sysoff_measure], of [sysoff.c]: [None] when it fails, else the offset,
    the time stamp and the delay it stores. *)
Definition sysoff_measure (fd n_samples : Z) : M (option (Z * Z * Z)) :=
  emit (E_sysoff_measure fd n_samples) ;;; answer w_sysoff set_sysoff None.

Fixpoint do_sysoff_rounds (rounds : nat) (c : clock.t) (fd rate n_readings : Z)
  : M (option Z * clock.t) :=
  match rounds with
  | O => ret (None, c)
  | S rounds' =>
    if rate =? 0 then emit E_sigfpe ;;; ret (None, c)
    else
      emit (E_usleep (Z.quot 1000000 rate)) ;;;
      r <- sysoff_measure fd n_readings ;;
      match r with
      | None => ret (Some (-1), c)
      | Some (offset, ts, delay) =>
        c <- update_clock c offset ts delay ;;
        do_sysoff_rounds rounds' c fd rate n_readings
      end
  end.

Definition do_sysoff_loop (rounds : nat) (c : clock.t) (src rate n_readings : Z)
  : M (option Z * clock.t) :=
  let fd := CLOCKID_TO_FD src in
  let c := clock.set_source_label "sys" c in
  do_sysoff_rounds rounds c fd rate n_readings.

(** *** [do_phc_loop] *)

(** One round; [l] holds [offset], [ts] and [delay]. *)
Definition do_phc_round (c : clock.t) (src rate n_readings : Z) (l : Z * Z * Z)
  : M (loop_round (Z * Z * Z)) :=
  if rate =? 0 then emit E_sigfpe ;;; ret (Round_killed c)
  else
    emit (E_usleep (Z.quot 1000000 rate)) ;;;
    let '(offset, ts, delay) := l in
    '(ok, (offset, ts, delay)) <-
      read_phc src (clock.clkid c) n_readings offset ts delay ;;
    if ok =? 0 then ret (Round_next c (offset, ts, delay))
    else
      c <- update_clock c offset ts delay ;;
      ret (Round_next c (offset, ts, delay)).

Fixpoint do_phc_rounds (rounds : nat) (c : clock.t) (src rate n_readings : Z)
  (l : Z * Z * Z) : M (option Z * clock.t) :=
  match rounds with
  | O => ret (None, c)
  | S rounds' =>
    r <- do_phc_round c src rate n_readings l ;;
    match r with
    | Round_next c' l' => do_phc_rounds rounds' c' src rate n_readings l'
    | Round_return r c' => ret (Some r, c')
    | Round_killed c' => ret (None, c')
    end
  end.

Definition do_phc_loop (rounds : nat) (c : clock.t) (src rate n_readings : Z)
  (l : Z * Z * Z) : M (option Z * clock.t) :=
  let c := clock.set_source_label "phc" c in
  do_phc_rounds rounds c src rate n_readings l.

(** ** [clock_open] *)

Definition tolower (a : ascii) : ascii :=
  let n := nat_of_ascii a in
  if ((65 <=? n) && (n <=? 90))%nat then ascii_of_nat (n + 32) else a.

(** [strcasecmp]: zero exactly when the strings agree up to the case of
    their letters. *)
Fixpoint strcasecmp (a b : string) : Z :=
  match a, b with
  | EmptyString, EmptyString => 0
  | EmptyString, String y _ => - Z.of_nat (nat_of_ascii (tolower y))
  | String x _, EmptyString => Z.of_nat (nat_of_ascii (tolower x))
  | String x a', String y b' =>
    if Ascii.eqb (tolower x) (tolower y) then strcasecmp a' b'
    else Z.of_nat (nat_of_ascii (tolower x)) - Z.of_nat (nat_of_ascii (tolower y))
  end.

(** [open]: the descriptor, negative when it fails. *)
Definition open_ (path : string) : M Z :=
  emit (E_open path) ;;; answer w_open set_open (-1).

Definition clock_open (device : string) : M Z :=
  match device with
  | String "/" _ =>
    fd <- open_ device ;;
    if fd <? 0 then
      emit (E_fprintf_stderr "cannot open %s: %m\n" [P_string device]) ;;;
      ret CLOCK_INVALID
    else ret (FD_TO_CLOCKID fd)
  | _ =>
    if strcasecmp device "CLOCK_REALTIME" =? 0 then ret CLOCK_REALTIME
    else
      emit (E_fprintf_stderr "unknown clock %s\n" [P_string device]) ;;;
      ret CLOCK_INVALID
  end.

(** ** [init_pmc] and [close_pmc] *)

(** [pmc_create]: whether it returns a client. *)
Definition pmc_create : M bool :=
  emit E_pmc_create ;;; answer w_pmc_create set_pmc_create false.

Definition init_pmc (c : clock.t) : M (Z * clock.t) :=
  p <- pmc_create ;;
  let c := clock.set_pmc p c in
  if negb (clock.pmc c) then
    emit (E_pr_err "failed to create pmc") ;;; ret (-1, c)
  else ret (0, c).

Definition close_pmc (c : clock.t) : M clock.t :=
  emit E_pmc_destroy ;;; ret (clock.set_pmc false c).

(** ** [main] *)

(** What [getopt] yields for one option of the command line; a numeric
    argument is given as [atoi] or [atof] converts it. *)
Inductive option_arg : Type :=
| Opt_c (optarg : string)
| Opt_d (optarg : string)
| Opt_s (optarg : string)
| Opt_P (kp : float)
| Opt_I (ki : float)
| Opt_S (step : float)
| Opt_R (rate : Z)
| Opt_N (num : Z)
| Opt_O (offset : Z)
| Opt_i (optarg : string)
| Opt_u (num : Z)
| Opt_w
| Opt_x
| Opt_l (level : Z)
| Opt_m
| Opt_q
| Opt_v
| Opt_h
| Opt_unknown.

Definition LOG_INFO : Z := 6.

(** The automatic variables of [main]; [pi] holds the three globals of
    [pi.c]. *)
Record main_locals : Type := mk_main_locals {
  progname : string;
  ethdev : option string;
  src : Z;
  phc_readings : Z;
  phc_rate : Z;
  pps_fd : Z;
  wait_sync : Z;
  forced_sync_offset : Z;
  print_level : Z;
  use_syslog : Z;
  verbose : Z;
  pi : pi_config;
  dst_clock : clock.t
}.

Definition set_ethdev (v : option string) (s : main_locals) : main_locals :=
  mk_main_locals (progname s) v (src s) (phc_readings s) (phc_rate s) (pps_fd s)
    (wait_sync s) (forced_sync_offset s) (print_level s) (use_syslog s) (verbose s) (pi
    s) (dst_clock s).
Definition set_src (v : Z) (s : main_locals) : main_locals :=
  mk_main_locals (progname s) (ethdev s) v (phc_readings s) (phc_rate s) (pps_fd s)
    (wait_sync s) (forced_sync_offset s) (print_level s) (use_syslog s) (verbose s) (pi
    s) (dst_clock s).
Definition set_phc_readings (v : Z) (s : main_locals) : main_locals :=
  mk_main_locals (progname s) (ethdev s) (src s) v (phc_rate s) (pps_fd s) (wait_sync
    s) (forced_sync_offset s) (print_level s) (use_syslog s) (verbose s) (pi s)
    (dst_clock s).
Definition set_phc_rate (v : Z) (s : main_locals) : main_locals :=
  mk_main_locals (progname s) (ethdev s) (src s) (phc_readings s) v (pps_fd s)
    (wait_sync s) (forced_sync_offset s) (print_level s) (use_syslog s) (verbose s) (pi
    s) (dst_clock s).
Definition set_pps_fd (v : Z) (s : main_locals) : main_locals :=
  mk_main_locals (progname s) (ethdev s) (src s) (phc_readings s) (phc_rate s) v
    (wait_sync s) (forced_sync_offset s) (print_level s) (use_syslog s) (verbose s) (pi
    s) (dst_clock s).
Definition set_wait_sync (v : Z) (s : main_locals) : main_locals :=
  mk_main_locals (progname s) (ethdev s) (src s) (phc_readings s) (phc_rate s) (pps_fd
    s) v (forced_sync_offset s) (print_level s) (use_syslog s) (verbose s) (pi s)
    (dst_clock s).
Definition set_forced_sync_offset (v : Z) (s : main_locals) : main_locals :=
  mk_main_locals (progname s) (ethdev s) (src s) (phc_readings s) (phc_rate s) (pps_fd
    s) (wait_sync s) v (print_level s) (use_syslog s) (verbose s) (pi s) (dst_clock s).
Definition set_print_level (v : Z) (s : main_locals) : main_locals :=
  mk_main_locals (progname s) (ethdev s) (src s) (phc_readings s) (phc_rate s) (pps_fd
    s) (wait_sync s) (forced_sync_offset s) v (use_syslog s) (verbose s) (pi s)
    (dst_clock s).
Definition set_use_syslog (v : Z) (s : main_locals) : main_locals :=
  mk_main_locals (progname s) (ethdev s) (src s) (phc_readings s) (phc_rate s) (pps_fd
    s) (wait_sync s) (forced_sync_offset s) (print_level s) v (verbose s) (pi s)
    (dst_clock s).
Definition set_verbose (v : Z) (s : main_locals) : main_locals :=
  mk_main_locals (progname s) (ethdev s) (src s) (phc_readings s) (phc_rate s) (pps_fd
    s) (wait_sync s) (forced_sync_offset s) (print_level s) (use_syslog s) v (pi s)
    (dst_clock s).
Definition set_pi (v : pi_config) (s : main_locals) : main_locals :=
  mk_main_locals (progname s) (ethdev s) (src s) (phc_readings s) (phc_rate s) (pps_fd
    s) (wait_sync s) (forced_sync_offset s) (print_level s) (use_syslog s) (verbose s) v
    (dst_clock s).
Definition set_dst_clock (v : clock.t) (s : main_locals) : main_locals :=
  mk_main_locals (progname s) (ethdev s) (src s) (phc_readings s) (phc_rate s) (pps_fd
    s) (wait_sync s) (forced_sync_offset s) (print_level s) (use_syslog s) (verbose s)
    (pi s) v.

(** [strrchr(argv[0], '/')] and the choice of [progname]: what follows the
    last slash, or all of it. *)
Fixpoint after_last_slash (a : string) : option string :=
  match a with
  | EmptyString => None
  | String x a' =>
    match after_last_slash a' with
    | Some r => Some r
    | None => if Ascii.eqb x "/" then Some a' else None
    end
  end.

Definition main_init (argv0 : string) : main_locals :=
  mk_main_locals
    (match after_last_slash argv0 with Some r => r | None => argv0 end)
    None CLOCK_INVALID 5 1 (-1) 0 0 LOG_INFO 1 0
    (mk_pi_config KP KI 0%float)
    (clock.mk _ CLOCK_REALTIME servo_null SERVO_UNLOCKED "" None None None 0 0 0
       0 0 1 false 0 0 0).

(** One round of the [getopt] loop: the variables afterwards, or the value
    [main] returns from inside the [switch]. *)
Definition main_option (a : option_arg) (s : main_locals) : M (main_locals + Z) :=
  match a with
  | Opt_c optarg =>
    clk <- clock_open optarg ;;
    ret (inl (set_dst_clock (clock.set_clkid clk (dst_clock s)) s))
  | Opt_d optarg =>
    fd <- open_ optarg ;;
    if fd <? 0 then
      emit (E_fprintf_stderr "cannot open '%s': %m\n" [P_string optarg]) ;;;
      ret (inr (-1))
    else ret (inl (set_pps_fd fd s))
  | Opt_s optarg =>
    clk <- clock_open optarg ;;
    ret (inl (set_src clk s))
  | Opt_P kp =>
    ret (inl (set_pi (mk_pi_config kp (configured_pi_ki (pi s))
                        (configured_pi_offset (pi s))) s))
  | Opt_I ki =>
    ret (inl (set_pi (mk_pi_config (configured_pi_kp (pi s)) ki
                        (configured_pi_offset (pi s))) s))
  | Opt_S step =>
    ret (inl (set_pi (mk_pi_config (configured_pi_kp (pi s))
                        (configured_pi_ki (pi s)) step) s))
  | Opt_R rate => ret (inl (set_phc_rate rate s))
  | Opt_N num => ret (inl (set_phc_readings num s))
  | Opt_O offset =>
    let c := clock.set_sync_offset offset (dst_clock s) in
    let c := clock.set_sync_offset_direction (-1) c in
    ret (inl (set_forced_sync_offset 1 (set_dst_clock c s)))
  | Opt_i optarg => ret (inl (set_ethdev (Some optarg) s))
  | Opt_u num =>
    ret (inl (set_dst_clock (clock.set_stats_max_count (uint32 num) (dst_clock s)) s))
  | Opt_w => ret (inl (set_wait_sync 1 s))
  | Opt_x => ret (inl (set_dst_clock (clock.set_kernel_leap 0 (dst_clock s)) s))
  | Opt_l level => ret (inl (set_print_level level s))
  | Opt_m => ret (inl (set_verbose 1 s))
  | Opt_q => ret (inl (set_use_syslog 0 s))
  | Opt_v => emit E_version_show ;;; ret (inr 0)
  | Opt_h => emit (E_usage (progname s)) ;;; ret (inr 0)
  | Opt_unknown => emit (E_usage (progname s)) ;;; ret (inr (-1))
  end.

Fixpoint main_options (opts : list option_arg) (s : main_locals)
  : M (main_locals + Z) :=
  match opts with
  | [] => ret (inl s)
  | a :: opts' =>
    r <- main_option a s ;;
    match r with
    | inl s' => main_options opts' s'
    | inr z => ret (inr z)
    end
  end.

(** [sk_get_ts_info], of [sk.c]: the value returned and the information
    stored. *)
Definition sk_get_ts_info (name : string) : M (Z * sk_ts_info) :=
  emit (E_sk_get_ts_info name) ;;;
  answer w_ts_info set_ts_info (-1, mk_sk_ts_info 0 0).

(** The search for the PHC of the interface given with [-i]. *)
Definition main_discover (s : main_locals) : M (main_locals + Z) :=
  match ethdev s with
  | Some dev =>
    if src s =? CLOCK_INVALID then
      '(err, ts_info) <- sk_get_ts_info dev ;;
      if negb (err =? 0) || (ts_valid ts_info =? 0) then
        emit (E_fprintf_stderr "can't autodiscover PHC device\n" []) ;;;
        ret (inr (-1))
      else if phc_index ts_info <? 0 then
        emit (E_fprintf_stderr "interface %s doesn't have a PHC\n" [P_string dev]) ;;;
        ret (inr (-1))
      else
        clk <- clock_open ("/dev/ptp" ++ NilZero.string_of_int (Z.to_int (phc_index ts_info))) ;;
        ret (inl (set_src clk s))
    else ret (inl s)
  | None => ret (inl s)
  end.

(** The test of the combination of clocks. *)
Definition main_check (s : main_locals) : M (main_locals + Z) :=
  if negb ((pps_fd s >=? 0) || negb (src s =? CLOCK_INVALID))
     || (clock.clkid (dst_clock s) =? CLOCK_INVALID)
     || ((pps_fd s >=? 0) && negb (clock.clkid (dst_clock s) =? CLOCK_REALTIME))
  then emit (E_usage (progname s)) ;;; ret (inr (-1))
  else ret (inl s).

(** The creation of the three accumulators, and the set-up of the log. *)
Definition main_stats (s : main_locals) : M (main_locals + Z) :=
  r <- (if clock.stats_max_count (dst_clock s) >? 0 then
          match stats_create with
          | Some st =>
            ret (inl (set_dst_clock
                        (clock.set_stats (Some st) (Some st) (Some st) (dst_clock s)) s))
          | None =>
            emit (E_fprintf_stderr "failed to create stats" []) ;;; ret (inr (-1))
          end
        else ret (inl s)) ;;
  match r with
  | inr z => ret (inr z)
  | inl s =>
    emit (E_print_set_progname (progname s)) ;;;
    emit (E_print_set_verbose (verbose s)) ;;;
    emit (E_print_set_syslog (use_syslog s)) ;;;
    emit (E_print_set_level (print_level s)) ;;;
    ret (inl s)
  end.

(** The loop that waits for ptp4l: [None] when it is still waiting after
    [rounds] rounds, else the clock at the [break] or the value returned. *)
Fixpoint main_wait_rounds (rounds : nat) (c : clock.t) (wait_sync forced_sync_offset : Z)
  : M (option (clock.t + Z)) :=
  match rounds with
  | O => ret None
  | S rounds' =>
    '(r, c) <- run_pmc c 1000 wait_sync (if forced_sync_offset =? 0 then 1 else 0) ;;
    if r <? 0 then ret (Some (inr (-1)))
    else if r >? 0 then ret (Some (inl c))
    else
      emit (E_pr_notice "Waiting for ptp4l...") ;;;
      main_wait_rounds rounds' c wait_sync forced_sync_offset
  end.

(** The direction in which the UTC offset is applied when it was not
    forced. *)
Definition main_direction (src clkid : Z) : Z :=
  if negb (src =? CLOCK_REALTIME) && (clkid =? CLOCK_REALTIME) then 1
  else if (src =? CLOCK_REALTIME) && negb (clkid =? CLOCK_REALTIME) then -1
  else 0.

(** The block under [if (wait_sync)]. *)
Definition main_wait_sync (rounds : nat) (s : main_locals)
  : M (option (main_locals + Z)) :=
  if negb (wait_sync s =? 0) then
    '(err, c) <- init_pmc (dst_clock s) ;;
    if negb (err =? 0) then ret (Some (inr (-1)))
    else
      r <- main_wait_rounds rounds c (wait_sync s) (forced_sync_offset s) ;;
      match r with
      | None => ret None
      | Some (inr z) => ret (Some (inr z))
      | Some (inl c) =>
        let c :=
          if forced_sync_offset s =? 0
          then clock.set_sync_offset_direction
                 (main_direction (src s) (clock.clkid c)) c
          else c in
        c <- (if negb (forced_sync_offset s =? 0)
                 || (clock.sync_offset_direction c =? 0)
              then close_pmc c else ret c) ;;
        ret (Some (inl (set_dst_clock c s)))
      end
  else ret (Some (inl s)).

(** [clockadj_get_freq]; a reading that fails silently gives 0. *)
Definition clockadj_get_freq (clkid : Z) : M float :=
  emit (E_clockadj_get_freq clkid) ;;; answer w_get_freq set_get_freq 0%float.

(** [sysoff_probe], of [sysoff.c]. *)
Definition sysoff_probe (fd n_samples : Z) : M Z :=
  emit (E_sysoff_probe fd n_samples) ;;; answer w_sysoff_probe set_sysoff_probe 2.

(** The frequency read and set again, the leap flag cleared, and the servo
    created (it is always [CLOCK_SERVO_PI]). *)
Definition main_servo (s : main_locals) : M main_locals :=
  let clkid := clock.clkid (dst_clock s) in
  ppb <- clockadj_get_freq clkid ;;
  emit (E_clockadj_set_freq clkid ppb) ;;;
  emit (E_clockadj_set_leap clkid 0) ;;;
  ret (set_dst_clock
         (clock.set_servo (servo_create (pi s) (- ppb)%float max_ppb 0) (dst_clock s)) s).

(** The choice of the loop. *)
Definition main_loop (rounds : nat) (s : main_locals) (l : Z * Z * Z)
  : M (option Z * clock.t) :=
  if pps_fd s >=? 0 then
    do_pps_loop rounds (dst_clock s) (pps_fd s) (src s) (phc_readings s) l
  else
    supported <-
      (if clock.clkid (dst_clock s) =? CLOCK_REALTIME then
         r <- sysoff_probe (CLOCKID_TO_FD (src s)) (phc_readings s) ;;
         ret (SYSOFF_SUPPORTED =? r)
       else ret false) ;;
    if supported : bool then
      do_sysoff_loop rounds (dst_clock s) (src s) (phc_rate s) (phc_readings s)
    else
      do_phc_loop rounds (dst_clock s) (src s) (phc_rate s) (phc_readings s) l.

(** [main] up to the choice of the loop: the variables at that point, the
    value returned before it, or [None] when the wait for ptp4l is still on
    after [rounds] rounds. *)
Definition main_prepare (rounds : nat) (argv0 : string) (opts : list option_arg)
  : M (option (main_locals + Z)) :=
  r <- main_options opts (main_init argv0) ;;
  match r with
  | inr z => ret (Some (inr z))
  | inl s =>
    r <- main_discover s ;;
    match r with
    | inr z => ret (Some (inr z))
    | inl s =>
      r <- main_check s ;;
      match r with
      | inr z => ret (Some (inr z))
      | inl s =>
        r <- main_stats s ;;
        match r with
        | inr z => ret (Some (inr z))
        | inl s =>
          r <- main_wait_sync rounds s ;;
          match r with
          | None => ret None
          | Some (inr z) => ret (Some (inr z))
          | Some (inl s) => s <- main_servo s ;; ret (Some (inl s))
          end
        end
      end
    end
  end.

(** [main]: the value returned, or [None] when it has not returned: a loop
    is still running after [rounds] rounds, or the process was ended in the
    sampling loop by the signal of a division by zero.  [l] is what the
    automatic variables of the sampling loop hold before anything is stored
    in them. *)
Definition main (rounds : nat) (argv0 : string) (opts : list option_arg) (l : Z * Z * Z)
  : M (option Z) :=
  r <- main_prepare rounds argv0 opts ;;
  match r with
  | None => ret None
  | Some (inr z) => ret (Some z)
  | Some (inl s) => r <- main_loop rounds s l ;; ret (fst r)
  end.

End Program.

Arguments loop_round {_} L.
Arguments Round_next {_ L} c l.
Arguments Round_return {_ L} r c.
Arguments Round_killed {_ L} c.

(** ** A library to run the program with

    Modelled from the spec: [util.c], [pi.c] and [stats.c] are not among the
    sources.  This library is used where the program is evaluated on given
    inputs.  Its servo plays back a script of answers ([Unlocked] with
    frequency 0 once the script is over); its accumulators keep the values
    they were given; [is_utc_ambiguous] holds in the last second before a UTC
    midnight (section 8); [leap_second_status] reports the pending leap in
    the part of the day that leads to midnight and none after midnight, when
    it moves the elapsed leap into the UTC offset (section 4.7, scenario
    E4). *)

Definition NS_PER_DAY : Z := 86400 * NS_PER_SEC.
Definition NS_PER_HOUR : Z := 3600 * NS_PER_SEC.

Definition script_servo_sample (sv : list (float * servo_state)) (offset ts : Z)
  : float * servo_state * list (float * servo_state) :=
  match sv with
  | a :: sv' => (a, sv')
  | [] => ((0%float, SERVO_UNLOCKED), [])
  end.

Definition list_stats_get_result (st : list float) : Z * stats_result :=
  (if (List.length st =? 0)%nat then -1 else 0,
   mk_stats_result 0%float 0%float 0%float 0%float).

(** The [double] nearest to an [int64_t], through its magnitude: the
    primitive conversion takes the integers below 2^63, and 2^63 itself is
    the magnitude of INT64_MIN only. *)
Definition prim_double_of_int64 (z : Z) : float :=
  let magnitude :=
    if Z.abs z <? 2 ^ 63 then PrimFloat.of_uint63 (Uint63.of_Z (Z.abs z))
    else (PrimFloat.of_uint63 (Uint63.of_Z (2 ^ 62)) * 2)%float in
  if z <? 0 then (- magnitude)%float else magnitude.

Definition day_is_utc_ambiguous (ts : Z) : Z :=
  if NS_PER_DAY - ts mod NS_PER_DAY <=? NS_PER_SEC then 1 else 0.

Definition day_leap_second_status (ts leap_set leap utc_offset : Z) : Z * (Z * Z) :=
  let leap_status :=
    if ts mod NS_PER_DAY >? NS_PER_HOUR * 6
    then (if leap_set =? 0 then leap else leap_set)
    else 0 in
  if (leap =? 0) && negb (leap_status =? 0)
  then (leap_status, (leap_status, utc_offset - leap_status))
  else if negb (leap =? 0) && (leap_status =? 0)
  then (leap_status, (0, utc_offset + leap))
  else (leap_status, (leap, utc_offset)).

Definition script_library : Library := {|
  struct_servo := list (float * servo_state);
  servo_null := [];
  servo_create := fun _ _ _ _ => [];
  servo_sample := script_servo_sample;
  struct_stats := list float;
  stats_create := Some [];
  stats_add_value := fun st v => st ++ [v];
  stats_get_num_values := fun st => Z.of_nat (List.length st);
  stats_get_result := list_stats_get_result;
  stats_reset := fun _ => [];
  double_of_int64 := prim_double_of_int64;
  is_utc_ambiguous := day_is_utc_ambiguous;
  leap_second_status := day_leap_second_status
|}.

(** A world without answers and without events. *)
Definition silent_world : world := mk_world [] [] [] [] [] [] [] [] [] [] [].

(** ** Notions used to state the properties *)

(** The calls that act on a clock or on the servo. *)
Definition is_adjust (e : event) : bool :=
  match e with
  | E_servo_sample _ _ | E_clockadj_step _ _ | E_clockadj_set_freq _ _
  | E_clockadj_set_leap _ _ => true
  | _ => false
  end.

(** The lines of the log at level info. *)
Definition is_pr_info (e : event) : bool :=
  match e with E_pr_info _ _ => true | _ => false end.

Definition no_adjust (evs : list event) : Prop :=
  forallb (fun e => negb (is_adjust e)) evs = true.

(** The calls [poll] has answered so far, counted by the answers left. *)
Definition polls_between (w w' : world) : nat :=
  (List.length (w_poll w) - List.length (w_poll w'))%nat.

(** The count of nanoseconds of a [timespec]. *)
Definition ns (t : timespec) : Z := tv_sec t * NS_PER_SEC + tv_nsec t.

(** The three readings of a trial of [read_phc]: the slave, the master, the
    slave again. *)
Definition trial : Type := timespec * timespec * timespec.

(** The readings are counts of nanoseconds that an [int64_t] holds, short of
    its largest value. *)
Definition valid_trial (tr : trial) : Prop :=
  let '(t1, tm, t2) := tr in
  0 <= ns t1 < INT64_MAX /\ 0 <= ns tm < INT64_MAX /\ 0 <= ns t2 < INT64_MAX.

(** The next readings of the clocks succeed and give the [trials], one after
    the other. *)
Fixpoint answers_trials (sysclk clkid : Z) (q : list (Z -> option timespec))
  (trials : list trial) : Prop :=
  match trials with
  | [] => True
  | (t1, tm, t2) :: trials' =>
    match q with
    | a :: b :: d :: q' =>
      a sysclk = Some t1 /\ b clkid = Some tm /\ d sysclk = Some t2
      /\ answers_trials sysclk clkid q' trials'
    | _ => False
    end
  end.

(** What one trial does to the best interval and to [*offset] and [*ts]. *)
Definition keep_best (acc : Z * Z * Z) (tr : trial) : Z * Z * Z :=
  let '(best_interval, offset, ts) := acc in
  let '(tdst1, tsrc, tdst2) := tr in
  let interval := trial_interval tdst1 tdst2 in
  if interval <? best_interval
  then (interval, trial_offset tdst1 tsrc interval, trial_ts tdst2)
  else acc.

(** A response that satisfies the request for the port data set, or for the
    time properties data set, has been received and released. *)
Definition port_satisfied (evs : list event) : Prop :=
  exists msg, In (E_msg_put msg) evs
              /\ is_msg_mgt msg = 1 /\ get_mgt_id msg = PORT_DATA_SET
              /\ (portState msg = PS_MASTER \/ portState msg = PS_SLAVE).

Definition time_satisfied (evs : list event) : Prop :=
  exists msg, In (E_msg_put msg) evs
              /\ is_msg_mgt msg = 1 /\ get_mgt_id msg = TIME_PROPERTIES_DATA_SET.

(** The argument of the last [-O] of the command line. *)
Fixpoint last_forced (opts : list option_arg) : option Z :=
  match opts with
  | [] => None
  | a :: opts' =>
    match last_forced opts' with
    | Some v => Some v
    | None => match a with Opt_O v => Some v | _ => None end
    end
  end.

Section Frames.
Context `{Library}.

(** The fields of the clock that neither the management client nor the leap
    second handling stores to. *)
Definition mgmt_frame (c c' : clock.t) : Prop :=
  clock.clkid c' = clock.clkid c
  /\ clock.servo c' = clock.servo c
  /\ clock.servo_state c' = clock.servo_state c
  /\ clock.source_label c' = clock.source_label c
  /\ clock.offset_stats c' = clock.offset_stats c
  /\ clock.freq_stats c' = clock.freq_stats c
  /\ clock.delay_stats c' = clock.delay_stats c
  /\ clock.stats_max_count c' = clock.stats_max_count c
  /\ clock.sync_offset_direction c' = clock.sync_offset_direction c
  /\ clock.kernel_leap c' = clock.kernel_leap c
  /\ clock.pmc c' = clock.pmc c.

(** The fields that the management client does not store to. *)
Definition pmc_frame (c c' : clock.t) : Prop :=
  mgmt_frame c c'
  /\ clock.leap_set c' = clock.leap_set c
  /\ clock.pmc_last_update c' = clock.pmc_last_update c.

Definition pmc_round_clock (r : pmc_round) : clock.t :=
  match r with Pmc_continue c => c | Pmc_return _ c => c end.

(** What the servo is handed and what is done to the clock for an answer
    [(ppb, state)] of the servo to the offset [o]. *)
Definition sample_events (clkid o ts : Z) (ppb : float) (state : servo_state)
  : list event :=
  E_servo_sample o ts ::
  match state with
  | SERVO_UNLOCKED => []
  | SERVO_JUMP =>
    [E_clockadj_step clkid (int64 (- o)); E_clockadj_set_freq clkid (- ppb)%float]
  | SERVO_LOCKED => [E_clockadj_set_freq clkid (- ppb)%float]
  end.

Definition is_poll (e : event) : bool :=
  match e with E_poll _ _ => true | _ => false end.

(** Between [w] and [w'] the program has called [poll]. *)
Definition polled (w w' : world) : Prop :=
  exists evs, emitted w w' evs /\ existsb is_poll evs = true.

(** The state of the clock under a UTC offset [v] forced with [-O]: the
    offset is subtracted, there is no management client and no leap second
    is known. *)
Definition forced_clock (v : Z) (c : clock.t) : Prop :=
  clock.sync_offset_direction c = -1
  /\ clock.sync_offset c = v
  /\ clock.pmc c = false
  /\ clock.leap c = 0
  /\ clock.leap_set c = 0.

(** The variables of [main] under an offset [v] forced with [-O]. *)
Definition forced_locals (v : Z) (s : main_locals) : Prop :=
  forced_sync_offset s = 1
  /\ clock.sync_offset_direction (dst_clock s) = -1
  /\ clock.sync_offset (dst_clock s) = v.

(** A clock without management client and without leap second. *)
Definition quiet_clock (c : clock.t) : Prop :=
  clock.pmc c = false /\ clock.leap c = 0 /\ clock.leap_set c = 0
  /\ 0 <= clock.pmc_ds_idx c.

(** What the leap second handling does to the kernel: the leap flag is set
    when the value latched changes, the slave is the system clock and the
    kernel is to insert the leap second, and at no other time. *)
Definition leap_outcome (c c' : clock.t) (r : Z) (evs : list event) : Prop :=
  (r <> 0 -> c' = c /\ no_adjust evs)
  /\ (forall k v, In (E_clockadj_set_leap k v) evs ->
                  clock.clkid c = CLOCK_REALTIME /\ clock.kernel_leap c <> 0
                  /\ k = clock.clkid c /\ v = clock.leap_set c'
                  /\ clock.leap_set c' <> clock.leap_set c)
  /\ (clock.clkid c = CLOCK_REALTIME -> clock.kernel_leap c <> 0 ->
      clock.leap_set c' <> clock.leap_set c ->
      In (E_clockadj_set_leap (clock.clkid c) (clock.leap_set c')) evs).

End Frames.

(** The messages that the program has released with [msg_put], the
    messages among the answers of [pmc_recv], and the data sets that the
    program has requested. *)
Definition released (evs : list event) : list ptp_message :=
  flat_map (fun e => match e with E_msg_put m => [m] | _ => [] end) evs.

Definition received (answers : list (option ptp_message)) : list ptp_message :=
  flat_map (fun a => match a with Some m => [m] | None => [] end) answers.

Definition requests (evs : list event) : list Z :=
  flat_map (fun e => match e with E_pmc_send_get_action id => [id] | _ => [] end) evs.

(** The accumulators of the statistics are all three there, or none is. *)
Definition all_stats `{Library} (c : clock.t) : Prop :=
  exists os fs ds,
    clock.offset_stats c = Some os /\ clock.freq_stats c = Some fs
    /\ clock.delay_stats c = Some ds.

Definition no_stats `{Library} (c : clock.t) : Prop :=
  clock.offset_stats c = None /\ clock.freq_stats c = None
  /\ clock.delay_stats c = None.

(** What the sampling loops do not change in the clock: the slave, the
    number of samples of a summary, the leap second by the kernel, the
    management client, and the accumulators being there. *)
Definition same_setup `{Library} (c c' : clock.t) : Prop :=
  clock.clkid c' = clock.clkid c
  /\ clock.stats_max_count c' = clock.stats_max_count c
  /\ clock.kernel_leap c' = clock.kernel_leap c
  /\ clock.pmc c' = clock.pmc c
  /\ (all_stats c -> all_stats c')
  /\ (no_stats c -> no_stats c').

(** The variables of [main] when the options are read: nothing is known of
    ptp4l yet, there are no accumulators, and the UTC offset is applied only
    when it was forced. *)
Definition options_read `{Library} (s : main_locals) : Prop :=
  clock.pmc (dst_clock s) = false
  /\ clock.leap (dst_clock s) = 0
  /\ clock.leap_set (dst_clock s) = 0
  /\ clock.pmc_ds_idx (dst_clock s) = 0
  /\ no_stats (dst_clock s)
  /\ clock.servo_state (dst_clock s) = SERVO_UNLOCKED
  /\ ((forced_sync_offset s = 0
       /\ clock.sync_offset_direction (dst_clock s) = 0
       /\ clock.sync_offset (dst_clock s) = 0)
      \/ (forced_sync_offset s = 1
          /\ clock.sync_offset_direction (dst_clock s) = -1))
  /\ (wait_sync s = 0 \/ wait_sync s = 1).

(** What the wait for ptp4l leaves of the variables of [main] and of the
    clock, and what it decides: the direction in which the UTC offset is
    applied, and whether the management client is kept. *)
Definition waited `{Library} (s s' : main_locals) : Prop :=
  src s' = src s
  /\ forced_sync_offset s' = forced_sync_offset s
  /\ wait_sync s' = wait_sync s
  /\ pps_fd s' = pps_fd s
  /\ pi s' = pi s
  /\ clock.clkid (dst_clock s') = clock.clkid (dst_clock s)
  /\ clock.servo_state (dst_clock s') = clock.servo_state (dst_clock s)
  /\ clock.offset_stats (dst_clock s') = clock.offset_stats (dst_clock s)
  /\ clock.freq_stats (dst_clock s') = clock.freq_stats (dst_clock s)
  /\ clock.delay_stats (dst_clock s') = clock.delay_stats (dst_clock s)
  /\ clock.stats_max_count (dst_clock s') = clock.stats_max_count (dst_clock s)
  /\ clock.kernel_leap (dst_clock s') = clock.kernel_leap (dst_clock s)
  /\ clock.leap_set (dst_clock s') = clock.leap_set (dst_clock s)
  /\ clock.pmc_ds_idx (dst_clock s') = 0
  /\ (wait_sync s = 0 -> dst_clock s' = dst_clock s)
  /\ (clock.pmc (dst_clock s') = true
      <-> wait_sync s <> 0 /\ forced_sync_offset s = 0
          /\ clock.sync_offset_direction (dst_clock s') <> 0)
  /\ (forced_sync_offset s = 0 -> wait_sync s <> 0 ->
      clock.sync_offset_direction (dst_clock s')
      = main_direction (src s) (clock.clkid (dst_clock s)))
  /\ (forced_sync_offset s <> 0 ->
      clock.sync_offset_direction (dst_clock s')
      = clock.sync_offset_direction (dst_clock s)).

(** A clock to which no UTC offset is applied: there is no direction, no
    management client and no leap second. *)
Definition plain_clock `{Library} (c : clock.t) : Prop :=
  clock.sync_offset_direction c = 0
  /\ clock.pmc c = false
  /\ clock.leap c = 0
  /\ clock.leap_set c = 0.

(** The time at which [update_sync_offset] looks up the leap second, for
    the clock [c] as the management data have left it and the surroundings
    [w] at that point.  There is none when no leap second is pending or
    latched, and none when the system clock cannot be read.  For a slave
    that is not the system clock it is what CLOCK_REALTIME shows at its next
    reading; for the system clock it is the time stamp of the sample, and
    with the servo unlocked the time after the step that is coming. *)
Definition leap_time `{Library} (c : clock.t) (offset ts : Z) (w : world) : option Z :=
  if (clock.leap c =? 0) && (clock.leap_set c =? 0) then None
  else if clock.clkid c =? CLOCK_REALTIME then
    Some (match clock.servo_state c with
          | SERVO_UNLOCKED => uint64 (ts - int64 (offset + sync_offset_ns c))
          | _ => ts
          end)
  else
    match w_gettime w with
    | now :: _ =>
      match now CLOCK_REALTIME with
      | Some tp => Some (uint64 (tv_sec tp * NS_PER_SEC + tv_nsec tp))
      | None => None
      end
    | [] => None
    end.

(** The offsets and time stamps that the program has handed to the servo. *)
Definition samples (evs : list event) : list (Z * Z) :=
  flat_map (fun e => match e with E_servo_sample o t => [(o, t)] | _ => [] end) evs.

(** ** Inputs on which the program is evaluated *)

(** A clock of the script library without accumulators, as [main] sets it
    up: the slave, the answers of the servo, the direction, the UTC offset,
    the pending leap, and the kernel leap flag. *)
Definition sample_clock (clkid : Z) (answers : list (float * servo_state))
  (direction utc_offset leap kernel_leap : Z) : @clock.t script_library :=
  clock.mk script_library clkid answers SERVO_UNLOCKED "phc" None None None 0
    utc_offset direction leap 0 kernel_leap false 0 0 0.

(** The same with a management client that was last heard at [last]. *)
Definition managed_clock (last : Z) : @clock.t script_library :=
  clock.set_pmc_last_update last
    (clock.set_pmc true (sample_clock CLOCK_REALTIME [] 1 36 0 1)).

(** The PHC behind the descriptor 3, the slave of a PHC to PHC run. *)
Definition phc_3 : Z := FD_TO_CLOCKID 3.
Definition phc_4 : Z := FD_TO_CLOCKID 4.

(** 2016-12-31 23:59:30 UTC, thirty seconds before a midnight. *)
Definition before_midnight : timespec := mk_timespec 1483228770 0.

Definition world_before_midnight : world :=
  set_gettime [fun _ => Some before_midnight] silent_world.

(** The management transport is ready for a request. *)
Definition world_pollout : world := set_poll [(1, POLLOUT)] silent_world.

(** Two assertions of the PPS wait to be fetched; the next reading of a
    clock fails, the one after it would succeed. *)
Definition world_read_fails : world :=
  set_pps [Some (mk_pps_ktime 1700000000 250); Some (mk_pps_ktime 1700000001 260)]
    (set_gettime [fun _ => None; fun _ => Some (mk_timespec 1700000001 0)]
       silent_world).

(** The next fetch of the PPS fails, the one after it would succeed. *)
Definition world_fetch_fails : world :=
  set_pps [None; Some (mk_pps_ktime 1700000001 260)] silent_world.

(** [open] gives the descriptor 3; the PPS is asserted 250 ns after a
    second. *)
Definition world_pure_pps : world :=
  set_open [3] (set_pps [Some (mk_pps_ktime 1700000000 250)] silent_world).

(** The PPS is asserted 1000 ns before a second. *)
Definition world_pps_early : world :=
  set_pps [Some (mk_pps_ktime 1700000000 999999000)] silent_world.

(** Two trials of [read_phc]: the system clock, the PHC, which is 37 s
    ahead, and the system clock again, 400 ns and then 200 ns later. *)
Definition sample_trials : list trial :=
  [(mk_timespec 1700000000 100, mk_timespec 1700000037 90, mk_timespec 1700000000 500);
   (mk_timespec 1700000001 100, mk_timespec 1700000038 150, mk_timespec 1700000001 300)].

(** The readings that give the trials: a clock answers with the reading
    that is its own. *)
Definition world_trials : world :=
  set_gettime
    [fun clk => if clk =? CLOCK_REALTIME then Some (mk_timespec 1700000000 100) else None;
     fun clk => if clk =? phc_3 then Some (mk_timespec 1700000037 90) else None;
     fun clk => if clk =? CLOCK_REALTIME then Some (mk_timespec 1700000000 500) else None;
     fun clk => if clk =? CLOCK_REALTIME then Some (mk_timespec 1700000001 100) else None;
     fun clk => if clk =? phc_3 then Some (mk_timespec 1700000038 150) else None;
     fun clk => if clk =? CLOCK_REALTIME then Some (mk_timespec 1700000001 300) else None]
    silent_world.

(** A PPS asserted 5000 ns after a second, and one trial in which the PHC,
    37 s ahead, shows [phc_nsec] ns after its second. *)
Definition world_hybrid (phc_nsec : Z) : world :=
  set_pps [Some (mk_pps_ktime 1700000000 5000)]
    (set_gettime
       [fun _ => Some (mk_timespec 1700000000 9999000);
        fun _ => Some (mk_timespec 1700000037 phc_nsec);
        fun _ => Some (mk_timespec 1700000000 9999200)]
       silent_world).

(** Responses of ptp4l: the port data set with a port state, and the time
    properties with UTC offset 37 and a leap second to insert. *)
Definition port_response (state : Z) : ptp_message :=
  mk_ptp_message MANAGEMENT RESPONSE 1 TLV_MANAGEMENT PORT_DATA_SET state 0 0.

Definition time_response : ptp_message :=
  mk_ptp_message MANAGEMENT RESPONSE 1 TLV_MANAGEMENT TIME_PROPERTIES_DATA_SET 0 37
    LEAP_61.

(** The port data set is requested and answered, port state slave, then the
    time properties. *)
Definition world_ptp4l : world :=
  set_poll [(1, POLLOUT); (1, POLLIN); (1, POLLOUT); (1, POLLIN)]
    (set_recv [Some (port_response PS_SLAVE); Some time_response] silent_world).

(** The time properties are requested and answered. *)
Definition world_time_properties : world :=
  set_poll [(1, POLLOUT); (1, POLLIN)] (set_recv [Some time_response] silent_world).

(** A response is waiting: the port is in state master, or still
    listening (4). *)
Definition world_port_response (state : Z) : world :=
  set_poll [(1, POLLIN)] (set_recv [Some (port_response state)] silent_world).

(** [open] gives the descriptor 4. *)
Definition world_device : world := set_open [4] silent_world.

(** A clock whose cursor is on the time properties, and the response with
    the time properties waiting. *)
Definition time_cursor_clock : @clock.t script_library :=
  clock.set_pmc_ds_idx 1 (sample_clock CLOCK_REALTIME [] 0 0 0 1).

Definition world_time_response : world :=
  set_poll [(1, POLLIN)] (set_recv [Some time_response] silent_world).


(* ================================================================== *)
(** * Properties *)

(** ** Integer conversions *)

Lemma int64_in_range (z : Z) : - 2 ^ 63 <= z < 2 ^ 63 -> int64 z = z.
Proof.
  intros Hz. unfold int64, to_signed.
  change (64 - 1) with 63.
  rewrite Z.mod_small; lia.
Qed.

Lemma uint64_in_range (z : Z) : 0 <= z < 2 ^ 64 -> uint64 z = z.
Proof. intros Hz. unfold uint64, to_unsigned. apply Z.mod_small. exact Hz. Qed.

Lemma uint64_bounds (z : Z) : 0 <= uint64 z < 2 ^ 64.
Proof. unfold uint64, to_unsigned. apply Z.mod_pos_bound. lia. Qed.

Lemma int64_bounds (z : Z) : - 2 ^ 63 <= int64 z < 2 ^ 63.
Proof.
  unfold int64, to_signed. change (64 - 1) with 63.
  pose proof (Z.mod_pos_bound (z + 2 ^ 63) (2 ^ 64) ltac:(lia)). lia.
Qed.

(** ** Events *)

Lemma emitted_refl (w : world) : emitted w w [].
Proof. unfold emitted. now rewrite app_nil_r. Qed.

Lemma emitted_trans (w1 w2 w3 : world) (e1 e2 : list event) :
  emitted w1 w2 e1 -> emitted w2 w3 e2 -> emitted w1 w3 (e1 ++ e2).
Proof. unfold emitted. intros H1 H2. now rewrite H2, H1, app_assoc. Qed.

Lemma emit_emitted (e : event) (w : world) : emitted w (snd (emit e w)) [e].
Proof. reflexivity. Qed.

Lemma emitted_inj (w w' : world) (e1 e2 : list event) :
  emitted w w' e1 -> emitted w w' e2 -> e1 = e2.
Proof. unfold emitted. intros H1 H2. rewrite H1 in H2. now apply app_inv_head in H2. Qed.

(** Closes a goal [emitted w w' ?evs] on worlds built by [emit] and the
    setters of the queues. *)
Ltac solve_emitted :=
  unfold emitted; cbn;
  first [ reflexivity
        | symmetry; apply app_nil_r
        | rewrite <- ?app_assoc; cbn; reflexivity ].

(** Unfolds the calls that leave the file. *)
Ltac prims :=
  unfold clock_gettime, pps_fetch, poll, pmc_recv, sysoff_measure, open_,
    pmc_create, sk_get_ts_info, clockadj_get_freq, sysoff_probe;
  unfold answer, emit, ret, bind.

(** Reduces the projections of the records of the clock and of the world. *)
Ltac fields :=
  cbn [
       clock.clkid clock.servo clock.servo_state clock.source_label
       clock.offset_stats clock.freq_stats clock.delay_stats clock.stats_max_count
       clock.sync_offset clock.sync_offset_direction clock.leap clock.leap_set
       clock.kernel_leap clock.pmc clock.pmc_ds_idx clock.pmc_ds_requested
       clock.pmc_last_update clock.set_clkid clock.set_servo clock.set_servo_state
       clock.set_source_label clock.set_stats clock.set_stats_max_count
       clock.set_sync_offset clock.set_sync_offset_direction clock.set_leap
       clock.set_leap_set clock.set_kernel_leap clock.set_pmc clock.set_pmc_ds_idx
       clock.set_pmc_ds_requested clock.set_pmc_last_update w_gettime w_pps w_poll
       w_recv w_open w_ts_info w_sysoff_probe w_sysoff w_pmc_create w_get_freq
       w_trace set_gettime set_pps set_poll set_recv set_open set_ts_info
       set_sysoff_probe set_sysoff set_pmc_create set_get_freq set_trace fst snd
       List.length pmc_round_clock].

Lemma sub_mod_self (a n : Z) : (a - a mod n) mod n = 0.
Proof. rewrite Zminus_mod_idemp_r, Z.sub_diag. apply Zmod_0_l. Qed.

(** ** The PPS sampler *)

(** What a fetch of the PPS that succeeds has read and stored. *)
Lemma read_pps_answered (fd : Z) (w w' : world) (offset ts : Z) :
  read_pps fd w = (Some (offset, ts), w') ->
  exists a, w_pps w = Some a :: w_pps w'
            /\ ts = uint64 (pk_sec a * NS_PER_SEC + pk_nsec a)
            /\ offset = (if int64 (ts mod NS_PER_SEC) >? Z.quot NS_PER_SEC 2
                         then int64 (int64 (ts mod NS_PER_SEC) - NS_PER_SEC)
                         else int64 (ts mod NS_PER_SEC)).
Proof.
  unfold read_pps. prims. fields.
  destruct (w_pps w) as [|[a|] q] eqn:Hq; try discriminate.
  intros Heq. injection Heq as Hoff Hts Hw. subst w'. cbn [w_pps set_pps].
  exists a. split; [reflexivity|]. split.
  - rewrite <- Hts. unfold uint64, to_unsigned.
    rewrite Zplus_mod_idemp_l. reflexivity.
  - rewrite <- Hoff, Hts. reflexivity.
Qed.

(** C3.  A fetch of the PPS that succeeds stores an offset that lies in
    (-5*10^8, 5*10^8] and differs from the time stamp stored, which is the
    nanosecond count of the assertion time, by a whole number of seconds. *)
Theorem read_pps_offset_range (fd : Z) (w w' : world) (offset ts : Z) :
  read_pps fd w = (Some (offset, ts), w') ->
  (exists a, w_pps w = Some a :: w_pps w'
             /\ ts = uint64 (pk_sec a * NS_PER_SEC + pk_nsec a))
  /\ - 500000000 < offset <= 500000000
  /\ (ts - offset) mod 1000000000 = 0.
Proof.
  intros Hread.
  destruct (read_pps_answered fd w w' offset ts Hread) as (a & Hq & Hts' & Hoff).
  assert (Hmod : 0 <= ts mod NS_PER_SEC < NS_PER_SEC)
    by (apply Z.mod_pos_bound; reflexivity).
  split; [exists a; split; [exact Hq | exact Hts']|].
  symmetry in Hoff.
  change (Z.quot NS_PER_SEC 2) with 500000000 in Hoff.
  unfold NS_PER_SEC in *.
  rewrite (int64_in_range (ts mod 1000000000)) in Hoff by lia.
  destruct (ts mod 1000000000 >? 500000000) eqn:Hcmp.
  - rewrite int64_in_range in Hoff by lia.
    apply Z.gtb_lt in Hcmp. subst offset. split; [lia|].
    replace (ts - (ts mod 1000000000 - 1000000000))
      with (ts - ts mod 1000000000 + 1 * 1000000000) by ring.
    rewrite Z_mod_plus_full. apply sub_mod_self.
  - subst offset. split.
    + destruct (Z.gtb_spec (ts mod 1000000000) 500000000); [discriminate | lia].
    + apply sub_mod_self.
Qed.

(** ** The cross sampling of two clocks *)

Lemma read_trial_answered (clkid sysclk : Z) (w : world) (t1 tm t2 : timespec)
  (a b d : Z -> option timespec) (q : list (Z -> option timespec)) :
  w_gettime w = a :: b :: d :: q ->
  a sysclk = Some t1 -> b clkid = Some tm -> d sysclk = Some t2 ->
  fst (read_trial clkid sysclk w) = Some (t1, tm, t2)
  /\ w_gettime (snd (read_trial clkid sysclk w)) = q.
Proof.
  intros Hq Ha Hb Hd. unfold read_trial. prims. fields.
  rewrite Hq. fields. rewrite Ha. fields. rewrite Hb. fields. rewrite Hd. fields.
  split; reflexivity.
Qed.

Lemma read_phc_loop_fold (clkid sysclk : Z) (trials : list trial) :
  forall (best offset ts : Z) (w : world),
    answers_trials sysclk clkid (w_gettime w) trials ->
    fst (read_phc_loop (List.length trials) clkid sysclk best offset ts w)
    = (true, fold_left keep_best trials (best, offset, ts)).
Proof.
  induction trials as [|[[t1 tm] t2] trials IH]; intros best offset ts w Hans.
  - reflexivity.
  - cbn [answers_trials] in Hans.
    destruct (w_gettime w) as [|a [|b [|d q]]] eqn:Hq; try contradiction.
    destruct Hans as (Ha & Hb & Hd & Hrest).
    destruct (read_trial_answered clkid sysclk w t1 tm t2 a b d q Hq Ha Hb Hd)
      as [Hr Hw].
    cbn [List.length read_phc_loop fold_left keep_best]. unfold bind.
    destruct (read_trial clkid sysclk w) as [r w1]. cbn [fst snd] in Hr, Hw.
    subst r. rewrite <- Hw in Hrest.
    destruct (trial_interval t1 t2 <? best); now apply IH.
Qed.

Lemma keep_best_minimum (trials : list trial) :
  forall acc : Z * Z * Z,
    let res := fold_left keep_best trials acc in
    (res = acc
     /\ forall t1 tm t2, In (t1, tm, t2) trials -> fst (fst acc) <= trial_interval t1 t2)
    \/ (exists t1 tm t2,
          In (t1, tm, t2) trials
          /\ res = (trial_interval t1 t2,
                    trial_offset t1 tm (trial_interval t1 t2), trial_ts t2)
          /\ trial_interval t1 t2 < fst (fst acc)
          /\ forall t1' tm' t2', In (t1', tm', t2') trials ->
                                 trial_interval t1 t2 <= trial_interval t1' t2').
Proof.
  induction trials as [|[[t1 tm] t2] trials IH]; intros [[best offset] ts]; cbv zeta.
  - left. split; [reflexivity | intros ? ? ? []].
  - cbn [fold_left keep_best fst].
    destruct (Z.ltb_spec (trial_interval t1 t2) best) as [Hlt|Hge].
    + specialize (IH (trial_interval t1 t2,
                      trial_offset t1 tm (trial_interval t1 t2), trial_ts t2)).
      cbv zeta in IH. cbn [fst] in IH. right.
      destruct IH as [[Hres Hall]|(u1 & um & u2 & Hin & Hres & Hless & Hmin)].
      * exists t1, tm, t2. split; [now left|]. split; [exact Hres|].
        split; [exact Hlt|].
        intros t1' tm' t2' [Heq|Hin]; [injection Heq as <- <- <-; lia | eauto].
      * exists u1, um, u2. split; [now right|]. split; [exact Hres|].
        split; [lia|].
        intros t1' tm' t2' [Heq|Hin']; [injection Heq as <- <- <-; lia | eauto].
    + specialize (IH (best, offset, ts)). cbv zeta in IH. cbn [fst] in IH.
      destruct IH as [[Hres Hall]|(u1 & um & u2 & Hin & Hres & Hless & Hmin)].
      * left. split; [exact Hres|].
        intros t1' tm' t2' [Heq|Hin]; [injection Heq as <- <- <-; lia | eauto].
      * right. exists u1, um, u2. split; [now right|]. split; [exact Hres|].
        split; [exact Hless|].
        intros t1' tm' t2' [Heq|Hin']; [injection Heq as <- <- <-; lia | eauto].
Qed.

Lemma valid_trial_values (t1 tm t2 : timespec) :
  valid_trial (t1, tm, t2) ->
  trial_interval t1 t2 = ns t2 - ns t1
  /\ trial_offset t1 tm (trial_interval t1 t2)
     = ns t1 - ns tm + Z.quot (ns t2 - ns t1) 2
  /\ trial_ts t2 = ns t2
  /\ ns t2 - ns t1 < INT64_MAX.
Proof.
  unfold valid_trial, INT64_MAX. intros (H1 & Hm & H2).
  assert (Hi : trial_interval t1 t2 = ns t2 - ns t1).
  { unfold trial_interval, ns in *. rewrite int64_in_range; lia. }
  split; [exact Hi|]. rewrite Hi. split; [|split].
  - unfold trial_offset.
    replace ((tv_sec t1 - tv_sec tm) * NS_PER_SEC + tv_nsec t1 - tv_nsec tm
             + Z.quot (ns t2 - ns t1) 2)
      with (ns t1 - ns tm + Z.quot (ns t2 - ns t1) 2) by (unfold ns; ring).
    apply int64_in_range.
    pose proof (Z.quot_rem' (ns t2 - ns t1) 2) as Hq.
    pose proof (Z.rem_bound_abs (ns t2 - ns t1) 2 ltac:(lia)) as Hr.
    lia.
  - unfold trial_ts. fold (ns t2). apply uint64_in_range. lia.
  - lia.
Qed.

Section Properties.
Context `{Library}.

(** ** The servo and the clock adjustment *)

Lemma update_clock_stats_events (c : clock.t) (offset : Z) (freq : float) (delay : Z)
  (w : world) :
  exists evs, emitted w (snd (update_clock_stats c offset freq delay w)) evs
              /\ forallb is_pr_info evs = true.
Proof.
  unfold update_clock_stats, bind, emit, ret.
  destruct (clock.offset_stats c), (clock.freq_stats c), (clock.delay_stats c);
    try (exists []; split; [apply emitted_refl | reflexivity]).
  destruct (_ <? _); [exists []; split; [apply emitted_refl | reflexivity]|].
  destruct (stats_get_result _) as [r res].
  destruct (r =? 0); eexists; (split; [solve_emitted | reflexivity]).
Qed.

Lemma update_clock_stats_servo_state (c : clock.t) (offset : Z) (freq : float)
  (delay : Z) (w : world) :
  clock.servo_state (fst (update_clock_stats c offset freq delay w))
  = clock.servo_state c.
Proof.
  unfold update_clock_stats, bind, emit, ret.
  destruct (clock.offset_stats c), (clock.freq_stats c), (clock.delay_stats c);
    try reflexivity.
  destruct (_ <? _); [reflexivity|].
  destruct (stats_get_result _) as [r res].
  destruct (r =? 0); reflexivity.
Qed.

Lemma adjust_clock_events (clkid : Z) (state : servo_state) (o ts : Z) (ppb : float)
  (w : world) :
  emitted w (snd (adjust_clock clkid state o ppb (snd (emit (E_servo_sample o ts) w))))
    (sample_events clkid o ts ppb state).
Proof.
  unfold sample_events, adjust_clock, bind, emit, ret.
  destruct state; solve_emitted.
Qed.

(** A sample that the leap second handling lets through: the servo is
    handed the corrected offset, the clock is adjusted as its answer demands,
    and only lines of the log follow. *)
Lemma update_clock_sampled (c c1 : clock.t) (offset ts delay : Z) (w w1 : world)
  (ppb : float) (state : servo_state) (sv : struct_servo) :
  update_sync_offset c offset ts w = ((0, c1), w1) ->
  servo_sample (clock.servo c1) (corrected_offset c1 offset) ts = (ppb, state, sv) ->
  exists evs,
    emitted w1 (snd (update_clock c offset ts delay w))
      (sample_events (clock.clkid c1) (corrected_offset c1 offset) ts ppb state ++ evs)
    /\ forallb is_pr_info evs = true.
Proof.
  intros Hsync Hservo. unfold update_clock, bind. rewrite Hsync.
  cbn [Z.eqb negb]. rewrite Hservo.
  set (o := corrected_offset c1 offset).
  destruct (emit (E_servo_sample o ts) w1) as [u w2] eqn:Hemit.
  pose proof (adjust_clock_events (clock.clkid c1) state o ts ppb w1) as Hadj.
  rewrite Hemit in Hadj. cbn [snd] in Hadj. fields.
  destruct (adjust_clock (clock.clkid c1) state o ppb w2) as [u' w3].
  cbn [snd] in Hadj.
  destruct (clock.offset_stats c1) as [os|] eqn:Hos.
  - destruct (update_clock_stats_events
                (clock.set_servo_state state (clock.set_servo sv c1))
                o ppb delay w3) as (evs & Hevs & Hinfo).
    exists evs. split; [|exact Hinfo].
    eapply emitted_trans; [exact Hadj | exact Hevs].
  - destruct (delay >=? 0); unfold emit, ret, bind; fields;
      eexists; (split; [eapply emitted_trans; [exact Hadj | solve_emitted]|]);
      reflexivity.
Qed.

(** C5.  When the leap second handling lets a sample through, the servo is
    handed the corrected offset [o] and answers [(ppb, state)]; then nothing
    is done to the clock in state unlocked, the clock is stepped by [- o] and
    its frequency set to [- ppb] in state jump, and only its frequency is set
    to [- ppb] in state locked.  Only lines of the log follow. *)
Theorem update_clock_dispatch (c c1 : clock.t) (offset ts delay : Z) (w w1 : world)
  (ppb : float) (state : servo_state) (sv : struct_servo) :
  update_sync_offset c offset ts w = ((0, c1), w1) ->
  servo_sample (clock.servo c1) (corrected_offset c1 offset) ts = (ppb, state, sv) ->
  - 2 ^ 63 < corrected_offset c1 offset < 2 ^ 63 ->
  let o := corrected_offset c1 offset in
  let r := update_clock c offset ts delay w in
  exists evs,
    emitted w1 (snd r)
      (E_servo_sample o ts ::
       match state with
       | SERVO_UNLOCKED => []
       | SERVO_JUMP => [E_clockadj_step (clock.clkid c1) (- o);
                        E_clockadj_set_freq (clock.clkid c1) (- ppb)%float]
       | SERVO_LOCKED => [E_clockadj_set_freq (clock.clkid c1) (- ppb)%float]
       end ++ evs)
    /\ forallb is_pr_info evs = true
    /\ clock.servo_state (fst r) = state.
Proof.
  intros Hsync Hservo Ho o r. subst r.
  unfold update_clock, bind. rewrite Hsync. cbn [Z.eqb negb].
  fold o. fold o in Hservo. rewrite Hservo.
  destruct (emit (E_servo_sample o ts) w1) as [u w2] eqn:Hemit.
  pose proof (adjust_clock_events (clock.clkid c1) state o ts ppb w1) as Hadj.
  rewrite Hemit in Hadj. cbn [snd] in Hadj.
  unfold sample_events in Hadj. rewrite (int64_in_range (- o)) in Hadj by (subst o; lia).
  cbn [clock.clkid clock.set_servo_state clock.set_servo].
  destruct (adjust_clock (clock.clkid c1) state o ppb w2) as [u' w3].
  cbn [snd] in Hadj.
  cbn [clock.offset_stats clock.set_servo_state clock.set_servo].
  destruct (clock.offset_stats c1) eqn:Hstats.
  - pose proof (update_clock_stats_events
                  (clock.set_servo_state state (clock.set_servo sv c1))
                  o ppb delay w3) as (evs & Hevs & Hinfo).
    exists evs. split; [|split; [exact Hinfo|]].
    + change (E_servo_sample o ts :: ?l ++ evs)
        with ((E_servo_sample o ts :: l) ++ evs).
      eapply emitted_trans; [exact Hadj | exact Hevs].
    + apply update_clock_stats_servo_state.
  - destruct (delay >=? 0); cbn; eexists; (split; [|split; [|reflexivity]]).
    1, 3: change (E_servo_sample o ts :: ?l ++ ?evs)
            with ((E_servo_sample o ts :: l) ++ evs);
          eapply emitted_trans; [exact Hadj | solve_emitted].
    all: reflexivity.
Qed.

(** ** The management client *)

Lemma mgmt_frame_refl (c : clock.t) : mgmt_frame c c.
Proof. unfold mgmt_frame. repeat split. Qed.

Lemma mgmt_frame_trans (c1 c2 c3 : clock.t) :
  mgmt_frame c1 c2 -> mgmt_frame c2 c3 -> mgmt_frame c1 c3.
Proof. unfold mgmt_frame. intuition congruence. Qed.

Lemma pmc_frame_refl (c : clock.t) : pmc_frame c c.
Proof. unfold pmc_frame. auto using mgmt_frame_refl. Qed.

Lemma pmc_frame_trans (c1 c2 c3 : clock.t) :
  pmc_frame c1 c2 -> pmc_frame c2 c3 -> pmc_frame c1 c3.
Proof.
  unfold pmc_frame. intros (F1 & L1 & U1) (F2 & L2 & U2).
  split; [eauto using mgmt_frame_trans | split; congruence].
Qed.

Lemma no_adjust_app (e1 e2 : list event) :
  no_adjust e1 -> no_adjust e2 -> no_adjust (e1 ++ e2).
Proof. unfold no_adjust. intros H1 H2. now rewrite forallb_app, H1, H2. Qed.

(** Splits the goal along the tests of the program. *)
Ltac split_tests :=
  repeat match goal with
         | |- context [if ?b then _ else _] => destruct b
         | |- context [match ?x with Some _ => _ | None => _ end] => destruct x
         | |- context [let (_, _) := ?x in _] => destruct x
         end.

Ltac solve_frame :=
  unfold pmc_frame, mgmt_frame; cbn; repeat split.

Lemma pmc_handle_data_frame (c : clock.t) (msg : ptp_message) :
  pmc_frame c (fst (pmc_handle_data c msg))
  /\ clock.pmc_ds_idx (fst (pmc_handle_data c msg)) = clock.pmc_ds_idx c
  /\ clock.pmc_ds_requested (fst (pmc_handle_data c msg)) = clock.pmc_ds_requested c.
Proof. unfold pmc_handle_data. split_tests; solve_frame. Qed.

Lemma run_pmc_round_spec (c : clock.t) (timeout wait_sync get_utc_offset : Z) (w : world) :
  let r := run_pmc_round c timeout wait_sync get_utc_offset w in
  pmc_frame c (pmc_round_clock (fst r))
  /\ exists evs, emitted w (snd r) evs /\ no_adjust evs.
Proof.
  cbv zeta. unfold run_pmc_round. prims. fields.
  destruct (_ || _).
  { split; [solve_frame | exists []; split; [apply emitted_refl | reflexivity]]. }
  destruct (w_poll w) as [|[cnt revents] q]; fields.
  { split; [solve_frame | eexists; split; [solve_emitted | reflexivity]]. }
  destruct (cnt <? 0).
  { split; [solve_frame | eexists; split; [solve_emitted | reflexivity]]. }
  destruct (cnt =? 0).
  { split; [solve_frame | eexists; split; [solve_emitted | reflexivity]]. }
  destruct (negb (Z.land revents POLLOUT =? 0) && _);
    destruct (Z.land revents _ =? 0);
    try (split; [solve_frame | eexists; split; [solve_emitted | reflexivity]]).
  all: fields; destruct (w_recv w) as [|[msg|] qr];
    try (split; [solve_frame | eexists; split; [solve_emitted | reflexivity]]).
  all: destruct (_ || _);
    try (split; [solve_frame | eexists; split; [solve_emitted | reflexivity]]).
  all: match goal with
       | |- context [pmc_handle_data ?c' ?m] =>
         destruct (pmc_handle_data_frame c' m) as (Hf' & _ & _);
         destruct (pmc_handle_data c' m) as [c2 ds_done]
       end;
    cbn [fst] in Hf'; unfold pmc_frame, mgmt_frame in Hf'; cbn in Hf';
    destruct (negb (ds_done =? 0));
    (split; [solve_frame; intuition congruence
            | eexists; split; [solve_emitted | reflexivity]]).
Qed.

Lemma run_pmc_loop_spec (fuel : nat) (timeout wait_sync get_utc_offset : Z) :
  forall (c : clock.t) (w : world),
    let r := run_pmc_loop fuel c timeout wait_sync get_utc_offset w in
    match fst r with Some (_, c') => pmc_frame c c' | None => True end
    /\ exists evs, emitted w (snd r) evs /\ no_adjust evs.
Proof.
  induction fuel as [|fuel IH]; intros c w; cbn [run_pmc_loop].
  - destruct (clock.pmc_ds_idx c <? N_ID); cbn.
    + split; [exact I | exists []; split; [apply emitted_refl | reflexivity]].
    + split; [solve_frame | exists []; split; [apply emitted_refl | reflexivity]].
  - destruct (clock.pmc_ds_idx c <? N_ID); cbn.
    2: { split; [solve_frame | exists []; split; [apply emitted_refl | reflexivity]]. }
    unfold bind.
    pose proof (run_pmc_round_spec c timeout wait_sync get_utc_offset w) as Hr.
    cbv zeta in Hr.
    destruct (run_pmc_round c timeout wait_sync get_utc_offset w) as [[c'|r c'] w'].
    + cbn [fst snd pmc_round_clock] in Hr. destruct Hr as (Hf & e1 & He1 & Hn1).
      specialize (IH c' w'). cbv zeta in IH. destruct IH as (Hf' & e2 & He2 & Hn2).
      split.
      * destruct (fst (run_pmc_loop fuel c' timeout wait_sync get_utc_offset w'))
          as [[r c'']|]; [eauto using pmc_frame_trans | exact I].
      * exists (e1 ++ e2). split; [eauto using emitted_trans | now apply no_adjust_app].
    + cbn [fst snd pmc_round_clock] in Hr. destruct Hr as (Hf & e1 & He1 & Hn1).
      cbn. split; [exact Hf | eauto].
Qed.

(** The measure that every round of the loop lowers. *)
Lemma run_pmc_round_measure (c : clock.t) (timeout wait_sync get_utc_offset : Z)
  (w : world) :
  clock.pmc_ds_idx c < N_ID ->
  match run_pmc_round c timeout wait_sync get_utc_offset w with
  | (Pmc_continue c', w') =>
    (List.length (w_poll w') + Z.to_nat (N_ID - clock.pmc_ds_idx c')
     < List.length (w_poll w) + Z.to_nat (N_ID - clock.pmc_ds_idx c))%nat
  | (Pmc_return _ _, _) => True
  end.
Proof.
  intros Hidx. unfold run_pmc_round. prims. fields.
  destruct (_ || _); [fields; lia|].
  destruct (w_poll w) as [|[cnt revents] q]; fields; [exact I|].
  destruct (cnt <? 0); [exact I|].
  destruct (cnt =? 0); [exact I|].
  destruct (negb (Z.land revents POLLOUT =? 0) && _);
    destruct (Z.land revents _ =? 0);
    try (fields; lia).
  all: fields; destruct (w_recv w) as [|[msg|] qr]; try (fields; lia).
  all: destruct (_ || _); try (fields; lia).
  all: match goal with
       | |- context [pmc_handle_data ?c' ?m] =>
         destruct (pmc_handle_data_frame c' m) as (_ & Hi & _);
         destruct (pmc_handle_data c' m) as [c2 ds_done]
       end;
    revert Hi; fields; intros Hi; destruct (negb (ds_done =? 0)); fields; lia.
Qed.

(** The loop of [run_pmc] comes to its end: the rounds that [run_pmc] allows
    are never used up. *)
Lemma run_pmc_loop_fuel (fuel : nat) (timeout wait_sync get_utc_offset : Z) :
  forall (c : clock.t) (w : world),
    (List.length (w_poll w) + Z.to_nat (N_ID - clock.pmc_ds_idx c) < fuel)%nat ->
    fst (run_pmc_loop fuel c timeout wait_sync get_utc_offset w) <> None.
Proof.
  induction fuel as [|fuel IH]; intros c w Hfuel; [lia|].
  cbn [run_pmc_loop].
  destruct (Z.ltb_spec (clock.pmc_ds_idx c) N_ID) as [Hidx|Hidx]; [|discriminate].
  unfold bind.
  pose proof (run_pmc_round_measure c timeout wait_sync get_utc_offset w Hidx) as Hm.
  destruct (run_pmc_round c timeout wait_sync get_utc_offset w) as [[c'|r c'] w'].
  - apply IH. lia.
  - discriminate.
Qed.

Lemma run_pmc_loop_result (c : clock.t) (timeout wait_sync get_utc_offset : Z) (w : world) :
  exists r c',
    fst (run_pmc_loop (run_pmc_fuel c w) c timeout wait_sync get_utc_offset w)
    = Some (r, c').
Proof.
  pose proof (run_pmc_loop_fuel (run_pmc_fuel c w) timeout wait_sync get_utc_offset c w)
    as Hne.
  destruct (fst _) as [[r c']|].
  - now exists r, c'.
  - exfalso. apply Hne; [unfold run_pmc_fuel; lia | reflexivity].
Qed.

Lemma run_pmc_unfold (c : clock.t) (timeout wait_sync get_utc_offset : Z) (w : world) :
  exists r c',
    run_pmc_loop (run_pmc_fuel c w) c timeout wait_sync get_utc_offset w
    = (Some (r, c'), snd (run_pmc c timeout wait_sync get_utc_offset w))
    /\ fst (run_pmc c timeout wait_sync get_utc_offset w) = (r, c').
Proof.
  destruct (run_pmc_loop_result c timeout wait_sync get_utc_offset w) as (r & c' & Hr).
  exists r, c'. unfold run_pmc.
  destruct (run_pmc_loop _ c timeout wait_sync get_utc_offset w) as [o w'].
  cbn [fst] in Hr. subst o. split; reflexivity.
Qed.

Lemma run_pmc_spec (c : clock.t) (timeout wait_sync get_utc_offset : Z) (w : world) :
  let r := run_pmc c timeout wait_sync get_utc_offset w in
  pmc_frame c (snd (fst r))
  /\ exists evs, emitted w (snd r) evs /\ no_adjust evs.
Proof.
  cbv zeta.
  destruct (run_pmc_unfold c timeout wait_sync get_utc_offset w) as (r & c' & Hl & Hr).
  pose proof (run_pmc_loop_spec (run_pmc_fuel c w) timeout wait_sync get_utc_offset c w)
    as Hs.
  cbv zeta in Hs. rewrite Hl in Hs. cbn [fst snd] in Hs.
  rewrite Hr. exact Hs.
Qed.

(** ** The leap second handling *)

Lemma update_sync_offset_pmc_spec (c : clock.t) (ts : Z) (w : world) :
  let r := update_sync_offset_pmc c ts w in
  mgmt_frame c (fst r)
  /\ clock.leap_set (fst r) = clock.leap_set c
  /\ exists evs, emitted w (snd r) evs /\ no_adjust evs.
Proof.
  cbv zeta. unfold update_sync_offset_pmc.
  destruct (pmc_update_due c ts).
  2: { cbn. split; [apply mgmt_frame_refl | split; [reflexivity|]].
       exists []. split; [apply emitted_refl | reflexivity]. }
  unfold bind, ret.
  destruct (run_pmc_spec c 0 0 1 w) as ((Hf & Hl & _) & evs & Hev & Hn).
  destruct (run_pmc c 0 0 1 w) as [[r c'] w']. cbn [fst snd] in *.
  split; [|split; [|eauto]].
  - destruct (r >? 0); [|exact Hf].
    revert Hf. unfold mgmt_frame. fields. tauto.
  - destruct (r >? 0); exact Hl.
Qed.

Lemma no_adjust_not_set_leap (evs : list event) (k v : Z) :
  no_adjust evs -> ~ In (E_clockadj_set_leap k v) evs.
Proof.
  unfold no_adjust. rewrite forallb_forall. intros Hn Hin.
  specialize (Hn _ Hin). discriminate.
Qed.

Lemma leap_outcome_same (c : clock.t) (r : Z) (evs : list event) :
  no_adjust evs -> leap_outcome c c r evs.
Proof.
  intros Hn. unfold leap_outcome. split; [auto|]. split.
  - intros k v Hin. now apply no_adjust_not_set_leap in Hin.
  - intros _ _ Hne. now elim Hne.
Qed.

Lemma leap_outcome_prefix (c c' : clock.t) (r : Z) (e0 evs : list event) :
  no_adjust e0 -> leap_outcome c c' r evs -> leap_outcome c c' r (e0 ++ evs).
Proof.
  intros Hn (Hr & Hin & Hex). unfold leap_outcome. split; [|split].
  - intros Hne. destruct (Hr Hne) as [Hc Hno]. split; [exact Hc|].
    now apply no_adjust_app.
  - intros k v Hi. apply in_app_or in Hi. destruct Hi as [Hi|Hi].
    + now apply no_adjust_not_set_leap in Hi.
    + now apply Hin.
  - intros Ha Hb Hc. apply in_or_app. right. now apply Hex.
Qed.

Lemma update_sync_offset_status_spec (c : clock.t) (ts : Z) (w : world) :
  let r := update_sync_offset_status c ts w in
  mgmt_frame c (snd (fst r))
  /\ exists evs, emitted w (snd r) evs
                 /\ leap_outcome c (snd (fst r)) (fst (fst r)) evs.
Proof.
  cbv zeta. unfold update_sync_offset_status. prims.
  destruct (negb (is_utc_ambiguous ts =? 0)).
  - fields. split; [apply mgmt_frame_refl|]. eexists. split; [solve_emitted|].
    now apply leap_outcome_same.
  - destruct (leap_second_status _ _ _ _) as [clock_leap [leap' utc_offset']]. fields.
    destruct (Z.eqb_spec (clock.leap_set c) clock_leap) as [Heq|Hne]; cbn [negb].
    + fields. split; [solve_frame|]. exists []. split; [apply emitted_refl|].
      unfold leap_outcome. fields. split; [intros Hr; now elim Hr|]. split.
      * intros k v [].
      * intros _ _ Hc. now elim Hc.
    + destruct (Z.eqb_spec (clock.clkid c) CLOCK_REALTIME) as [Hrt|Hrt];
        destruct (Z.eqb_spec (clock.kernel_leap c) 0) as [Hk|Hk]; cbn [andb negb];
        fields; (split; [solve_frame|]).
      2: { eexists. split; [solve_emitted|]. unfold leap_outcome. fields.
           split; [intros Hr; now elim Hr|]. split.
           - intros k v [Hin|[]]. injection Hin as <- <-. repeat split; auto.
           - intros _ _ _. now left. }
      all: exists []; split; [apply emitted_refl|]; unfold leap_outcome; fields;
        (split; [intros Hr; now elim Hr|]); split;
        [ intros k v [] | intros Ha Hb _; congruence ].
Qed.

Lemma update_sync_offset_leap_spec (c : clock.t) (offset ts : Z) (w : world) :
  let r := update_sync_offset_leap c offset ts w in
  mgmt_frame c (snd (fst r))
  /\ exists evs, emitted w (snd r) evs
                 /\ leap_outcome c (snd (fst r)) (fst (fst r)) evs.
Proof.
  cbv zeta. unfold update_sync_offset_leap.
  destruct (_ && _).
  { cbn. split; [apply mgmt_frame_refl|]. exists [].
    split; [apply emitted_refl | now apply leap_outcome_same]. }
  destruct (negb (clock.clkid c =? CLOCK_REALTIME)).
  2: { unfold bind at 1. unfold ret at 1. apply update_sync_offset_status_spec. }
  prims. fields.
  assert (Hfail : forall w0 e0, emitted w w0 e0 -> no_adjust e0 ->
            mgmt_frame c c
            /\ exists evs, emitted w w0 evs /\ leap_outcome c c (-1) evs).
  { intros w0 e0 He Hn. split; [apply mgmt_frame_refl|]. exists e0.
    split; [exact He | now apply leap_outcome_same]. }
  destruct (w_gettime w) as [|now q]; fields.
  - eapply Hfail; [solve_emitted | reflexivity].
  - destruct (now CLOCK_REALTIME) as [tp|]; fields.
    + match goal with
      | |- context [update_sync_offset_status c ?t ?w0] =>
        destruct (update_sync_offset_status_spec c t w0) as (Hf & evs & He & Ho)
      end.
      split; [exact Hf|]. exists ([E_clock_gettime CLOCK_REALTIME] ++ evs).
      split; [eapply emitted_trans; [|exact He]; solve_emitted|].
      now apply leap_outcome_prefix.
    + eapply Hfail; [solve_emitted | reflexivity].
Qed.

(** The whole of [update_sync_offset]. *)
Lemma update_sync_offset_spec (c : clock.t) (offset ts : Z) (w : world) :
  let r := update_sync_offset c offset ts w in
  mgmt_frame c (snd (fst r))
  /\ exists evs, emitted w (snd r) evs
                 /\ (fst (fst r) <> 0 -> no_adjust evs)
                 /\ (forall k v, In (E_clockadj_set_leap k v) evs ->
                       clock.clkid c = CLOCK_REALTIME /\ clock.kernel_leap c <> 0
                       /\ k = clock.clkid c /\ v = clock.leap_set (snd (fst r))
                       /\ clock.leap_set (snd (fst r)) <> clock.leap_set c)
                 /\ (clock.clkid c = CLOCK_REALTIME -> clock.kernel_leap c <> 0 ->
                     clock.leap_set (snd (fst r)) <> clock.leap_set c ->
                     In (E_clockadj_set_leap (clock.clkid c)
                           (clock.leap_set (snd (fst r)))) evs).
Proof.
  cbv zeta. unfold update_sync_offset, bind.
  destruct (update_sync_offset_pmc_spec c ts w) as (Hf1 & Hl1 & e1 & He1 & Hn1).
  destruct (update_sync_offset_pmc c ts w) as [c1 w1]. cbn [fst snd] in *.
  destruct (update_sync_offset_leap_spec c1 offset ts w1)
    as (Hf2 & e2 & He2 & Ho).
  apply (leap_outcome_prefix _ _ _ e1) in Ho; [|exact Hn1].
  destruct Ho as (Hr & Hin & Hex).
  split; [eauto using mgmt_frame_trans|].
  exists (e1 ++ e2). split; [eauto using emitted_trans|].
  assert (Hclk : clock.clkid c1 = clock.clkid c) by apply Hf1.
  assert (Hkl : clock.kernel_leap c1 = clock.kernel_leap c) by apply Hf1.
  rewrite Hclk, Hkl, Hl1 in *.
  split; [intros Hne; now apply Hr | split; assumption].
Qed.

(** The value latched follows the leap status whatever the slave is. *)
Lemma update_sync_offset_status_latch (c : clock.t) (ts : Z) (w : world) :
  is_utc_ambiguous ts = 0 ->
  let r := update_sync_offset_status c ts w in
  fst (fst r) = 0
  /\ clock.leap_set (snd (fst r))
     = fst (leap_second_status ts (clock.leap_set c) (clock.leap c)
              (clock.sync_offset c)).
Proof.
  intros Hamb. cbv zeta. unfold update_sync_offset_status. prims.
  rewrite Hamb. cbn [Z.eqb negb].
  destruct (leap_second_status _ _ _ _) as [clock_leap [leap' utc_offset']]. fields.
  destruct (Z.eqb_spec (clock.leap_set c) clock_leap) as [Heq|Hne]; cbn [negb].
  - fields. split; [reflexivity | exact Heq].
  - destruct (_ && _); fields; split; reflexivity.
Qed.

(** What the end of [update_sync_offset] makes of the time it is given. *)
Lemma update_sync_offset_status_verdict (c : clock.t) (ts : Z) (w : world) :
  let r := update_sync_offset_status c ts w in
  if is_utc_ambiguous ts =? 0
  then fst (fst r) = 0
       /\ clock.leap_set (snd (fst r))
          = fst (leap_second_status ts (clock.leap_set c) (clock.leap c)
                   (clock.sync_offset c))
  else fst (fst r) = -1 /\ clock.leap_set (snd (fst r)) = clock.leap_set c.
Proof.
  cbv zeta. destruct (Z.eqb_spec (is_utc_ambiguous ts) 0) as [Hamb|Hamb].
  - now apply update_sync_offset_status_latch.
  - unfold update_sync_offset_status. prims.
    destruct (Z.eqb_spec (is_utc_ambiguous ts) 0) as [Heq|_]; [contradiction|].
    cbn [negb]. fields. split; reflexivity.
Qed.

(** C1, as the code has it.  [update_sync_offset] sets the leap flag of the
    kernel only for a slave that is the system clock with the kernel leap
    enabled, and then exactly when the value latched in [leap_set] changes,
    to the new value.  The field [leap_set] itself follows the leap status
    for every slave and whatever [kernel_leap] is: when the time at which
    the leap second is looked up is not in the ambiguous second,
    [update_sync_offset] returns 0 and leaves in [leap_set] what
    [leap_second_status] gives for that time; when it is, the function
    returns -1 and [leap_set] is as before; and [leap_set] is as before
    when no time is looked up. *)
Theorem update_sync_offset_kernel_leap (c : clock.t) (offset ts : Z) (w : world) :
  let r := update_sync_offset c offset ts w in
  let c' := snd (fst r) in
  (exists evs,
      emitted w (snd r) evs
      /\ (forall k v, In (E_clockadj_set_leap k v) evs ->
                      clock.clkid c = CLOCK_REALTIME /\ clock.kernel_leap c <> 0
                      /\ k = clock.clkid c /\ v = clock.leap_set c'
                      /\ clock.leap_set c' <> clock.leap_set c)
      /\ (clock.clkid c = CLOCK_REALTIME -> clock.kernel_leap c <> 0 ->
          clock.leap_set c' <> clock.leap_set c ->
          In (E_clockadj_set_leap (clock.clkid c) (clock.leap_set c')) evs))
  /\ (let p := update_sync_offset_pmc c ts w in
      let c1 := fst p in
      match leap_time c1 offset ts (snd p) with
      | Some t =>
        if is_utc_ambiguous t =? 0
        then fst (fst r) = 0
             /\ clock.leap_set c'
                = fst (leap_second_status t (clock.leap_set c1) (clock.leap c1)
                         (clock.sync_offset c1))
        else fst (fst r) = -1 /\ clock.leap_set c' = clock.leap_set c
      | None => clock.leap_set c' = clock.leap_set c
      end).
Proof.
  cbv zeta. split.
  - destruct (update_sync_offset_spec c offset ts w) as (_ & evs & He & _ & Hin & Hex).
    exists evs. auto.
  - unfold update_sync_offset, bind.
    destruct (update_sync_offset_pmc_spec c ts w) as (_ & Hl1 & _).
    destruct (update_sync_offset_pmc c ts w) as [c1 w1]. cbn [fst snd] in *.
    rewrite <- Hl1. clear Hl1.
    unfold leap_time, update_sync_offset_leap.
    destruct (_ && _); [reflexivity|].
    destruct (Z.eqb_spec (clock.clkid c1) CLOCK_REALTIME) as [Hrt|Hrt];
      cbn [negb andb].
    + unfold bind at 1. unfold ret at 1.
      destruct (clock.servo_state c1); apply update_sync_offset_status_verdict.
    + prims. fields.
      destruct (w_gettime w1) as [|now q]; fields; [reflexivity|].
      destruct (now CLOCK_REALTIME) as [tp|]; fields; [|reflexivity].
      apply update_sync_offset_status_verdict.
Qed.

(** ** A sample is consumed or discarded *)

(** C7.  When [update_sync_offset] returns a nonzero value, [update_clock]
    ends there: the servo is not sampled, the clock is neither stepped nor
    its frequency set, and the servo and the accumulators are as before.
    When it returns zero, the servo is sampled with the corrected offset, the
    clock is adjusted as the state of the servo demands, the servo and its
    state are stored, and the sample is reported: to the accumulators when
    there are some, else on one line of the log. *)
Theorem update_clock_all_or_nothing (c : clock.t) (offset ts delay : Z) (w : world) :
  let s := update_sync_offset c offset ts w in
  let c1 := snd (fst s) in
  let o := corrected_offset c1 offset in
  let r := update_clock c offset ts delay w in
  if fst (fst s) =? 0 then
    exists ppb state sv evs,
      servo_sample (clock.servo c1) o ts = (ppb, state, sv)
      /\ emitted (snd s) (snd r) (sample_events (clock.clkid c1) o ts ppb state ++ evs)
      /\ forallb is_pr_info evs = true
      /\ clock.servo (fst r) = sv
      /\ clock.servo_state (fst r) = state
      /\ match clock.offset_stats c1, clock.freq_stats c1, clock.delay_stats c1 with
         | Some os, Some fs, Some ds =>
           clock.offset_stats (fst r) = Some (stats_add_value os (double_of_int64 o))
           \/ clock.offset_stats (fst r)
              = Some (stats_reset (stats_add_value os (double_of_int64 o)))
         | None, _, _ => exists fmt args, evs = [E_pr_info fmt args]
         | _, _, _ => True
         end
  else
    r = (c1, snd s)
    /\ clock.servo c1 = clock.servo c
    /\ clock.servo_state c1 = clock.servo_state c
    /\ clock.offset_stats c1 = clock.offset_stats c
    /\ clock.freq_stats c1 = clock.freq_stats c
    /\ clock.delay_stats c1 = clock.delay_stats c
    /\ exists evs, emitted w (snd r) evs /\ no_adjust evs.
Proof.
  cbv zeta. unfold update_clock, bind.
  destruct (update_sync_offset_spec c offset ts w) as (Hf & e1 & He1 & Hn1 & _).
  destruct (update_sync_offset c offset ts w) as [[r0 c1] w1]. cbn [fst snd] in *.
  destruct (Z.eqb_spec r0 0) as [Hr|Hr]; cbn [negb].
  - set (o := corrected_offset c1 offset).
    destruct (servo_sample (clock.servo c1) o ts) as [[ppb state] sv] eqn:Hservo.
    exists ppb, state, sv.
    destruct (emit (E_servo_sample o ts) w1) as [u w2] eqn:Hemit.
    pose proof (adjust_clock_events (clock.clkid c1) state o ts ppb w1) as Hadj.
    rewrite Hemit in Hadj. cbn [snd] in Hadj. fields.
    destruct (adjust_clock (clock.clkid c1) state o ppb w2) as [u' w3].
    cbn [snd] in Hadj.
    destruct (clock.offset_stats c1) as [os|] eqn:Hos.
    + pose proof (update_clock_stats_events
                    (clock.set_servo_state state (clock.set_servo sv c1))
                    o ppb delay w3) as (evs & Hevs & Hinfo).
      exists evs. split; [reflexivity|].
      split; [eapply emitted_trans; [exact Hadj | exact Hevs]|].
      split; [exact Hinfo|].
      unfold update_clock_stats, ret, bind, emit. fields. rewrite Hos.
      destruct (clock.freq_stats c1) as [fs|], (clock.delay_stats c1) as [ds|];
        fields; try (repeat split; reflexivity).
      destruct (_ <? _); fields; [repeat split; auto|].
      destruct (stats_get_result _) as [rd resd].
      destruct (rd =? 0); fields; repeat split; auto.
    + destruct (delay >=? 0); unfold emit, ret, bind; fields;
        eexists; (split; [reflexivity|]);
        (split; [eapply emitted_trans; [exact Hadj | solve_emitted]|]);
        (split; [reflexivity|]); repeat split; eauto.
  - unfold ret. fields.
    unfold mgmt_frame in Hf. intuition eauto.
Qed.

(** ** The refresh of the management data *)

Lemma update_sync_offset_status_no_poll (c : clock.t) (ts : Z) (w : world) :
  let r := update_sync_offset_status c ts w in
  clock.pmc_last_update (snd (fst r)) = clock.pmc_last_update c
  /\ exists evs, emitted w (snd r) evs /\ existsb is_poll evs = false.
Proof.
  cbv zeta. unfold update_sync_offset_status. prims.
  split_tests; fields;
    (split; [reflexivity | eexists; split; [solve_emitted | reflexivity]]).
Qed.

Lemma update_sync_offset_leap_no_poll (c : clock.t) (offset ts : Z) (w : world) :
  let r := update_sync_offset_leap c offset ts w in
  clock.pmc_last_update (snd (fst r)) = clock.pmc_last_update c
  /\ exists evs, emitted w (snd r) evs /\ existsb is_poll evs = false.
Proof.
  cbv zeta. unfold update_sync_offset_leap.
  destruct (_ && _).
  { cbn. split; [reflexivity|]. exists []. split; [apply emitted_refl | reflexivity]. }
  destruct (negb (clock.clkid c =? CLOCK_REALTIME)).
  2: { unfold bind at 1. unfold ret at 1. apply update_sync_offset_status_no_poll. }
  prims. fields.
  destruct (w_gettime w) as [|now q]; fields.
  - split; [reflexivity | eexists; split; [solve_emitted | reflexivity]].
  - destruct (now CLOCK_REALTIME) as [tp|]; fields.
    + match goal with
      | |- context [update_sync_offset_status c ?t ?w0] =>
        destruct (update_sync_offset_status_no_poll c t w0) as (Hu & evs & He & Hp)
      end.
      split; [exact Hu|]. exists ([E_clock_gettime CLOCK_REALTIME] ++ evs).
      split; [eapply emitted_trans; [|exact He]; solve_emitted | exact Hp].
    + split; [reflexivity | eexists; split; [solve_emitted | reflexivity]].
Qed.

Lemma polled_trans_l (w1 w2 w3 : world) (evs : list event) :
  polled w1 w2 -> emitted w2 w3 evs -> polled w1 w3.
Proof.
  intros (e1 & He1 & Hp) He2. exists (e1 ++ evs).
  split; [eauto using emitted_trans|]. rewrite existsb_app, Hp. reflexivity.
Qed.

Lemma run_pmc_round_polls (c : clock.t) (timeout wait_sync get_utc_offset : Z) (w : world) :
  ((ds_ids (clock.pmc_ds_idx c) =? PORT_DATA_SET) && (wait_sync =? 0))
  || ((ds_ids (clock.pmc_ds_idx c) =? TIME_PROPERTIES_DATA_SET) && (get_utc_offset =? 0))
  = false ->
  polled w (snd (run_pmc_round c timeout wait_sync get_utc_offset w)).
Proof.
  intros Hskip. unfold run_pmc_round. rewrite Hskip. prims. fields.
  destruct (w_poll w) as [|[cnt revents] q]; fields.
  { eexists. split; [solve_emitted | reflexivity]. }
  destruct (cnt <? 0); [eexists; split; [solve_emitted | reflexivity]|].
  destruct (cnt =? 0); [eexists; split; [solve_emitted | reflexivity]|].
  destruct (negb (Z.land revents POLLOUT =? 0) && _);
    destruct (Z.land revents _ =? 0);
    try (eexists; split; [solve_emitted | reflexivity]).
  all: fields; destruct (w_recv w) as [|[msg|] qr];
    try (eexists; split; [solve_emitted | reflexivity]).
  all: destruct ((is_msg_mgt _ =? 0) || _);
    try (eexists; split; [solve_emitted | reflexivity]).
  all: destruct (pmc_handle_data _ _) as [c2 ds_done];
    destruct (negb (ds_done =? 0)); eexists; (split; [solve_emitted | reflexivity]).
Qed.

Lemma run_pmc_loop_polled_1 (fuel : nat) (c : clock.t) (w : world) :
  clock.pmc_ds_idx c = 1 ->
  polled w (snd (run_pmc_loop (S fuel) c 0 0 1 w)).
Proof.
  intros Hidx. cbn [run_pmc_loop]. rewrite Hidx.
  change (1 <? N_ID) with true. cbv iota. unfold bind.
  assert (Hp : polled w (snd (run_pmc_round c 0 0 1 w)))
    by (apply run_pmc_round_polls; rewrite Hidx; reflexivity).
  destruct (run_pmc_round c 0 0 1 w) as [[c'|r c'] w']; cbn [snd] in Hp.
  - destruct (run_pmc_loop_spec fuel 0 0 1 c' w') as (_ & e2 & He2 & _).
    exact (polled_trans_l _ _ _ _ Hp He2).
  - exact Hp.
Qed.

Lemma run_pmc_loop_polled_0 (fuel : nat) (c : clock.t) (w : world) :
  clock.pmc_ds_idx c = 0 ->
  polled w (snd (run_pmc_loop (S (S fuel)) c 0 0 1 w)).
Proof.
  intros Hidx. remember (S fuel) as fuel1 eqn:Hfuel. cbn [run_pmc_loop].
  rewrite Hidx. change (0 <? N_ID) with true. cbv iota.
  unfold bind, run_pmc_round. rewrite Hidx.
  change (((ds_ids 0 =? PORT_DATA_SET) && (0 =? 0))
          || ((ds_ids 0 =? TIME_PROPERTIES_DATA_SET) && (1 =? 0))) with true.
  cbv iota. unfold ret at 1. subst fuel1.
  apply run_pmc_loop_polled_1. reflexivity.
Qed.

Lemma run_pmc_polled (c : clock.t) (w : world) :
  0 <= clock.pmc_ds_idx c < N_ID ->
  polled w (snd (run_pmc c 0 0 1 w)).
Proof.
  intros Hidx. destruct (run_pmc_unfold c 0 0 1 w) as (r & c' & Hl & _).
  replace (snd (run_pmc c 0 0 1 w))
    with (snd (run_pmc_loop (run_pmc_fuel c w) c 0 0 1 w)) by now rewrite Hl.
  unfold run_pmc_fuel, N_ID in *.
  assert (Hcase : clock.pmc_ds_idx c = 0 \/ clock.pmc_ds_idx c = 1) by lia.
  destruct Hcase as [H0|H1].
  - rewrite H0. replace (List.length (w_poll w) + Z.to_nat (2 - 0) + 1)%nat
      with (S (S (S (List.length (w_poll w))))) by (cbn; lia).
    now apply run_pmc_loop_polled_0.
  - rewrite H1. replace (List.length (w_poll w) + Z.to_nat (2 - 1) + 1)%nat
      with (S (S (List.length (w_poll w)))) by (cbn; lia).
    now apply run_pmc_loop_polled_1.
Qed.

Lemma pmc_update_due_spec (c : clock.t) (ts : Z) :
  clock.pmc c = true ->
  0 <= ts < 2 ^ 64 -> 0 <= clock.pmc_last_update c < 2 ^ 64 ->
  pmc_update_due c ts
  = (ts <=? clock.pmc_last_update c)
    || (PMC_UPDATE_INTERVAL <=? ts - clock.pmc_last_update c).
Proof.
  intros Hpmc Hts Hlast. unfold pmc_update_due. rewrite Hpmc. cbn [andb].
  destruct (Z.gtb_spec ts (clock.pmc_last_update c)) as [Hgt|Hle]; cbn [andb negb].
  - rewrite uint64_in_range by lia.
    destruct (Z.leb_spec ts (clock.pmc_last_update c)); [lia|]. cbn [orb].
    destruct (Z.ltb_spec (ts - clock.pmc_last_update c) PMC_UPDATE_INTERVAL);
      destruct (Z.leb_spec PMC_UPDATE_INTERVAL (ts - clock.pmc_last_update c));
      (reflexivity || lia).
  - destruct (Z.leb_spec ts (clock.pmc_last_update c)); [reflexivity | lia].
Qed.

(** C8, as the code has it.  With a management client, and time stamps that
    are 64-bit counts, [update_sync_offset] runs a management round (it calls
    [poll]) exactly when the time stamp is not later than [pmc_last_update]
    or at least [PMC_UPDATE_INTERVAL] later; [pmc_last_update] becomes the
    time stamp when that round returns a positive value, and else stays. *)
Theorem update_sync_offset_pmc_round (c : clock.t) (offset ts : Z) (w : world) :
  clock.pmc c = true ->
  0 <= clock.pmc_ds_idx c < N_ID ->
  0 <= ts < 2 ^ 64 ->
  0 <= clock.pmc_last_update c < 2 ^ 64 ->
  let last := clock.pmc_last_update c in
  let r := update_sync_offset c offset ts w in
  (polled w (snd r) <-> ts <= last \/ PMC_UPDATE_INTERVAL <= ts - last)
  /\ clock.pmc_last_update (snd (fst r))
     = if (ts <=? last) || (PMC_UPDATE_INTERVAL <=? ts - last)
       then (if fst (fst (run_pmc c 0 0 1 w)) >? 0 then ts else last)
       else last.
Proof.
  intros Hpmc Hidx Hts Hlast. cbv zeta.
  unfold update_sync_offset, update_sync_offset_pmc, bind.
  rewrite (pmc_update_due_spec c ts Hpmc Hts Hlast).
  destruct ((ts <=? clock.pmc_last_update c)
            || (PMC_UPDATE_INTERVAL <=? ts - clock.pmc_last_update c)) eqn:Hdue.
  - apply orb_true_iff in Hdue. rewrite Z.leb_le, Z.leb_le in Hdue.
    pose proof (run_pmc_polled c w Hidx) as Hp.
    destruct (run_pmc_spec c 0 0 1 w) as ((_ & _ & Hu) & _).
    destruct (run_pmc c 0 0 1 w) as [[r c'] w']. cbn [fst snd] in *. unfold ret.
    match goal with
    | |- context [update_sync_offset_leap ?c0 offset ts w'] =>
      destruct (update_sync_offset_leap_no_poll c0 offset ts w') as (Hu2 & e2 & He2 & _)
    end.
    split.
    + split; [intros _; exact Hdue | intros _; exact (polled_trans_l _ _ _ _ Hp He2)].
    + rewrite Hu2. destruct (r >? 0); [reflexivity | exact Hu].
  - apply orb_false_iff in Hdue. rewrite Z.leb_gt, Z.leb_gt in Hdue. unfold ret.
    destruct (update_sync_offset_leap_no_poll c offset ts w) as (Hu2 & e2 & He2 & Hp2).
    split; [|exact Hu2].
    split; [|lia].
    intros (evs & Hev & Hp). rewrite (emitted_inj _ _ _ _ Hev He2) in Hp. congruence.
Qed.

(** ** The sampling loops *)

Lemma read_pps_failed (fd : Z) (w : world) :
  fst (read_pps fd w) = None ->
  emitted w (snd (read_pps fd w)) [E_pps_fetch fd; E_pr_err "failed to fetch PPS: %m"].
Proof.
  unfold read_pps. prims. fields.
  destruct (w_pps w) as [|[a|] q]; fields; try discriminate; intros _; solve_emitted.
Qed.

Lemma read_pps_ok (fd : Z) (w w1 : world) (pps_offset pps_ts : Z) :
  read_pps fd w = (Some (pps_offset, pps_ts), w1) ->
  emitted w w1 [E_pps_fetch fd].
Proof.
  unfold read_pps. prims. fields.
  destruct (w_pps w) as [|[a|] q]; fields; try discriminate.
  intros Heq. injection Heq as _ _ <-. solve_emitted.
Qed.

Lemma read_trial_events (clkid sysclk : Z) (w : world) :
  exists evs, emitted w (snd (read_trial clkid sysclk w)) evs /\ no_adjust evs.
Proof.
  unfold read_trial. prims. fields.
  destruct (w_gettime w) as [|a q]; fields;
    [eexists; split; [solve_emitted | reflexivity]|].
  destruct (a sysclk); fields; [|eexists; split; [solve_emitted | reflexivity]].
  destruct q as [|b q]; fields; [eexists; split; [solve_emitted | reflexivity]|].
  destruct (b clkid); fields; [|eexists; split; [solve_emitted | reflexivity]].
  destruct q as [|d q]; fields; [eexists; split; [solve_emitted | reflexivity]|].
  destruct (d sysclk); fields; eexists; (split; [solve_emitted | reflexivity]).
Qed.

Lemma read_phc_loop_events (n : nat) (clkid sysclk : Z) :
  forall (best offset ts : Z) (w : world),
    let r := read_phc_loop n clkid sysclk best offset ts w in
    exists evs,
      emitted w (snd r) evs /\ no_adjust evs
      /\ (fst (fst r) = false -> In (E_pr_err "failed to read clock: %m") evs).
Proof.
  induction n as [|n IH]; intros best offset ts w; cbn [read_phc_loop].
  - exists []. cbn. split; [apply emitted_refl | split; [reflexivity | discriminate]].
  - unfold bind.
    destruct (read_trial_events clkid sysclk w) as (e1 & He1 & Hn1).
    destruct (read_trial clkid sysclk w) as [[[[tdst1 tsrc] tdst2]|] w1];
      cbn [snd] in He1.
    + assert (Hstep : forall b o t,
                 let r := read_phc_loop n clkid sysclk b o t w1 in
                 exists evs, emitted w (snd r) evs /\ no_adjust evs
                   /\ (fst (fst r) = false ->
                       In (E_pr_err "failed to read clock: %m") evs)).
      { intros b o t. destruct (IH b o t w1) as (e2 & He2 & Hn2 & Hf2).
        exists (e1 ++ e2). split; [eauto using emitted_trans|].
        split; [now apply no_adjust_app|].
        intros Hf. apply in_or_app. right. now apply Hf2. }
      destruct (_ <? _); apply Hstep.
    + prims. fields. exists (e1 ++ [E_pr_err "failed to read clock: %m"]).
      split; [eapply emitted_trans; [exact He1 | solve_emitted]|].
      split; [now apply no_adjust_app|].
      intros _. apply in_or_app. right. now left.
Qed.

Lemma read_phc_events (clkid sysclk readings offset ts delay : Z) (w : world) :
  let r := read_phc clkid sysclk readings offset ts delay w in
  exists evs,
    emitted w (snd r) evs /\ no_adjust evs
    /\ (fst (fst r) = 0 -> In (E_pr_err "failed to read clock: %m") evs).
Proof.
  cbv zeta. unfold read_phc, bind.
  destruct (read_phc_loop_events (Z.to_nat readings) clkid sysclk INT64_MAX offset ts w)
    as (evs & He & Hn & Hf).
  destruct (read_phc_loop _ _ _ _ _ _ w) as [[ok [[b o] t]] w1].
  cbn [fst snd] in *. exists evs.
  destruct ok; cbn; (split; [exact He | split; [exact Hn|]]).
  - discriminate.
  - intros _. now apply Hf.
Qed.

(** A sample that cannot be taken, as the code has it (C6).  A fetch of the
    PPS that fails is logged and the round is over: the clock is as before,
    nothing but the fetch and the line of the log has happened, and the loop
    goes on with its next round.  The same holds in the PHC loop for a
    reading of the clocks that fails, the rate being other than 0, with
    which the round does not come to the reading.  In the PPS loop with a
    PHC, a reading of the clocks that fails is logged and ends the loop:
    [do_pps_loop] returns -1. *)
Theorem sample_failure (c : clock.t) (fd src rate n_readings : Z) (l : Z * Z * Z)
  (w : world) :
  (fst (read_pps fd w) = None ->
   do_pps_round c fd src n_readings l w = (Round_next c l, snd (read_pps fd w))
   /\ emitted w (snd (read_pps fd w))
        [E_pps_fetch fd; E_pr_err "failed to fetch PPS: %m"]
   /\ forall k, do_pps_rounds (S k) c fd src n_readings l w
                = do_pps_rounds k c fd src n_readings l (snd (read_pps fd w)))
  /\ (rate <> 0 ->
      let '(offset, ts, delay) := l in
      let w0 := snd (emit (E_usleep (Z.quot 1000000 rate)) w) in
      let r := read_phc src (clock.clkid c) n_readings offset ts delay w0 in
      fst (fst r) = 0 ->
      do_phc_round c src rate n_readings l w = (Round_next c (snd (fst r)), snd r)
      /\ (exists evs, emitted w (snd r) evs /\ no_adjust evs
                      /\ In (E_pr_err "failed to read clock: %m") evs)
      /\ forall k, do_phc_rounds (S k) c src rate n_readings l w
                   = do_phc_rounds k c src rate n_readings (snd (fst r)) (snd r))
  /\ (forall pps_offset pps_ts w1,
        src <> CLOCK_INVALID ->
        read_pps fd w = (Some (pps_offset, pps_ts), w1) ->
        let '(phc_offset, phc_ts, phc_delay) := l in
        let r := read_phc src (clock.clkid c) n_readings phc_offset phc_ts phc_delay w1 in
        fst (fst r) = 0 ->
        do_pps_round c fd src n_readings l w = (Round_return (-1) c, snd r)
        /\ (exists evs, emitted w (snd r) evs /\ no_adjust evs
                        /\ In (E_pr_err "failed to read clock: %m") evs)
        /\ forall k, do_pps_rounds (S k) c fd src n_readings l w
                     = (Some (-1), c, snd r)).
Proof.
  split; [|split].
  - intros Hfail.
    assert (Hround : do_pps_round c fd src n_readings l w
                     = (Round_next c l, snd (read_pps fd w))).
    { unfold do_pps_round, bind. destruct (read_pps fd w) as [[[o t]|] w1];
        [discriminate | reflexivity]. }
    split; [exact Hround|]. split; [now apply read_pps_failed|].
    intros k. cbn [do_pps_rounds]. unfold bind at 1. now rewrite Hround.
  - intros Hrate. destruct l as [[offset ts] delay]. cbv zeta. intros Hfail.
    assert (Hround : do_phc_round c src rate n_readings (offset, ts, delay) w
                     = (Round_next c
                          (snd (fst (read_phc src (clock.clkid c) n_readings offset ts
                                       delay (snd (emit (E_usleep (Z.quot 1000000 rate)) w))))),
                        snd (read_phc src (clock.clkid c) n_readings offset ts delay
                               (snd (emit (E_usleep (Z.quot 1000000 rate)) w))))).
    { unfold do_phc_round.
      destruct (Z.eqb_spec rate 0) as [Hzero|_]; [contradiction|].
      unfold bind at 1.
      destruct (emit (E_usleep (Z.quot 1000000 rate)) w) as [u w0]. cbn [snd] in *.
      unfold bind.
      destruct (read_phc src (clock.clkid c) n_readings offset ts delay w0)
        as [[ok [[o t] d]] w1]. cbn [fst snd] in *. subst ok. reflexivity. }
    split; [exact Hround|]. split.
    + destruct (read_phc_events src (clock.clkid c) n_readings offset ts delay
                  (snd (emit (E_usleep (Z.quot 1000000 rate)) w)))
        as (evs & He & Hn & Hf).
      exists ([E_usleep (Z.quot 1000000 rate)] ++ evs).
      split; [eapply emitted_trans; [apply emit_emitted | exact He]|].
      split; [now apply no_adjust_app|].
      apply in_or_app. right. now apply Hf.
    + intros k. cbn [do_phc_rounds]. unfold bind at 1. now rewrite Hround.
  - intros pps_offset pps_ts w1 Hsrc Hpps.
    destruct l as [[phc_offset phc_ts] phc_delay]. cbv zeta. intros Hfail.
    assert (Hround : do_pps_round c fd src n_readings (phc_offset, phc_ts, phc_delay) w
                     = (Round_return (-1) c,
                        snd (read_phc src (clock.clkid c) n_readings phc_offset phc_ts
                               phc_delay w1))).
    { unfold do_pps_round. unfold bind at 1. rewrite Hpps.
      destruct (Z.eqb_spec src CLOCK_INVALID) as [Heq|_]; [contradiction|].
      cbn [negb]. unfold bind.
      destruct (read_phc src (clock.clkid c) n_readings phc_offset phc_ts phc_delay w1)
        as [[ok [[o t] d]] w2]. cbn [fst snd] in *. subst ok. reflexivity. }
    split; [exact Hround|]. split.
    + destruct (read_phc_events src (clock.clkid c) n_readings phc_offset phc_ts
                  phc_delay w1) as (evs & He & Hn & Hf).
      exists ([E_pps_fetch fd] ++ evs).
      split; [eapply emitted_trans; [eapply read_pps_ok; exact Hpps | exact He]|].
      split; [now apply no_adjust_app|].
      apply in_or_app. right. now apply Hf.
    + intros k. cbn [do_pps_rounds]. unfold bind at 1. now rewrite Hround.
Qed.

(** C4.  A round of the PPS loop with a PHC, in which the PPS is fetched and
    the clocks are read.  With the time stamp of the reading turned into the
    time of the PHC, [phc_ts - phc_offset], a count of nanoseconds below
    2^63 as the time stamp of the PPS is: when more than 10^7 ns of it lie
    beyond the start of the second, a warning is printed and the round is
    over, the servo not called and the clock as before; otherwise the round
    is [update_clock] on the offset of the PPS time stamp from the second of
    the PHC. *)
Theorem do_pps_round_hybrid (c : clock.t) (fd src n_readings : Z) (l : Z * Z * Z)
  (w w1 w2 : world) (pps_offset pps_ts phc_offset phc_ts phc_delay : Z) :
  src <> CLOCK_INVALID ->
  read_pps fd w = (Some (pps_offset, pps_ts), w1) ->
  (let '(o0, t0, d0) := l in read_phc src (clock.clkid c) n_readings o0 t0 d0 w1)
  = ((1, (phc_offset, phc_ts, phc_delay)), w2) ->
  0 <= phc_ts - phc_offset < 2 ^ 63 ->
  pps_ts < 2 ^ 63 ->
  let phc_ts_in_phc := phc_ts - phc_offset in
  let r := do_pps_round c fd src n_readings l w in
  if phc_ts_in_phc mod 1000000000 >? 10000000 then
    (exists l', fst r = Round_next c l')
    /\ emitted w2 (snd r)
         [E_pr_warning "PPS is not in sync with PHC (0.%09lld)"
            [P_int (phc_ts_in_phc mod 1000000000)]]
    /\ exists evs, emitted w (snd r) evs /\ no_adjust evs
  else
    let u := update_clock c (pps_ts - phc_ts_in_phc / 1000000000 * 1000000000)
               pps_ts (-1) w2 in
    (exists l', fst r = Round_next (fst u) l') /\ snd r = snd u.
Proof.
  intros Hsrc Hpps Hphc Hrange Hpts phc_ts_in_phc r.
  assert (Hpts0 : 0 <= pps_ts).
  { destruct (read_pps_answered fd w w1 pps_offset pps_ts Hpps) as (a & _ & Ha & _).
    rewrite Ha. apply uint64_bounds. }
  assert (Hfloor : 0 <= phc_ts_in_phc / 1000000000 * 1000000000 <= phc_ts_in_phc).
  { pose proof (Z.mul_div_le phc_ts_in_phc 1000000000 ltac:(lia)).
    pose proof (Z.div_pos phc_ts_in_phc 1000000000 ltac:(lia) ltac:(lia)).
    lia. }
  assert (Hr : r = if phc_ts_in_phc mod 1000000000 >? 10000000
                   then (Round_next c (phc_offset, phc_ts_in_phc, phc_delay),
                         snd (emit (E_pr_warning "PPS is not in sync with PHC (0.%09lld)"
                                      [P_int (phc_ts_in_phc mod 1000000000)]) w2))
                   else
                     let u := update_clock c
                                (pps_ts - phc_ts_in_phc / 1000000000 * 1000000000)
                                pps_ts (-1) w2 in
                     (Round_next (fst u)
                        (phc_offset, phc_ts_in_phc / 1000000000 * 1000000000, phc_delay),
                      snd u)).
  { subst r. unfold do_pps_round. unfold bind at 1. rewrite Hpps.
    destruct (Z.eqb_spec src CLOCK_INVALID) as [Heq|_]; [contradiction|]. cbn [negb].
    destruct l as [[o0 t0] d0]. unfold bind at 1. rewrite Hphc.
    change (1 =? 0) with false. cbv iota. fold phc_ts_in_phc.
    rewrite (uint64_in_range phc_ts_in_phc) by lia.
    change NS_PER_SEC with 1000000000. change PHC_PPS_OFFSET_LIMIT with 10000000.
    destruct (phc_ts_in_phc mod 1000000000 >? 10000000); [reflexivity|].
    rewrite (uint64_in_range (phc_ts_in_phc / 1000000000 * 1000000000)) by lia.
    rewrite (int64_in_range (pps_ts - phc_ts_in_phc / 1000000000 * 1000000000)) by lia.
    unfold bind, ret. cbv zeta.
    destruct (update_clock c _ pps_ts (-1) w2) as [c' w3]. reflexivity. }
  rewrite Hr. clear Hr r.
  destruct (phc_ts_in_phc mod 1000000000 >? 10000000).
  - cbn [fst snd]. split; [eauto|]. split; [apply emit_emitted|].
    destruct l as [[o0 t0] d0].
    destruct (read_phc_events src (clock.clkid c) n_readings o0 t0 d0 w1)
      as (evs & He & Hn & _).
    rewrite Hphc in He. cbn [snd] in He.
    exists (([E_pps_fetch fd] ++ evs)
            ++ [E_pr_warning "PPS is not in sync with PHC (0.%09lld)"
                  [P_int (phc_ts_in_phc mod 1000000000)]]).
    split.
    + eapply emitted_trans; [|apply emit_emitted].
      eapply emitted_trans; [eapply read_pps_ok; exact Hpps | exact He].
    + apply no_adjust_app; [now apply no_adjust_app | reflexivity].
  - cbv zeta. cbn [fst snd]. split; [eauto | reflexivity].
Qed.

(** C2.  When [read_phc] is asked for as many readings as there are
    [trials], at least one, and every reading of the clocks succeeds, the
    trial giving the slave time [t1], the master time [tm] and the slave time
    [t2], then it returns 1 and what it stores comes from one trial whose
    interval [t2 - t1] is the smallest of all: the offset is
    [t1 - tm + (t2 - t1) / 2], the quotient rounded towards zero, the time
    stamp is [t2] and the delay is the interval. *)
Theorem read_phc_best_trial (clkid sysclk : Z) (trials : list trial)
  (offset0 ts0 delay0 : Z) (w : world) :
  trials <> [] ->
  Forall valid_trial trials ->
  answers_trials sysclk clkid (w_gettime w) trials ->
  exists t1 tm t2,
    In (t1, tm, t2) trials
    /\ (forall t1' tm' t2', In (t1', tm', t2') trials ->
                            ns t2 - ns t1 <= ns t2' - ns t1')
    /\ fst (read_phc clkid sysclk (Z.of_nat (List.length trials)) offset0 ts0 delay0 w)
       = (1, (ns t1 - ns tm + Z.quot (ns t2 - ns t1) 2, ns t2, ns t2 - ns t1)).
Proof.
  intros Hne Hvalid Hans. rewrite Forall_forall in Hvalid.
  pose proof (read_phc_loop_fold clkid sysclk trials INT64_MAX offset0 ts0 w Hans)
    as Hloop.
  destruct (keep_best_minimum trials (INT64_MAX, offset0, ts0))
    as [[_ Hall]|(t1 & tm & t2 & Hin & Hres & _ & Hmin)]; cbn [fst] in *.
  - destruct trials as [|[[t1 tm] t2] trials]; [contradiction|].
    specialize (Hall t1 tm t2 (or_introl eq_refl)).
    destruct (valid_trial_values t1 tm t2 (Hvalid _ (or_introl eq_refl)))
      as (Hi & _ & _ & Hlt).
    lia.
  - exists t1, tm, t2. split; [exact Hin|].
    destruct (valid_trial_values t1 tm t2 (Hvalid _ Hin)) as (Hi & Ho & Ht & _).
    split.
    + intros t1' tm' t2' Hin'.
      destruct (valid_trial_values t1' tm' t2' (Hvalid _ Hin')) as (Hi' & _).
      specialize (Hmin t1' tm' t2' Hin'). lia.
    + unfold read_phc, bind. rewrite Nat2Z.id.
      destruct (read_phc_loop _ _ _ _ _ _ w) as [r w1]. cbn [fst] in Hloop.
      rewrite Hloop, Hres, Ho, Hi, Ht. reflexivity.
Qed.

(** ** The cursor of the management client *)

Lemma port_satisfied_app (e1 e2 : list event) :
  port_satisfied e1 \/ port_satisfied e2 -> port_satisfied (e1 ++ e2).
Proof.
  unfold port_satisfied. intros [(m & Hin & Hm)|(m & Hin & Hm)];
    exists m; (split; [apply in_or_app; auto | exact Hm]).
Qed.

Lemma time_satisfied_app (e1 e2 : list event) :
  time_satisfied e1 \/ time_satisfied e2 -> time_satisfied (e1 ++ e2).
Proof.
  unfold time_satisfied. intros [(m & Hin & Hm)|(m & Hin & Hm)];
    exists m; (split; [apply in_or_app; auto | exact Hm]).
Qed.

Lemma is_msg_mgt_values (msg : ptp_message) :
  is_msg_mgt msg = 0 \/ is_msg_mgt msg = 1.
Proof. unfold is_msg_mgt. split_tests; auto. Qed.

Lemma pmc_handle_data_done (c : clock.t) (msg : ptp_message) :
  snd (pmc_handle_data c msg) <> 0 ->
  (get_mgt_id msg = PORT_DATA_SET
   /\ (portState msg = PS_MASTER \/ portState msg = PS_SLAVE))
  \/ get_mgt_id msg = TIME_PROPERTIES_DATA_SET.
Proof.
  unfold pmc_handle_data.
  destruct (Z.eqb_spec (get_mgt_id msg) PORT_DATA_SET) as [Hp|Hp].
  - destruct (Z.eqb_spec (portState msg) PS_MASTER) as [Hm|Hm]; cbn [orb].
    + intros _. left. auto.
    + destruct (Z.eqb_spec (portState msg) PS_SLAVE) as [Hs|Hs]; cbn.
      * intros _. left. auto.
      * intros Hne. now elim Hne.
  - destruct (Z.eqb_spec (get_mgt_id msg) TIME_PROPERTIES_DATA_SET) as [Ht|Ht]; cbn.
    + intros _. now right.
    + intros Hne. now elim Hne.
Qed.

(** A round never returns 1, and moves the cursor by one place at most:
    past a data set that is not needed, or past one that a response has
    satisfied. *)
Lemma run_pmc_round_progress (c : clock.t) (timeout wait_sync get_utc_offset : Z)
  (w : world) :
  0 <= clock.pmc_ds_idx c < N_ID ->
  match run_pmc_round c timeout wait_sync get_utc_offset w with
  | (Pmc_return r _, _) => r <> 1
  | (Pmc_continue c', w') =>
    exists evs,
      emitted w w' evs
      /\ (clock.pmc_ds_idx c' = clock.pmc_ds_idx c
          \/ (clock.pmc_ds_idx c' = clock.pmc_ds_idx c + 1
              /\ (clock.pmc_ds_idx c = 0 -> wait_sync <> 0 -> port_satisfied evs)
              /\ (clock.pmc_ds_idx c = 1 -> get_utc_offset <> 0 -> time_satisfied evs)))
  end.
Proof.
  intros Hidx. unfold N_ID in Hidx.
  assert (Hcase : clock.pmc_ds_idx c = 0 \/ clock.pmc_ds_idx c = 1) by lia.
  unfold run_pmc_round. prims. fields.
  destruct (_ || _) eqn:Hskip.
  { exists []. split; [apply emitted_refl|]. right. fields. split; [reflexivity|].
    destruct Hcase as [H0|H1]; [rewrite H0 in *|rewrite H1 in *];
      destruct (Z.eqb_spec wait_sync 0), (Z.eqb_spec get_utc_offset 0);
      cbn in Hskip; try discriminate;
      (split; [intros Hi Hw | intros Hi Hg]); try lia; contradiction. }
  clear Hskip.
  destruct (w_poll w) as [|[cnt revents] q]; fields; [discriminate|].
  destruct (cnt <? 0); [discriminate|].
  destruct (cnt =? 0); [discriminate|].
  destruct (negb (Z.land revents POLLOUT =? 0) && _);
    destruct (Z.land revents _ =? 0);
    try (eexists; split; [solve_emitted | left; reflexivity]).
  all: fields; destruct (w_recv w) as [|[msg|] qr];
    try (eexists; split; [solve_emitted | left; reflexivity]).
  all: destruct (Z.eqb_spec (is_msg_mgt msg) 0) as [Hm0|Hm0]; cbn [orb];
    try (eexists; split; [solve_emitted | left; reflexivity]).
  all: destruct (Z.eqb_spec (get_mgt_id msg) (ds_ids (clock.pmc_ds_idx c)))
      as [Hid|Hid]; cbn [negb];
    try (eexists; split; [solve_emitted | left; reflexivity]).
  all: match goal with
       | |- context [pmc_handle_data ?c0 ?m] =>
         pose proof (pmc_handle_data_done c0 m) as Hdone;
         destruct (pmc_handle_data_frame c0 m) as (_ & Hi & _);
         destruct (pmc_handle_data c0 m) as [c2 ds_done]
       end;
    cbn [fst snd] in Hdone, Hi; revert Hi; fields; intros Hi;
    destruct (Z.eqb_spec ds_done 0) as [Hd|Hd]; cbn [negb]; fields;
    try (eexists; split; [solve_emitted | left; exact Hi]).
  all: eexists; (split; [solve_emitted|]); right; (split; [lia|]);
    assert (Hmgt : is_msg_mgt msg = 1)
      by (destruct (is_msg_mgt_values msg); [contradiction | assumption]);
    specialize (Hdone Hd);
    (split; [intros H0 Hw | intros H1 Hg]).
  all: try (rewrite H0 in Hid; change (ds_ids 0) with PORT_DATA_SET in Hid;
            destruct Hdone as [[_ Hst]|Ht];
            [ exists msg; split; [cbn; tauto | auto]
            | rewrite Hid in Ht; discriminate ]).
  all: rewrite H1 in Hid; change (ds_ids 1) with TIME_PROPERTIES_DATA_SET in Hid;
    exists msg; (split; [cbn; tauto | auto]).
Qed.

Lemma run_pmc_loop_complete (fuel : nat) (timeout wait_sync get_utc_offset : Z) :
  forall (c c' : clock.t) (w w' : world),
    0 <= clock.pmc_ds_idx c ->
    run_pmc_loop fuel c timeout wait_sync get_utc_offset w = (Some (1, c'), w') ->
    clock.pmc_ds_idx c' = 0
    /\ exists evs,
        emitted w w' evs
        /\ (clock.pmc_ds_idx c <= 0 -> wait_sync <> 0 -> port_satisfied evs)
        /\ (clock.pmc_ds_idx c <= 1 -> get_utc_offset <> 0 -> time_satisfied evs).
Proof.
  induction fuel as [|fuel IH]; intros c c' w w' Hidx; cbn [run_pmc_loop];
    destruct (Z.ltb_spec (clock.pmc_ds_idx c) N_ID) as [Hlt|Hge];
    unfold N_ID in *.
  - discriminate.
  - unfold ret. intros Heq. injection Heq as <- <-. split; [reflexivity|].
    exists []. split; [apply emitted_refl|]. split; intros; lia.
  - unfold bind.
    pose proof (run_pmc_round_progress c timeout wait_sync get_utc_offset w
                  ltac:(unfold N_ID; lia)) as Hround.
    destruct (run_pmc_round c timeout wait_sync get_utc_offset w) as [[c1|r c1] w1].
    + destruct Hround as (e1 & He1 & Hstep). intros Hloop.
      destruct (IH c1 c' w1 w' ltac:(lia) Hloop) as (Hc' & e2 & He2 & Hport & Htime).
      split; [exact Hc'|]. exists (e1 ++ e2). split; [eauto using emitted_trans|].
      destruct Hstep as [Hsame|(Hnext & Hp1 & Ht1)].
      * rewrite Hsame in *. split; intros Hi Hn.
        -- apply port_satisfied_app. right. auto.
        -- apply time_satisfied_app. right. auto.
      * split; intros Hi Hn.
        -- apply port_satisfied_app. left. apply Hp1; [lia | exact Hn].
        -- apply time_satisfied_app.
           destruct (Z.eq_dec (clock.pmc_ds_idx c) 1) as [H1|H1].
           ++ left. auto.
           ++ right. apply Htime; [lia | exact Hn].
    + unfold ret. intros Heq. injection Heq as -> _ _. now elim Hround.
  - unfold ret. intros Heq. injection Heq as <- <-. split; [reflexivity|].
    exists []. split; [apply emitted_refl|]. split; intros; lia.
Qed.

(** A response to the request for the port data set, received at the cursor
    on that data set. *)
Lemma run_pmc_round_port_response (c : clock.t) (timeout wait_sync get_utc_offset : Z)
  (w : world) (cnt revents : Z) (msg : ptp_message)
  (q : list (Z * Z)) (qr : list (option ptp_message)) :
  clock.pmc_ds_idx c = 0 -> wait_sync <> 0 ->
  w_poll w = (cnt, revents) :: q -> 0 < cnt ->
  Z.land revents (Z.lor POLLIN POLLPRI) <> 0 ->
  w_recv w = Some msg :: qr ->
  is_msg_mgt msg = 1 -> get_mgt_id msg = PORT_DATA_SET ->
  exists c',
    fst (run_pmc_round c timeout wait_sync get_utc_offset w) = Pmc_continue c'
    /\ clock.pmc_ds_idx c'
       = (if (portState msg =? PS_MASTER) || (portState msg =? PS_SLAVE) then 1 else 0).
Proof.
  intros Hidx Hws Hpoll Hcnt Hin Hrecv Hmgt Hid.
  unfold run_pmc_round. rewrite Hidx. change (ds_ids 0) with PORT_DATA_SET.
  destruct (Z.eqb_spec wait_sync 0) as [|_]; [contradiction|].
  change ((PORT_DATA_SET =? PORT_DATA_SET) && false
          || (PORT_DATA_SET =? TIME_PROPERTIES_DATA_SET) && (get_utc_offset =? 0))
    with false. cbv iota.
  prims. fields. rewrite Hpoll. fields.
  destruct (Z.ltb_spec cnt 0); [lia|].
  destruct (Z.eqb_spec cnt 0); [lia|].
  destruct (Z.eqb_spec (Z.land revents (Z.lor POLLIN POLLPRI)) 0) as [|_];
    [contradiction|].
  rewrite andb_false_r. fields. rewrite Hrecv. fields.
  rewrite Hmgt, Hid. change (1 =? 0) with false.
  change (PORT_DATA_SET =? PORT_DATA_SET) with true. cbn [orb negb].
  unfold pmc_handle_data. rewrite Hid.
  change (PORT_DATA_SET =? PORT_DATA_SET) with true. cbv iota.
  destruct ((portState msg =? PS_MASTER) || (portState msg =? PS_SLAVE));
    cbv beta iota;
    [change (negb (1 =? 0)) with true | change (negb (0 =? 0)) with false];
    cbv iota; eexists; (split; [reflexivity|]); fields; rewrite ?Hidx; reflexivity.
Qed.

(** C9.  A response to the request for the port data set moves the cursor to
    the next data set exactly when the port state it reports is master or
    slave, and leaves it on the port data set otherwise.  And [run_pmc]
    returns 1 only with the cursor back on the first data set and after a
    response has satisfied every data set that is needed and that the cursor
    had not passed. *)
Theorem run_pmc_cursor (timeout wait_sync get_utc_offset : Z) :
  (forall (c : clock.t) (w : world) (cnt revents : Z) (msg : ptp_message)
          (q : list (Z * Z)) (qr : list (option ptp_message)),
      clock.pmc_ds_idx c = 0 -> wait_sync <> 0 ->
      w_poll w = (cnt, revents) :: q -> 0 < cnt ->
      Z.land revents (Z.lor POLLIN POLLPRI) <> 0 ->
      w_recv w = Some msg :: qr ->
      is_msg_mgt msg = 1 -> get_mgt_id msg = PORT_DATA_SET ->
      exists c',
        fst (run_pmc_round c timeout wait_sync get_utc_offset w) = Pmc_continue c'
        /\ (clock.pmc_ds_idx c' = 1
            <-> portState msg = PS_MASTER \/ portState msg = PS_SLAVE)
        /\ (clock.pmc_ds_idx c' = 0
            <-> ~ (portState msg = PS_MASTER \/ portState msg = PS_SLAVE)))
  /\ (forall (c c' : clock.t) (w w' : world),
        0 <= clock.pmc_ds_idx c ->
        run_pmc c timeout wait_sync get_utc_offset w = ((1, c'), w') ->
        clock.pmc_ds_idx c' = 0
        /\ exists evs,
            emitted w w' evs
            /\ (clock.pmc_ds_idx c = 0 -> wait_sync <> 0 -> port_satisfied evs)
            /\ (clock.pmc_ds_idx c <= 1 -> get_utc_offset <> 0 -> time_satisfied evs)).
Proof.
  split.
  - intros c w cnt revents msg q qr Hidx Hws Hpoll Hcnt Hin Hrecv Hmgt Hid.
    destruct (run_pmc_round_port_response c timeout wait_sync get_utc_offset w cnt
                revents msg q qr Hidx Hws Hpoll Hcnt Hin Hrecv Hmgt Hid)
      as (c' & Hround & Hcur).
    exists c'. split; [exact Hround|]. rewrite Hcur.
    destruct (Z.eqb_spec (portState msg) PS_MASTER) as [Hm|Hm];
      destruct (Z.eqb_spec (portState msg) PS_SLAVE) as [Hs|Hs]; cbn [orb];
      split; split; intros; try tauto; try discriminate; try lia.
  - intros c c' w w' Hidx Hrun.
    destruct (run_pmc_unfold c timeout wait_sync get_utc_offset w)
      as (r & c1 & Hloop & Hres).
    rewrite Hrun in Hloop, Hres. cbn [fst snd] in Hloop, Hres.
    injection Hres as <- <-.
    destruct (run_pmc_loop_complete _ timeout wait_sync get_utc_offset c c' w w'
                Hidx Hloop) as (Hc' & evs & He & Hport & Htime).
    split; [exact Hc'|]. exists evs. split; [exact He|].
    split; [intros H0; apply Hport; lia | exact Htime].
Qed.

(** ** The UTC offset forced on the command line *)

Lemma int64_add_int64_r (a b : Z) : int64 (a + int64 b) = int64 (a + b).
Proof.
  unfold int64, to_signed. change (64 - 1) with 63. f_equal.
  replace (a + ((b + 2 ^ 63) mod 2 ^ 64 - 2 ^ 63) + 2 ^ 63)
    with (a + (b + 2 ^ 63) mod 2 ^ 64) by ring.
  rewrite Zplus_mod_idemp_r. f_equal. ring.
Qed.

Lemma update_sync_offset_idle (c : clock.t) (offset ts : Z) (w : world) :
  clock.pmc c = false -> clock.leap c = 0 -> clock.leap_set c = 0 ->
  update_sync_offset c offset ts w = ((0, c), w).
Proof.
  intros Hpmc Hleap Hset.
  unfold update_sync_offset, update_sync_offset_pmc, update_sync_offset_leap,
    pmc_update_due, bind, ret.
  rewrite Hpmc. cbn [andb]. cbv beta iota. rewrite Hleap, Hset. reflexivity.
Qed.

Lemma update_clock_stats_frame (c : clock.t) (offset : Z) (freq : float) (delay : Z)
  (w : world) :
  exists os fs ds,
    fst (update_clock_stats c offset freq delay w) = clock.set_stats os fs ds c.
Proof.
  assert (Hsame : c = clock.set_stats (clock.offset_stats c) (clock.freq_stats c)
                        (clock.delay_stats c) c) by (destruct c; reflexivity).
  unfold update_clock_stats, bind, emit, ret.
  destruct (clock.offset_stats c), (clock.freq_stats c), (clock.delay_stats c);
    try (do 3 eexists; cbn [fst]; exact Hsame).
  destruct (_ <? _); [do 3 eexists; reflexivity|].
  destruct (stats_get_result _) as [r res].
  destruct (r =? 0); do 3 eexists; reflexivity.
Qed.

Lemma corrected_offset_forced (v : Z) (c : clock.t) (offset : Z) :
  forced_clock v c -> corrected_offset c offset = int64 (offset - v * NS_PER_SEC).
Proof.
  intros (Hdir & Hoff & _). unfold corrected_offset, sync_offset_ns.
  rewrite Hdir, Hoff. cbn [Z.eqb negb]. rewrite int64_add_int64_r. f_equal. ring.
Qed.

(** Under a forced offset the servo is handed the offset measured less the
    forced offset, and the clock stays under the forced offset. *)
Lemma update_clock_forced (v : Z) (c : clock.t) (offset ts delay : Z) (w : world) :
  forced_clock v c ->
  let r := update_clock c offset ts delay w in
  (exists evs,
      emitted w (snd r) (E_servo_sample (int64 (offset - v * NS_PER_SEC)) ts :: evs))
  /\ forced_clock v (fst r).
Proof.
  intros Hforced r.
  pose proof Hforced as (Hdir & Hoff & Hpmc & Hleap & Hset).
  split.
  { destruct (servo_sample (clock.servo c) (corrected_offset c offset) ts)
      as [[ppb state] sv] eqn:Hservo.
    destruct (update_clock_sampled c c offset ts delay w w ppb state sv
                (update_sync_offset_idle c offset ts w Hpmc Hleap Hset) Hservo)
      as (evs & Hev & _).
    rewrite (corrected_offset_forced v c offset Hforced) in Hev.
    unfold sample_events in Hev. cbn [app] in Hev. eauto. }
  subst r. unfold update_clock, bind.
  rewrite (update_sync_offset_idle c offset ts w Hpmc Hleap Hset).
  cbn [Z.eqb negb].
  destruct (servo_sample _ _ _) as [[ppb' state'] sv'].
  destruct (emit _ w) as [u w1].
  destruct (adjust_clock _ _ _ _ w1) as [u' w2].
  fields.
  destruct (clock.offset_stats c).
  - destruct (update_clock_stats_frame
                (clock.set_servo_state state' (clock.set_servo sv' c))
                (corrected_offset c offset) ppb' delay w2) as (os & fs & ds & Hfr).
    rewrite Hfr. unfold forced_clock. fields. auto.
  - destruct (delay >=? 0); unfold emit, ret, bind; unfold forced_clock; fields; auto.
Qed.

(** Without the request for the time properties, a round leaves the UTC
    offset and the pending leap alone. *)
Lemma run_pmc_round_forced (c : clock.t) (timeout wait_sync : Z) (w : world) :
  0 <= clock.pmc_ds_idx c < N_ID ->
  let c' := pmc_round_clock (fst (run_pmc_round c timeout wait_sync 0 w)) in
  clock.sync_offset c' = clock.sync_offset c
  /\ clock.leap c' = clock.leap c
  /\ 0 <= clock.pmc_ds_idx c'.
Proof.
  intros Hidx. unfold N_ID in Hidx. cbv zeta.
  assert (Hcase : clock.pmc_ds_idx c = 0 \/ clock.pmc_ds_idx c = 1) by lia.
  unfold run_pmc_round. prims. fields.
  destruct (_ || _) eqn:Hskip; [fields; repeat split; lia|].
  destruct Hcase as [H0|H1]; [|rewrite H1 in Hskip; discriminate].
  clear Hskip. rewrite H0. change (ds_ids 0) with PORT_DATA_SET.
  destruct (w_poll w) as [|[cnt revents] q]; fields;
    [change (0 <? 0) with false; change (0 =? 0) with true; cbv iota; fields;
     repeat split; lia|].
  destruct (cnt <? 0); [fields; repeat split; lia|].
  destruct (cnt =? 0); [fields; repeat split; lia|].
  destruct (negb (Z.land revents POLLOUT =? 0) && _);
    destruct (Z.land revents _ =? 0); fields; try (repeat split; lia).
  all: destruct (w_recv w) as [|[msg|] qr]; fields; try (repeat split; lia).
  all: destruct (Z.eqb_spec (is_msg_mgt msg) 0); cbn [orb];
    fields; try (repeat split; lia).
  all: destruct (Z.eqb_spec (get_mgt_id msg) PORT_DATA_SET) as [Hid|Hid]; cbn [negb];
    fields; try (repeat split; lia).
  all: unfold pmc_handle_data; rewrite Hid;
    change (PORT_DATA_SET =? PORT_DATA_SET) with true; cbv iota;
    destruct (_ || _); cbv beta iota;
    [change (negb (1 =? 0)) with true | change (negb (0 =? 0)) with false];
    cbv iota; fields; repeat split; lia.
Qed.

Lemma run_pmc_loop_forced (fuel : nat) (timeout wait_sync : Z) :
  forall (c : clock.t) (w : world),
    0 <= clock.pmc_ds_idx c ->
    match fst (run_pmc_loop fuel c timeout wait_sync 0 w) with
    | Some (_, c') =>
      clock.sync_offset c' = clock.sync_offset c
      /\ clock.leap c' = clock.leap c
      /\ 0 <= clock.pmc_ds_idx c'
    | None => True
    end.
Proof.
  induction fuel as [|fuel IH]; intros c w Hidx; cbn [run_pmc_loop];
    destruct (Z.ltb_spec (clock.pmc_ds_idx c) N_ID) as [Hlt|Hge].
  - exact I.
  - unfold ret. fields. repeat split; lia.
  - unfold bind.
    pose proof (run_pmc_round_forced c timeout wait_sync w ltac:(lia)) as Hr.
    cbv zeta in Hr.
    destruct (run_pmc_round c timeout wait_sync 0 w) as [[c1|r c1] w1];
      cbn [fst pmc_round_clock] in Hr; destruct Hr as (Ho & Hl & Hi).
    + specialize (IH c1 w1 Hi).
      destruct (fst (run_pmc_loop fuel c1 timeout wait_sync 0 w1)) as [[r c']|];
        [|exact I].
      destruct IH as (Ho' & Hl' & Hi'). repeat split; congruence || lia.
    + cbn. auto.
  - unfold ret. fields. repeat split; lia.
Qed.

Lemma run_pmc_forced (c : clock.t) (timeout wait_sync : Z) (w : world) :
  0 <= clock.pmc_ds_idx c ->
  let c' := snd (fst (run_pmc c timeout wait_sync 0 w)) in
  clock.sync_offset c' = clock.sync_offset c
  /\ clock.leap c' = clock.leap c
  /\ 0 <= clock.pmc_ds_idx c'
  /\ pmc_frame c c'.
Proof.
  intros Hidx. cbv zeta.
  destruct (run_pmc_unfold c timeout wait_sync 0 w) as (r & c' & Hl & Hr).
  pose proof (run_pmc_loop_forced (run_pmc_fuel c w) timeout wait_sync c w Hidx) as Hf.
  rewrite Hl in Hf. cbn [fst] in Hf.
  destruct (run_pmc_spec c timeout wait_sync 0 w) as (Hfr & _).
  rewrite Hr in *. cbn [snd] in *. tauto.
Qed.

(** Reduces the projections of the variables of [main]. *)
Ltac locals :=
  cbn [
       set_ethdev set_src set_phc_readings set_phc_rate set_pps_fd set_wait_sync
       set_forced_sync_offset set_print_level set_use_syslog set_verbose set_pi
       set_dst_clock progname ethdev src phc_readings phc_rate pps_fd wait_sync
       forced_sync_offset print_level use_syslog verbose pi dst_clock];
  fields.

Lemma main_option_forced (a : option_arg) (s : main_locals) (w : world) :
  match fst (main_option a s w) with
  | inl s' =>
    (quiet_clock (dst_clock s) -> quiet_clock (dst_clock s'))
    /\ match a with
       | Opt_O v => forced_locals v s'
       | _ => forall v, forced_locals v s -> forced_locals v s'
       end
  | inr _ => True
  end.
Proof.
  unfold forced_locals, quiet_clock.
  destruct a; unfold main_option, bind, ret;
    try (destruct (clock_open optarg w) as [clk w1]; locals; tauto);
    try (locals; tauto).
  - destruct (open_ optarg w) as [fd w1]. destruct (fd <? 0); [exact I|].
    locals. tauto.
  - destruct (emit _ w). exact I.
  - destruct (emit _ w). exact I.
  - destruct (emit _ w). exact I.
Qed.

Lemma main_options_forced (opts : list option_arg) :
  forall (s : main_locals) (w : world),
    match fst (main_options opts s w) with
    | inl s' =>
      (quiet_clock (dst_clock s) -> quiet_clock (dst_clock s'))
      /\ match last_forced opts with
         | Some v => forced_locals v s'
         | None => forall v, forced_locals v s -> forced_locals v s'
         end
    | inr _ => True
    end.
Proof.
  induction opts as [|a opts IH]; intros s w; cbn [main_options last_forced].
  - cbn. auto.
  - unfold bind. pose proof (main_option_forced a s w) as Ha.
    destruct (main_option a s w) as [[s1|z] w1]; cbn [fst] in *; [|exact I].
    specialize (IH s1 w1).
    destruct (fst (main_options opts s1 w1)) as [s'|z]; [|exact I].
    destruct Ha as [Hq1 Hf1], IH as [Hq2 Hf2]. split; [auto|].
    destruct (last_forced opts) as [v|]; [exact Hf2|].
    destruct a; auto.
Qed.

Lemma last_forced_in (opts : list option_arg) (v : Z) :
  last_forced opts = Some v -> In (Opt_O v) opts.
Proof.
  induction opts as [|a opts IH]; cbn [last_forced]; [discriminate|].
  destruct (last_forced opts) as [u|].
  - intros Heq. right. now apply IH.
  - destruct a; try discriminate. intros Heq. injection Heq as ->. now left.
Qed.

Lemma last_forced_some (opts : list option_arg) (v : Z) :
  In (Opt_O v) opts -> exists v', last_forced opts = Some v'.
Proof.
  induction opts as [|a opts IH]; [intros []|].
  intros [Heq|Hin]; cbn [last_forced].
  - subst a. destruct (last_forced opts); eauto.
  - destruct (IH Hin) as (v' & ->). eauto.
Qed.

Lemma main_discover_forced (s : main_locals) (w : world) :
  match fst (main_discover s w) with
  | inl s' =>
    dst_clock s' = dst_clock s /\ forced_sync_offset s' = forced_sync_offset s
    /\ wait_sync s' = wait_sync s
  | inr _ => True
  end.
Proof.
  unfold main_discover.
  destruct (ethdev s) as [dev|]; [|cbn; auto].
  destruct (src s =? CLOCK_INVALID); [|cbn; auto].
  unfold bind at 1. destruct (sk_get_ts_info dev w) as [[err ts_info] w1].
  destruct (negb (err =? 0) || (ts_valid ts_info =? 0)).
  { unfold bind. destruct (emit _ w1). exact I. }
  destruct (phc_index ts_info <? 0).
  { unfold bind. destruct (emit _ w1). exact I. }
  unfold bind, ret. destruct (clock_open _ w1) as [clk w2]. locals. auto.
Qed.

Lemma main_check_forced (s : main_locals) (w : world) :
  match fst (main_check s w) with
  | inl s' => s' = s
  | inr _ => True
  end.
Proof.
  unfold main_check. destruct (_ || _); [|reflexivity].
  unfold bind. destruct (emit _ w). exact I.
Qed.

Lemma main_stats_forced (s : main_locals) (w : world) :
  match fst (main_stats s w) with
  | inl s' =>
    (exists os fs ds, dst_clock s' = clock.set_stats os fs ds (dst_clock s))
    /\ forced_sync_offset s' = forced_sync_offset s /\ wait_sync s' = wait_sync s
  | inr _ => True
  end.
Proof.
  assert (Hsame : dst_clock s
                  = clock.set_stats (clock.offset_stats (dst_clock s))
                      (clock.freq_stats (dst_clock s))
                      (clock.delay_stats (dst_clock s)) (dst_clock s))
    by (destruct (dst_clock s); reflexivity).
  unfold main_stats. unfold bind at 1.
  destruct (clock.stats_max_count (dst_clock s) >? 0).
  - destruct stats_create as [st|].
    + prims. locals. split; [do 3 eexists; reflexivity | auto].
    + prims. exact I.
  - prims. locals. split; [do 3 eexists; exact Hsame | auto].
Qed.

Lemma main_wait_rounds_forced (rounds : nat) (ws : Z) :
  forall (c : clock.t) (w : world),
    0 <= clock.pmc_ds_idx c ->
    match fst (main_wait_rounds rounds c ws 1 w) with
    | Some (inl c') =>
      clock.sync_offset c' = clock.sync_offset c
      /\ clock.leap c' = clock.leap c
      /\ pmc_frame c c'
    | _ => True
    end.
Proof.
  induction rounds as [|rounds IH]; intros c w Hidx; cbn [main_wait_rounds];
    [exact I|].
  change (if 1 =? 0 then 1 else 0) with 0. unfold bind at 1.
  destruct (run_pmc_forced c 1000 ws w Hidx) as (Ho & Hl & Hi & Hf).
  destruct (run_pmc c 1000 ws 0 w) as [[r c1] w1]. cbn [fst snd] in *.
  destruct (r <? 0); [exact I|].
  destruct (r >? 0); [cbn; auto|].
  unfold bind. destruct (emit _ w1) as [u w2].
  specialize (IH c1 w2 Hi).
  destruct (fst (main_wait_rounds rounds c1 ws 1 w2)) as [[c'|z]|]; try exact I.
  destruct IH as (Ho' & Hl' & Hf').
  split; [congruence | split; [congruence | eauto using pmc_frame_trans]].
Qed.

Lemma init_pmc_result (c : clock.t) (w : world) :
  fst (fst (init_pmc c w)) = 0 -> snd (fst (init_pmc c w)) = clock.set_pmc true c.
Proof.
  unfold init_pmc, pmc_create. prims. fields.
  destruct (w_pmc_create w) as [|[|] q]; fields; cbn [negb]; fields;
    try discriminate; reflexivity.
Qed.

Lemma main_wait_sync_forced (rounds : nat) (v : Z) (s : main_locals) (w : world) :
  forced_locals v s -> quiet_clock (dst_clock s) ->
  match fst (main_wait_sync rounds s w) with
  | Some (inl s') => forced_sync_offset s' = 1 /\ forced_clock v (dst_clock s')
  | _ => True
  end.
Proof.
  intros (Hforced & Hdir & Hoff) (Hpmc & Hleap & Hset & Hidx).
  unfold main_wait_sync.
  destruct (negb (wait_sync s =? 0)).
  2: { unfold ret. cbn [fst]. unfold forced_clock. repeat split; assumption. }
  unfold bind at 1. pose proof (init_pmc_result (dst_clock s) w) as Hinit.
  destruct (init_pmc (dst_clock s) w) as [[err c0] w0]. cbn [fst snd] in Hinit.
  destruct (Z.eqb_spec err 0) as [Herr|Herr]; cbn [negb]; [|exact I].
  specialize (Hinit Herr). subst c0. rewrite Hforced. unfold bind at 1.
  pose proof (main_wait_rounds_forced rounds (wait_sync s)
                (clock.set_pmc true (dst_clock s)) w0 Hidx) as Hw.
  destruct (main_wait_rounds rounds _ (wait_sync s) 1 w0) as [[[c'|z]|] w1];
    cbn [fst] in *; try exact I.
  destruct Hw as (Ho & Hl & Hf & Hls & _).
  change (1 =? 0) with false. cbn [negb orb]. cbv iota.
  unfold close_pmc. prims. locals.
  unfold mgmt_frame in Hf. revert Ho Hl Hf Hls. fields. intros Ho Hl Hf Hls.
  unfold forced_clock. locals. intuition congruence.
Qed.

Lemma main_servo_forced (s : main_locals) (w : world) :
  exists sv, fst (main_servo s w)
             = set_dst_clock (clock.set_servo sv (dst_clock s)) s.
Proof. unfold main_servo. prims. fields. destruct (w_get_freq w); eexists; reflexivity. Qed.

(** With [-O] on the command line, [main] comes to its loop with the offset
    forced, its direction -1, and no management client. *)
Lemma main_prepare_forced (rounds : nat) (argv0 : string) (opts : list option_arg)
  (v : Z) (w : world) (s : main_locals) (w' : world) :
  last_forced opts = Some v ->
  main_prepare rounds argv0 opts w = (Some (inl s), w') ->
  forced_sync_offset s = 1 /\ forced_clock v (dst_clock s).
Proof.
  intros Hlast. unfold main_prepare. unfold bind at 1.
  pose proof (main_options_forced opts (main_init argv0) w) as Hopts.
  rewrite Hlast in Hopts.
  destruct (main_options opts (main_init argv0) w) as [[s1|z] w1];
    [|discriminate]. cbn [fst] in Hopts.
  destruct Hopts as [Hq1 Hf1].
  specialize (Hq1 ltac:(unfold quiet_clock, main_init; locals; repeat split; lia)).
  unfold bind at 1. pose proof (main_discover_forced s1 w1) as Hd.
  destruct (main_discover s1 w1) as [[s2|z] w2]; [|discriminate]. cbn [fst] in Hd.
  destruct Hd as (Hd1 & Hd2 & _).
  unfold bind at 1. pose proof (main_check_forced s2 w2) as Hc.
  destruct (main_check s2 w2) as [[s3|z] w3]; [|discriminate]. cbn [fst] in Hc.
  subst s3.
  unfold bind at 1. pose proof (main_stats_forced s2 w3) as Hs.
  destruct (main_stats s2 w3) as [[s4|z] w4]; [|discriminate]. cbn [fst] in Hs.
  destruct Hs as ((os & fs & ds & Hs1) & Hs2 & _).
  assert (Hf4 : forced_locals v s4).
  { destruct Hf1 as (A & B & C). unfold forced_locals.
    rewrite Hs2, Hd2, Hs1, Hd1. fields. auto. }
  assert (Hq4 : quiet_clock (dst_clock s4)).
  { unfold quiet_clock in *. rewrite Hs1, Hd1. fields. exact Hq1. }
  unfold bind at 1. pose proof (main_wait_sync_forced rounds v s4 w4 Hf4 Hq4) as Hw.
  destruct (main_wait_sync rounds s4 w4) as [[[s5|z]|] w5]; try discriminate.
  cbn [fst] in Hw. destruct Hw as [Hw1 Hw2].
  unfold bind, ret. destruct (main_servo_forced s5 w5) as (sv & Hsv).
  destruct (main_servo s5 w5) as [s6 w6]. cbn [fst] in Hsv. subst s6.
  intros Heq. injection Heq as <- _. locals.
  unfold forced_clock in *. fields. auto.
Qed.

Lemma update_clock_direction (c : clock.t) (offset ts delay : Z) (w : world) :
  clock.sync_offset_direction (fst (update_clock c offset ts delay w))
  = clock.sync_offset_direction c.
Proof.
  unfold update_clock, bind.
  destruct (update_sync_offset_spec c offset ts w) as (Hf & _).
  destruct (update_sync_offset c offset ts w) as [[r c1] w1]. cbn [fst snd] in Hf.
  assert (Hdir : clock.sync_offset_direction c1 = clock.sync_offset_direction c)
    by apply Hf.
  destruct (negb (r =? 0)); [exact Hdir|].
  destruct (servo_sample _ _ _) as [[ppb state] sv].
  destruct (emit _ w1) as [u w2].
  destruct (adjust_clock _ _ _ _ w2) as [u' w3]. fields.
  destruct (clock.offset_stats c1).
  - destruct (update_clock_stats_frame
                (clock.set_servo_state state (clock.set_servo sv c1))
                (corrected_offset c1 offset) ppb delay w3) as (os & fs & ds & Hfr).
    rewrite Hfr. fields. exact Hdir.
  - destruct (delay >=? 0); unfold emit, ret, bind; fields; exact Hdir.
Qed.

(** What the rounds of a loop keep: a property of the clock that
    [update_clock] keeps. *)
Section LoopInvariant.
Variable P : clock.t -> Prop.
Hypothesis update_clock_keeps :
  forall c offset ts delay w, P c -> P (fst (update_clock c offset ts delay w)).

Lemma do_pps_round_keeps (c : clock.t) (fd src n_readings : Z) (l : Z * Z * Z)
  (w : world) :
  P c ->
  match fst (do_pps_round c fd src n_readings l w) with
  | Round_next c' _ => P c'
  | Round_return _ c' => P c'
  | Round_killed c' => P c'
  end.
Proof.
  intros Hc. unfold do_pps_round. unfold bind at 1.
  destruct (read_pps fd w) as [[[pps_offset pps_ts]|] w1]; [|exact Hc].
  destruct (negb (src =? CLOCK_INVALID)).
  - destruct l as [[o0 t0] d0]. unfold bind at 1.
    destruct (read_phc _ _ _ _ _ _ w1) as [[ok [[o t] d]] w2].
    destruct (ok =? 0); [exact Hc|].
    destruct (_ >? _).
    + unfold bind. destruct (emit _ w2). exact Hc.
    + unfold bind, ret.
      match goal with
      | |- context [update_clock c ?o1 ?t1 ?d1 w2] =>
        pose proof (update_clock_keeps c o1 t1 d1 w2 Hc) as Hk;
        destruct (update_clock c o1 t1 d1 w2) as [c' w3]
      end. exact Hk.
  - unfold bind, ret.
    pose proof (update_clock_keeps c pps_offset pps_ts (-1) w1 Hc) as Hk.
    destruct (update_clock c pps_offset pps_ts (-1) w1) as [c' w3]. exact Hk.
Qed.

Lemma do_pps_rounds_keeps (rounds : nat) (fd src n_readings : Z) :
  forall (c : clock.t) (l : Z * Z * Z) (w : world),
    P c -> P (snd (fst (do_pps_rounds rounds c fd src n_readings l w))).
Proof.
  induction rounds as [|rounds IH]; intros c l w Hc; cbn [do_pps_rounds];
    [exact Hc|].
  unfold bind. pose proof (do_pps_round_keeps c fd src n_readings l w Hc) as Hr.
  destruct (do_pps_round c fd src n_readings l w) as [[c' l'|r c'|c'] w1];
    cbn [fst] in Hr; [now apply IH | exact Hr | exact Hr].
Qed.

Lemma do_phc_rounds_keeps (rounds : nat) (src rate n_readings : Z) :
  forall (c : clock.t) (l : Z * Z * Z) (w : world),
    P c -> P (snd (fst (do_phc_rounds rounds c src rate n_readings l w))).
Proof.
  induction rounds as [|rounds IH]; intros c l w Hc; cbn [do_phc_rounds];
    [exact Hc|].
  unfold bind at 1. unfold do_phc_round.
  destruct (rate =? 0); [exact Hc|].
  unfold bind at 1.
  destruct (emit _ w) as [u w0]. destruct l as [[o0 t0] d0]. unfold bind at 1.
  destruct (read_phc _ _ _ _ _ _ w0) as [[ok [[o t] d]] w1].
  destruct (ok =? 0); [now apply IH|].
  unfold bind, ret.
  pose proof (update_clock_keeps c o t d w1 Hc) as Hk.
  destruct (update_clock c o t d w1) as [c' w2]. now apply IH.
Qed.

Lemma do_sysoff_rounds_keeps (rounds : nat) (fd rate n_readings : Z) :
  forall (c : clock.t) (w : world),
    P c -> P (snd (fst (do_sysoff_rounds rounds c fd rate n_readings w))).
Proof.
  induction rounds as [|rounds IH]; intros c w Hc; cbn [do_sysoff_rounds];
    [exact Hc|].
  destruct (rate =? 0); [exact Hc|].
  unfold bind at 1. destruct (emit _ w) as [u w0]. unfold bind at 1.
  destruct (sysoff_measure fd n_readings w0) as [[[[o t] d]|] w1]; [|exact Hc].
  unfold bind.
  pose proof (update_clock_keeps c o t d w1 Hc) as Hk.
  destruct (update_clock c o t d w1) as [c' w2]. now apply IH.
Qed.

End LoopInvariant.

Lemma main_loop_forced (v : Z) (rounds : nat) (s : main_locals) (l : Z * Z * Z)
  (w : world) :
  forced_clock v (dst_clock s) ->
  let c' := snd (fst (main_loop rounds s l w)) in
  if (pps_fd s >=? 0) && (src s =? CLOCK_INVALID)
  then clock.sync_offset_direction c' = 0
  else forced_clock v c'.
Proof.
  intros Hforced. cbv zeta. unfold main_loop.
  assert (Hkeep : forall c offset ts delay w0,
             forced_clock v c -> forced_clock v (fst (update_clock c offset ts delay w0))).
  { intros c offset ts delay w0 Hc.
    now destruct (update_clock_forced v c offset ts delay w0 Hc). }
  assert (Hlabel : forall label, forced_clock v (clock.set_source_label label (dst_clock s))).
  { intros label. unfold forced_clock in *. fields. exact Hforced. }
  destruct (pps_fd s >=? 0); cbn [andb].
  - unfold do_pps_loop. destruct (src s =? CLOCK_INVALID).
    + apply (do_pps_rounds_keeps (fun c => clock.sync_offset_direction c = 0)).
      * intros c offset ts delay w0 Hc. now rewrite update_clock_direction.
      * reflexivity.
    + apply (do_pps_rounds_keeps (forced_clock v) Hkeep). apply Hlabel.
  - unfold bind at 1.
    destruct (if clock.clkid (dst_clock s) =? CLOCK_REALTIME then _ else _)
      as [[|] w1].
    + unfold do_sysoff_loop.
      apply (do_sysoff_rounds_keeps (forced_clock v) Hkeep). apply Hlabel.
    + unfold do_phc_loop.
      apply (do_phc_rounds_keeps (forced_clock v) Hkeep). apply Hlabel.
Qed.

(** C10, as the code has it.  When the command line has [-O], [main] comes
    to its loop with the offset of the last [-O] forced and with direction
    -1.  In the PHC loop, the loop over the kernel's offset measurement and
    the PPS loop with a PHC the clock keeps them, and on such a clock
    [update_clock] hands the servo the offset measured less the forced
    offset, whichever clocks are master and slave.  In the PPS loop without
    a PHC the direction is 0, and the forced offset is not applied. *)
Theorem forced_offset_subtracted (rounds : nat) (argv0 : string)
  (opts : list option_arg) (v : Z) (w : world) (s : main_locals) (w' : world) :
  In (Opt_O v) opts ->
  main_prepare rounds argv0 opts w = (Some (inl s), w') ->
  exists v',
    last_forced opts = Some v'
    /\ forced_sync_offset s = 1
    /\ clock.sync_offset (dst_clock s) = v'
    /\ clock.sync_offset_direction (dst_clock s) = -1
    /\ (forall rounds' l w0,
          let c' := snd (fst (main_loop rounds' s l w0)) in
          if (pps_fd s >=? 0) && (src s =? CLOCK_INVALID)
          then clock.sync_offset_direction c' = 0
               /\ forall offset, corrected_offset c' offset = offset
          else forced_clock v' c')
    /\ (forall c offset ts delay w0,
          forced_clock v' c ->
          exists evs,
            emitted w0 (snd (update_clock c offset ts delay w0))
              (E_servo_sample (int64 (offset - v' * NS_PER_SEC)) ts :: evs)).
Proof.
  intros Hin Hprep.
  destruct (last_forced_some opts v Hin) as (v' & Hlast).
  destruct (main_prepare_forced rounds argv0 opts v' w s w' Hlast Hprep)
    as (Hforced & Hclock).
  exists v'. split; [exact Hlast|]. split; [exact Hforced|].
  split; [apply Hclock|]. split; [apply Hclock|]. split.
  - intros rounds' l w0. cbv zeta.
    pose proof (main_loop_forced v' rounds' s l w0 Hclock) as Hloop.
    cbv zeta in Hloop.
    destruct ((pps_fd s >=? 0) && (src s =? CLOCK_INVALID)); [|exact Hloop].
    split; [exact Hloop|]. intros offset. unfold corrected_offset.
    rewrite Hloop. reflexivity.
  - intros c offset ts delay w0 Hc.
    now destruct (update_clock_forced v' c offset ts delay w0 Hc).
Qed.

(** ** The clock identifiers of opened devices *)

Lemma int32_mod_8 (z : Z) : int32 z mod 8 = z mod 8.
Proof.
  unfold int32, to_signed. change (32 - 1) with 31.
  change (2 ^ 32) with (8 * 536870912). change (2 ^ 31) with (8 * 268435456).
  rewrite <- (Z.mod_add z 268435456 8) by discriminate.
  replace (z + 268435456 * 8) with (z + 8 * 268435456) by ring.
  set (a := z + 8 * 268435456).
  rewrite Z.rem_mul_r by lia.
  replace (a mod 8 + 8 * ((a / 8) mod 536870912) - 8 * 268435456)
    with (a mod 8 + ((a / 8) mod 536870912 - 268435456) * 8) by ring.
  rewrite Z.mod_add by discriminate. apply Z.mod_mod. discriminate.
Qed.

Lemma lor_shiftl_3 (a : Z) : Z.lor (Z.shiftl a 3) 3 = 8 * a + 3.
Proof.
  rewrite Z.shiftl_mul_pow2 by lia. change (2 ^ 3) with 8.
  assert (Hland : Z.land (a * 8) 3 = 0).
  { change 3 with (Z.ones 2). rewrite Z.land_ones by lia. change (2 ^ 2) with 4.
    replace (a * 8) with (a * 2 * 4) by ring. apply Z.mod_mul. discriminate. }
  rewrite <- Z.lxor_lor, <- Z.add_nocarry_lxor by exact Hland. ring.
Qed.

Lemma FD_TO_CLOCKID_mod_8 (fd : Z) : FD_TO_CLOCKID fd mod 8 = 3.
Proof.
  unfold FD_TO_CLOCKID. rewrite int32_mod_8, lor_shiftl_3.
  replace (8 * Z.lnot fd + 3) with (3 + Z.lnot fd * 8) by ring.
  rewrite Z.mod_add by discriminate. reflexivity.
Qed.

Lemma FD_TO_CLOCKID_small (fd : Z) :
  0 <= fd < 2 ^ 28 -> FD_TO_CLOCKID fd = - 8 * fd - 5.
Proof.
  intros Hfd. unfold FD_TO_CLOCKID. rewrite lor_shiftl_3.
  unfold Z.lnot, Z.pred, int32, to_signed. change (32 - 1) with 31.
  rewrite Z.mod_small; lia.
Qed.

Lemma CLOCKID_TO_FD_inverse (fd : Z) :
  0 <= fd < 2 ^ 28 -> CLOCKID_TO_FD (FD_TO_CLOCKID fd) = fd.
Proof.
  intros Hfd. rewrite FD_TO_CLOCKID_small by exact Hfd.
  unfold CLOCKID_TO_FD. rewrite Z.shiftr_div_pow2 by lia. change (2 ^ 3) with 8.
  replace ((- 8 * fd - 5) / 8) with (- fd - 1)
    by (apply Z.div_unique with (r := 3); lia).
  unfold Z.lnot, Z.pred, int32, uint32, to_signed, to_unsigned.
  change (32 - 1) with 31.
  replace (- (- fd - 1) + -1) with fd by ring.
  rewrite (Z.mod_small fd) by lia. rewrite Z.mod_small; lia.
Qed.

Lemma strcasecmp_device (rest : string) :
  strcasecmp (String "/" rest) "CLOCK_REALTIME" <> 0.
Proof. cbn. discriminate. Qed.

(** The two ways of [clock_open]: a path is opened, a name is compared. *)
Lemma clock_open_cases (device : string) (w : world) :
  (exists rest,
      device = String "/" rest
      /\ clock_open device w
         = (fd <- open_ device ;;
            if fd <? 0 then
              emit (E_fprintf_stderr "cannot open %s: %m\n" [P_string device]) ;;;
              ret CLOCK_INVALID
            else ret (FD_TO_CLOCKID fd)) w)
  \/ ((forall rest, device <> String "/" rest)
      /\ clock_open device w
         = (if strcasecmp device "CLOCK_REALTIME" =? 0 then ret CLOCK_REALTIME
            else
              emit (E_fprintf_stderr "unknown clock %s\n" [P_string device]) ;;;
              ret CLOCK_INVALID) w).
Proof.
  destruct device as [|[b0 b1 b2 b3 b4 b5 b6 b7] rest];
    [right; split; [discriminate | reflexivity]|].
  destruct b0, b1, b2, b3, b4, b5, b6, b7;
    try (right; split; [intros r' Heq; discriminate Heq | reflexivity]).
  left. exists rest. split; reflexivity.
Qed.

Lemma clock_open_spec (device : string) (w : world) :
  let r := clock_open device w in
  exists evs,
    emitted w (snd r) evs
    /\ (fst r = CLOCK_INVALID <-> exists fmt args, In (E_fprintf_stderr fmt args) evs)
    /\ (fst r = CLOCK_REALTIME <-> strcasecmp device "CLOCK_REALTIME" = 0)
    /\ (fst r = CLOCK_REALTIME -> evs = [])
    /\ (forall path, In (E_open path) evs ->
                     path = device /\ exists rest, device = String "/" rest)
    /\ (fst r <> CLOCK_INVALID -> fst r <> CLOCK_REALTIME ->
        exists fd, 0 <= fd /\ w_open w = fd :: w_open (snd r)
                   /\ evs = [E_open device] /\ fst r = FD_TO_CLOCKID fd).
Proof.
  cbv zeta.
  assert (Hclk : forall fd, FD_TO_CLOCKID fd <> CLOCK_INVALID
                            /\ FD_TO_CLOCKID fd <> CLOCK_REALTIME).
  { intros fd. pose proof (FD_TO_CLOCKID_mod_8 fd) as Hm.
    split; intros Heq; rewrite Heq in Hm; discriminate Hm. }
  destruct (clock_open_cases device w) as [(rest & Hdev & ->)|(Hname & ->)].
  - pose proof (strcasecmp_device rest) as Hcmp. rewrite <- Hdev in Hcmp.
    unfold open_. prims. fields.
    destruct (w_open w) as [|fd q] eqn:Hq; fields.
    + change (-1 <? 0) with true. cbv iota. fields.
      eexists. split; [solve_emitted|]. cbn [In].
      split; [split; [intros _; eauto | reflexivity]|].
      split; [split; [discriminate | intros Hz; now elim Hcmp]|].
      split; [discriminate|].
      split; [intros path [Hp|[Hp|[]]]; [injection Hp as <-; eauto | discriminate]|].
      intros Hi. now elim Hi.
    + destruct (Z.ltb_spec fd 0) as [Hneg|Hpos]; fields.
      * eexists. split; [solve_emitted|]. cbn [In].
        split; [split; [intros _; eauto | reflexivity]|].
        split; [split; [discriminate | intros Hz; now elim Hcmp]|].
        split; [discriminate|].
        split; [intros path [Hp|[Hp|[]]]; [injection Hp as <-; eauto | discriminate]|].
        intros Hi. now elim Hi.
      * destruct (Hclk fd) as [Hinv Hrt].
        eexists. split; [solve_emitted|]. cbn [In].
        split; [split; [intros Heq; now elim Hinv
                       | intros (fmt & args & [Hp|[]]); discriminate]|].
        split; [split; [intros Heq; now elim Hrt | intros Hz; now elim Hcmp]|].
        split; [intros Heq; now elim Hrt|].
        split; [intros path [Hp|[]]; injection Hp as <-; eauto|].
        intros _ _. exists fd. repeat split; auto.
  - destruct (Z.eqb_spec (strcasecmp device "CLOCK_REALTIME") 0) as [Hz|Hnz];
      unfold emit, ret, bind; fields.
    + exists []. split; [apply emitted_refl|]. cbn [In].
      split; [split; [discriminate | intros (fmt & args & [])]|].
      split; [split; auto|]. split; [auto|].
      split; [intros path []|]. intros _ Hr. now elim Hr.
    + eexists. split; [solve_emitted|]. cbn [In].
      split; [split; [intros _; eauto | reflexivity]|].
      split; [split; [discriminate | intros Hz; now elim Hnz]|].
      split; [discriminate|].
      split; [intros path [Hp|[]]; discriminate|].
      intros Hi. now elim Hi.
Qed.

(** X1.  [clock_open] calls [open] only for a name that begins with a
    slash, and then on that name.  It returns [CLOCK_INVALID] exactly when
    it has printed a message, and [CLOCK_REALTIME] exactly for a name that
    [strcasecmp] finds equal to CLOCK_REALTIME, without any call.  Any
    other result is [FD_TO_CLOCKID] of the descriptor that [open] gave,
    which is not negative. *)
Theorem clock_open_result (device : string) (w : world) :
  let r := clock_open device w in
  exists evs,
    emitted w (snd r) evs
    /\ (fst r = CLOCK_INVALID <-> exists fmt args, In (E_fprintf_stderr fmt args) evs)
    /\ (fst r = CLOCK_REALTIME <-> strcasecmp device "CLOCK_REALTIME" = 0)
    /\ (fst r = CLOCK_REALTIME -> evs = [])
    /\ (forall path, In (E_open path) evs ->
                     path = device /\ exists rest, device = String "/" rest)
    /\ (fst r <> CLOCK_INVALID -> fst r <> CLOCK_REALTIME ->
        exists fd, 0 <= fd /\ w_open w = fd :: w_open (snd r)
                   /\ evs = [E_open device] /\ fst r = FD_TO_CLOCKID fd).
Proof. exact (clock_open_spec device w). Qed.

(** X2.  The clock identifier that [clock_open] makes of an opened device
    is negative, so it is neither [CLOCK_REALTIME] nor [CLOCK_INVALID], and
    [CLOCKID_TO_FD] gives back the descriptor that [open] returned, as long
    as that is below 2^28: [do_sysoff_loop] measures on that descriptor. *)
Theorem clock_open_descriptor (device : string) (w w1 : world) (clk : Z) :
  clock_open device w = (clk, w1) ->
  clk <> CLOCK_INVALID -> clk <> CLOCK_REALTIME ->
  exists fd,
    w_open w = fd :: w_open w1 /\ 0 <= fd
    /\ (fd < 2 ^ 28 ->
        clk = - 8 * fd - 5
        /\ CLOCKID_TO_FD clk = fd
        /\ forall k c rate n,
            do_sysoff_loop k c clk rate n
            = do_sysoff_rounds k (clock.set_source_label "sys" c) fd rate n).
Proof.
  intros Hopen Hinv Hrt.
  destruct (clock_open_spec device w) as (evs & _ & _ & _ & _ & _ & Hfd).
  rewrite Hopen in Hfd. cbn [fst snd] in Hfd.
  destruct (Hfd Hinv Hrt) as (fd & Hpos & Hq & _ & Hclk).
  exists fd. split; [exact Hq|]. split; [exact Hpos|]. intros Hsmall.
  assert (Hback : CLOCKID_TO_FD clk = fd)
    by (rewrite Hclk; apply CLOCKID_TO_FD_inverse; lia).
  split; [rewrite Hclk; apply FD_TO_CLOCKID_small; lia|].
  split; [exact Hback|].
  intros k c rate n. unfold do_sysoff_loop. rewrite Hback. reflexivity.
Qed.

(** ** What [read_phc] reads *)

Lemma read_trial_trace (clkid sysclk : Z) (w : world) :
  let r := read_trial clkid sysclk w in
  let trio := [E_clock_gettime sysclk; E_clock_gettime clkid; E_clock_gettime sysclk] in
  match fst r with
  | Some _ => emitted w (snd r) trio
  | None => exists j, (1 <= j <= 3)%nat /\ emitted w (snd r) (firstn j trio)
  end.
Proof.
  cbv zeta. unfold read_trial. prims. fields.
  assert (Hnone : forall (j : nat) (w' : world),
             (1 <= j <= 3)%nat ->
             emitted w w'
               (firstn j [E_clock_gettime sysclk; E_clock_gettime clkid;
                          E_clock_gettime sysclk]) ->
             exists j, (1 <= j <= 3)%nat
                       /\ emitted w w'
                            (firstn j [E_clock_gettime sysclk; E_clock_gettime clkid;
                                       E_clock_gettime sysclk])) by eauto.
  destruct (w_gettime w) as [|a q]; fields;
    [apply (Hnone 1%nat); [lia | solve_emitted]|].
  destruct (a sysclk); fields; [|apply (Hnone 1%nat); [lia | solve_emitted]].
  destruct q as [|b q]; fields; [apply (Hnone 2%nat); [lia | solve_emitted]|].
  destruct (b clkid); fields; [|apply (Hnone 2%nat); [lia | solve_emitted]].
  destruct q as [|d q]; fields; [apply (Hnone 3%nat); [lia | solve_emitted]|].
  destruct (d sysclk); fields; [solve_emitted|].
  apply (Hnone 3%nat); [lia | solve_emitted].
Qed.

Lemma read_phc_loop_trace (n : nat) (clkid sysclk : Z) :
  forall (best offset ts : Z) (w : world),
    let r := read_phc_loop n clkid sysclk best offset ts w in
    let trio := [E_clock_gettime sysclk; E_clock_gettime clkid; E_clock_gettime sysclk] in
    exists evs,
      emitted w (snd r) evs
      /\ if fst (fst r) then evs = List.concat (repeat trio n)
         else exists k j,
             (k < n)%nat /\ (1 <= j <= 3)%nat
             /\ evs = List.concat (repeat trio k) ++ firstn j trio
                      ++ [E_pr_err "failed to read clock: %m"].
Proof.
  induction n as [|n IH]; intros best offset ts w; cbv zeta.
  - exists []. split; [apply emitted_refl | reflexivity].
  - cbn [read_phc_loop]. unfold bind.
    pose proof (read_trial_trace clkid sysclk w) as Htrial. cbv zeta in Htrial.
    destruct (read_trial clkid sysclk w) as [[[[t1 tm] t2]|] w1]; cbn [fst snd] in Htrial.
    + assert (Hstep : forall b o t,
                 exists evs,
                   emitted w (snd (read_phc_loop n clkid sysclk b o t w1)) evs
                   /\ if fst (fst (read_phc_loop n clkid sysclk b o t w1))
                      then evs = List.concat (repeat [E_clock_gettime sysclk;
                                                 E_clock_gettime clkid;
                                                 E_clock_gettime sysclk] (S n))
                      else exists k j,
                          (k < S n)%nat /\ (1 <= j <= 3)%nat
                          /\ evs = List.concat (repeat [E_clock_gettime sysclk;
                                                   E_clock_gettime clkid;
                                                   E_clock_gettime sysclk] k)
                                   ++ firstn j [E_clock_gettime sysclk;
                                                E_clock_gettime clkid;
                                                E_clock_gettime sysclk]
                                   ++ [E_pr_err "failed to read clock: %m"]).
      { intros b o t. destruct (IH b o t w1) as (evs & He & Hshape).
        eexists. split; [eapply emitted_trans; [exact Htrial | exact He]|].
        destruct (fst (fst (read_phc_loop n clkid sysclk b o t w1))).
        - rewrite Hshape. reflexivity.
        - destruct Hshape as (k & j & Hk & Hj & ->).
          exists (S k), j. split; [lia|]. split; [exact Hj|]. reflexivity. }
      destruct (_ <? _); apply Hstep.
    + destruct Htrial as (j & Hj & He). unfold emit, ret. fields.
      eexists. split; [eapply emitted_trans; [exact He | solve_emitted]|].
      cbv iota. exists 0%nat, j. split; [lia|]. split; [exact Hj|]. reflexivity.
Qed.

(** X3.  [read_phc] returns 1 or 0.  It returns 1 after reading, for each
    of the readings asked for, the slave, the master and the slave again,
    and nothing else; asked for no reading, it leaves the offset and the
    time stamp alone and stores [INT64_MAX] as the delay.  It returns 0 at
    the first reading that fails: the error is logged, no clock is read
    after it, and the delay is left as it was. *)
Theorem read_phc_outcome (clkid sysclk readings offset ts delay : Z) (w : world) :
  let r := read_phc clkid sysclk readings offset ts delay w in
  let trio := [E_clock_gettime sysclk; E_clock_gettime clkid; E_clock_gettime sysclk] in
  exists evs,
    emitted w (snd r) evs
    /\ ((fst (fst r) = 1
         /\ evs = List.concat (repeat trio (Z.to_nat readings))
         /\ (readings <= 0 -> snd (fst r) = (offset, ts, INT64_MAX)))
        \/ (fst (fst r) = 0
            /\ 0 < readings
            /\ snd (snd (fst r)) = delay
            /\ exists k j,
                (k < Z.to_nat readings)%nat /\ (1 <= j <= 3)%nat
                /\ evs = List.concat (repeat trio k) ++ firstn j trio
                         ++ [E_pr_err "failed to read clock: %m"])).
Proof.
  cbv zeta. unfold read_phc, bind.
  destruct (read_phc_loop_trace (Z.to_nat readings) clkid sysclk INT64_MAX offset ts w)
    as (evs & He & Hshape).
  cbv zeta in Hshape.
  destruct (Z.to_nat readings) as [|n] eqn:Hn.
  - cbn [read_phc_loop] in *. unfold ret in *. cbn [fst snd] in *.
    exists evs. split; [exact He|]. left. split; [reflexivity|].
    split; [exact Hshape | reflexivity].
  - rewrite <- Hn in *.
    destruct (read_phc_loop (Z.to_nat readings) clkid sysclk INT64_MAX offset ts w)
      as [[[] [[b o] t]] w1]; unfold ret; cbn [fst snd] in *;
      exists evs; (split; [exact He|]).
    + left. split; [reflexivity|]. split; [exact Hshape | lia].
    + right. split; [reflexivity|]. split; [lia|]. split; [reflexivity | exact Hshape].
Qed.

(** ** The rounds of the management client *)

Lemma released_app (e1 e2 : list event) : released (e1 ++ e2) = released e1 ++ released e2.
Proof. apply flat_map_app. Qed.

Lemma received_app (a1 a2 : list (option ptp_message)) :
  received (a1 ++ a2) = received a1 ++ received a2.
Proof. apply flat_map_app. Qed.

Ltac round_done :=
  repeat split; auto; try lia; try (intros ? []).

(** What a round of [run_pmc] does, whatever [poll] and [pmc_recv] answer. *)
Lemma run_pmc_round_facts (c : clock.t) (timeout wait_sync get_utc_offset : Z) (w : world) :
  0 <= clock.pmc_ds_idx c < N_ID ->
  let r := run_pmc_round c timeout wait_sync get_utc_offset w in
  let c' := pmc_round_clock (fst r) in
  exists evs consumed,
    emitted w (snd r) evs
    /\ w_recv w = consumed ++ w_recv (snd r)
    /\ released evs = received consumed
    /\ (forall id, In id (requests evs) ->
                   (id = PORT_DATA_SET /\ wait_sync <> 0)
                   \/ (id = TIME_PROPERTIES_DATA_SET /\ get_utc_offset <> 0))
    /\ clock.pmc_ds_idx c <= clock.pmc_ds_idx c' <= clock.pmc_ds_idx c + 1
    /\ match fst r with
       | Pmc_continue _ => True
       | Pmc_return rr _ =>
         clock.pmc_ds_idx c' = clock.pmc_ds_idx c
         /\ ((rr = -1 /\ exists ev, evs = [E_poll ev timeout; E_pr_err "poll failed"])
             \/ (rr = 0 /\ clock.pmc_ds_requested c' = 0))
       end.
Proof.
  intros Hidx. unfold N_ID in Hidx. cbv zeta.
  assert (Hneed : ((ds_ids (clock.pmc_ds_idx c) =? PORT_DATA_SET) && (wait_sync =? 0))
                  || ((ds_ids (clock.pmc_ds_idx c) =? TIME_PROPERTIES_DATA_SET)
                      && (get_utc_offset =? 0)) = false ->
                  (ds_ids (clock.pmc_ds_idx c) = PORT_DATA_SET /\ wait_sync <> 0)
                  \/ (ds_ids (clock.pmc_ds_idx c) = TIME_PROPERTIES_DATA_SET
                      /\ get_utc_offset <> 0)).
  { assert (Hcase : clock.pmc_ds_idx c = 0 \/ clock.pmc_ds_idx c = 1) by lia.
    destruct Hcase as [-> | ->]; cbn;
      [destruct (Z.eqb_spec wait_sync 0) | destruct (Z.eqb_spec get_utc_offset 0)];
      cbn; intros Hb; try discriminate; auto. }
  unfold run_pmc_round. prims. fields.
  destruct (_ || _).
  { exists nil, nil. fields. repeat split; auto using emitted_refl; try lia.
    intros id []. }
  specialize (Hneed eq_refl).
  assert (Hreq : forall id, ds_ids (clock.pmc_ds_idx c) = id \/ False ->
                            (id = PORT_DATA_SET /\ wait_sync <> 0)
                            \/ (id = TIME_PROPERTIES_DATA_SET /\ get_utc_offset <> 0)).
  { intros id [<- | []]. exact Hneed. }
  destruct (w_poll w) as [|[cnt revents] q]; fields.
  { change (0 <? 0) with false. change (0 =? 0) with true. cbv iota. fields.
    eexists. exists nil. split; [solve_emitted|]. round_done. }
  destruct (cnt <? 0).
  { fields. eexists. exists nil. split; [solve_emitted|]. round_done.
    left. split; [reflexivity | eauto]. }
  destruct (cnt =? 0).
  { fields. eexists. exists nil. split; [solve_emitted|]. round_done. }
  destruct (negb (Z.land revents POLLOUT =? 0) && _);
    destruct (Z.land revents _ =? 0); fields;
    try (eexists; exists nil; split; [solve_emitted|]; round_done; exact Hreq).
  all: destruct (w_recv w) as [|[msg|] qr] eqn:Hrecv; fields; rewrite ?Hrecv.
  all: try (eexists; exists nil; split; [solve_emitted|]; round_done; exact Hreq).
  all: try (eexists; exists [None]; split; [solve_emitted|]; round_done; exact Hreq).
  all: destruct (_ || _); fields; rewrite ?Hrecv;
    try (eexists; exists [Some msg]; split; [solve_emitted|]; round_done; exact Hreq).
  all: match goal with
       | |- context [pmc_handle_data ?c' ?m] =>
         destruct (pmc_handle_data_frame c' m) as (_ & Hi & _);
         destruct (pmc_handle_data c' m) as [c2 ds_done]
       end;
    cbn [fst clock.pmc_ds_idx clock.set_pmc_ds_requested] in Hi; fields;
    destruct (negb (ds_done =? 0)); fields; rewrite ?Hrecv;
    (eexists; exists [Some msg]; split; [solve_emitted|]; round_done; exact Hreq).
Qed.

Lemma requests_app (e1 e2 : list event) : requests (e1 ++ e2) = requests e1 ++ requests e2.
Proof. apply flat_map_app. Qed.

Lemma run_pmc_loop_facts (fuel : nat) (timeout wait_sync get_utc_offset : Z) :
  forall (c : clock.t) (w : world),
    0 <= clock.pmc_ds_idx c ->
    let r := run_pmc_loop fuel c timeout wait_sync get_utc_offset w in
    match fst r with
    | None => True
    | Some (res, c') =>
      exists evs consumed,
        emitted w (snd r) evs
        /\ w_recv w = consumed ++ w_recv (snd r)
        /\ released evs = received consumed
        /\ (forall id, In id (requests evs) ->
                       (id = PORT_DATA_SET /\ wait_sync <> 0)
                       \/ (id = TIME_PROPERTIES_DATA_SET /\ get_utc_offset <> 0))
        /\ ((res = 1 /\ clock.pmc_ds_idx c' = 0)
            \/ (res = 0 /\ clock.pmc_ds_requested c' = 0
                /\ clock.pmc_ds_idx c <= clock.pmc_ds_idx c' < N_ID)
            \/ (res = -1 /\ clock.pmc_ds_idx c <= clock.pmc_ds_idx c' < N_ID
                /\ exists e0 ev, evs = e0 ++ [E_poll ev timeout; E_pr_err "poll failed"]))
    end.
Proof.
  induction fuel as [|fuel IH]; intros c w Hidx; cbv zeta.
  - cbn [run_pmc_loop]. destruct (Z.ltb_spec (clock.pmc_ds_idx c) N_ID); unfold ret; fields.
    + exact I.
    + exists nil, nil. repeat split; auto using emitted_refl. intros id [].
  - cbn [run_pmc_loop]. destruct (Z.ltb_spec (clock.pmc_ds_idx c) N_ID) as [Hlt|Hge];
      unfold ret; fields.
    2: { exists nil, nil. repeat split; auto using emitted_refl. intros id []. }
    unfold bind.
    pose proof (run_pmc_round_facts c timeout wait_sync get_utc_offset w
                  (conj Hidx Hlt)) as Hround.
    cbv zeta in Hround.
    destruct (run_pmc_round c timeout wait_sync get_utc_offset w) as [[c1|rr c1] w1];
      cbn [fst snd pmc_round_clock] in Hround;
      destruct Hround as (e1 & a1 & He1 & Ha1 & Hrel1 & Hreq1 & Hi1 & Hret).
    + specialize (IH c1 w1 ltac:(lia)). cbv zeta in IH.
      destruct (run_pmc_loop fuel c1 timeout wait_sync get_utc_offset w1)
        as [[[res c2]|] w2]; cbn [fst snd] in *; [|exact I].
      destruct IH as (e2 & a2 & He2 & Ha2 & Hrel2 & Hreq2 & Hres).
      exists (e1 ++ e2), (a1 ++ a2).
      split; [eapply emitted_trans; eauto|].
      split; [rewrite Ha1, Ha2; apply app_assoc|].
      split; [rewrite released_app, received_app; congruence|].
      split.
      { intros id Hin. rewrite requests_app in Hin.
        apply in_app_or in Hin. destruct Hin; auto. }
      destruct Hres as [Hres|[(Hr & Hq & Hb)|(Hr & Hb & e0 & ev & ->)]].
      * left. exact Hres.
      * right. left. repeat split; auto; lia.
      * right. right. split; [exact Hr|]. split; [lia|].
        exists (e1 ++ e0), ev. apply app_assoc.
    + unfold ret. cbn [fst snd]. exists e1, a1.
      destruct Hret as (Hsame & Hret).
      repeat split; auto.
      destruct Hret as [(-> & ev & ->)|(-> & Hq)].
      * right. right. split; [reflexivity|]. split; [lia|]. exists nil, ev. reflexivity.
      * right. left. repeat split; auto; lia.
Qed.

Lemma run_pmc_facts (c : clock.t) (timeout wait_sync get_utc_offset : Z) (w : world) :
  0 <= clock.pmc_ds_idx c ->
  let r := run_pmc c timeout wait_sync get_utc_offset w in
  exists evs consumed,
    emitted w (snd r) evs
    /\ w_recv w = consumed ++ w_recv (snd r)
    /\ released evs = received consumed
    /\ (forall id, In id (requests evs) ->
                   (id = PORT_DATA_SET /\ wait_sync <> 0)
                   \/ (id = TIME_PROPERTIES_DATA_SET /\ get_utc_offset <> 0))
    /\ ((fst (fst r) = 1 /\ clock.pmc_ds_idx (snd (fst r)) = 0)
        \/ (fst (fst r) = 0 /\ clock.pmc_ds_requested (snd (fst r)) = 0
            /\ clock.pmc_ds_idx c <= clock.pmc_ds_idx (snd (fst r)) < N_ID)
        \/ (fst (fst r) = -1
            /\ clock.pmc_ds_idx c <= clock.pmc_ds_idx (snd (fst r)) < N_ID
            /\ exists e0 ev, evs = e0 ++ [E_poll ev timeout; E_pr_err "poll failed"])).
Proof.
  intros Hidx. cbv zeta.
  destruct (run_pmc_unfold c timeout wait_sync get_utc_offset w) as (res & c' & Hloop & Hrun).
  pose proof (run_pmc_loop_facts (run_pmc_fuel c w) timeout wait_sync get_utc_offset
                c w Hidx) as Hfacts.
  cbv zeta in Hfacts. rewrite Hloop in Hfacts. cbn [fst snd] in Hfacts.
  rewrite Hrun. cbn [fst snd]. exact Hfacts.
Qed.

(** X4.  Entered with the cursor on one of its two data sets, [run_pmc]
    returns 1, 0 or -1 and leaves the cursor on one of the two data sets, so
    that [ds_ids] is never read out of its bounds: on 1 the cursor is back on
    the first; on 0, the time-out of [poll], the request is marked as not
    sent, to be sent again; and -1 follows the failure of [poll], which is
    logged last. *)
Theorem run_pmc_result (c : clock.t) (timeout wait_sync get_utc_offset : Z) (w : world) :
  0 <= clock.pmc_ds_idx c < N_ID ->
  let r := run_pmc c timeout wait_sync get_utc_offset w in
  0 <= clock.pmc_ds_idx (snd (fst r)) < N_ID
  /\ ((fst (fst r) = 1 /\ clock.pmc_ds_idx (snd (fst r)) = 0)
      \/ (fst (fst r) = 0 /\ clock.pmc_ds_requested (snd (fst r)) = 0)
      \/ (fst (fst r) = -1
          /\ exists e0 ev,
              emitted w (snd r) (e0 ++ [E_poll ev timeout; E_pr_err "poll failed"]))).
Proof.
  intros [Hlo Hhi]. cbv zeta.
  destruct (run_pmc_facts c timeout wait_sync get_utc_offset w Hlo)
    as (evs & a & He & _ & _ & _ & [(Hr & Hi)|[(Hr & Hq & Hb)|(Hr & Hb & e0 & ev & ->)]]).
  - split; [rewrite Hi; unfold N_ID; lia | left; auto].
  - split; [lia | right; left; auto].
  - split; [lia | right; right; split; [exact Hr | eauto]].
Qed.

(** X5.  Every message that [run_pmc] receives it releases: the messages
    handed to [msg_put] are the messages that [pmc_recv] returned, in the
    same order, whether they were the response waited for or not. *)
Theorem run_pmc_releases (c : clock.t) (timeout wait_sync get_utc_offset : Z) (w : world) :
  0 <= clock.pmc_ds_idx c ->
  let r := run_pmc c timeout wait_sync get_utc_offset w in
  exists evs consumed,
    emitted w (snd r) evs
    /\ w_recv w = consumed ++ w_recv (snd r)
    /\ released evs = received consumed.
Proof.
  intros Hidx. cbv zeta.
  destruct (run_pmc_facts c timeout wait_sync get_utc_offset w Hidx)
    as (evs & a & He & Ha & Hrel & _).
  exists evs, a. auto.
Qed.

(** X6.  [run_pmc] requests no data set but the two of [ds_ids], and each
    only when it is needed: the port data set when [wait_sync] is set, the
    time properties when [get_utc_offset] is set.  Without [get_utc_offset]
    the UTC offset and the pending leap second of the clock stay as they
    are. *)
Theorem run_pmc_requests (c : clock.t) (timeout wait_sync get_utc_offset : Z) (w : world) :
  0 <= clock.pmc_ds_idx c ->
  let r := run_pmc c timeout wait_sync get_utc_offset w in
  (exists evs,
      emitted w (snd r) evs
      /\ forall id, In (E_pmc_send_get_action id) evs ->
                    (id = PORT_DATA_SET /\ wait_sync <> 0)
                    \/ (id = TIME_PROPERTIES_DATA_SET /\ get_utc_offset <> 0))
  /\ (get_utc_offset = 0 ->
      clock.sync_offset (snd (fst r)) = clock.sync_offset c
      /\ clock.leap (snd (fst r)) = clock.leap c).
Proof.
  intros Hidx. cbv zeta. split.
  - destruct (run_pmc_facts c timeout wait_sync get_utc_offset w Hidx)
      as (evs & a & He & _ & _ & Hreq & _).
    exists evs. split; [exact He|]. intros id Hin. apply Hreq.
    unfold requests. apply in_flat_map. exists (E_pmc_send_get_action id).
    split; [exact Hin | now left].
  - intros ->.
    destruct (run_pmc_forced c timeout wait_sync w Hidx) as (Hs & Hl & _).
    split; assumption.
Qed.

(** ** The outcomes of the leap second handling *)

Lemma update_sync_offset_status_result (c : clock.t) (ts : Z) (w : world) :
  let r := update_sync_offset_status c ts w in
  (fst (fst r) = 0 /\ is_utc_ambiguous ts = 0)
  \/ (fst r = (-1, c) /\ is_utc_ambiguous ts <> 0
      /\ emitted w (snd r) [E_pr_info "clock update suspended due to leap second" []]).
Proof.
  cbv zeta. unfold update_sync_offset_status. prims.
  destruct (Z.eqb_spec (is_utc_ambiguous ts) 0) as [Hz|Hnz]; cbn [negb].
  - left. split; [|exact Hz].
    destruct (leap_second_status _ _ _ _) as [clock_leap [leap' utc_offset']].
    destruct (negb _); [destruct (_ && _)|]; reflexivity.
  - right. split; [reflexivity|]. split; [exact Hnz | solve_emitted].
Qed.

(** X7.  [update_sync_offset] returns 0 or -1.  It returns -1 in two cases
    only, each logged last: the slave is not the system clock and the
    reading of the system clock failed, or the time stamp examined lies in
    the ambiguous second; the value latched in [leap_set] is then as
    before. *)
Theorem update_sync_offset_result (c : clock.t) (offset ts : Z) (w : world) :
  let r := update_sync_offset c offset ts w in
  fst (fst r) = 0
  \/ (fst (fst r) = -1
      /\ clock.leap_set (snd (fst r)) = clock.leap_set c
      /\ exists evs,
          (emitted w (snd r)
             (evs ++ [E_clock_gettime CLOCK_REALTIME; E_pr_err "failed to read clock: %m"])
           /\ clock.clkid c <> CLOCK_REALTIME)
          \/ emitted w (snd r)
               (evs ++ [E_pr_info "clock update suspended due to leap second" []])).
Proof.
  cbv zeta. unfold update_sync_offset, bind.
  destruct (update_sync_offset_pmc_spec c ts w) as (Hf & Hl & e1 & He1 & _).
  destruct (update_sync_offset_pmc c ts w) as [c1 w1]. cbn [fst snd] in *.
  assert (Hclk : clock.clkid c1 = clock.clkid c) by apply Hf.
  unfold update_sync_offset_leap.
  destruct (_ && _); [left; reflexivity|].
  assert (Hstatus : forall t w0 e0,
             emitted w1 w0 e0 ->
             fst (fst (update_sync_offset_status c1 t w0)) = 0
             \/ (fst (fst (update_sync_offset_status c1 t w0)) = -1
                 /\ clock.leap_set (snd (fst (update_sync_offset_status c1 t w0)))
                    = clock.leap_set c
                 /\ exists evs,
                     emitted w (snd (update_sync_offset_status c1 t w0))
                       (evs ++ [E_clock_gettime CLOCK_REALTIME;
                                E_pr_err "failed to read clock: %m"])
                     /\ clock.clkid c <> CLOCK_REALTIME
                     \/ emitted w (snd (update_sync_offset_status c1 t w0))
                          (evs ++ [E_pr_info "clock update suspended due to leap second"
                                     []]))).
  { intros t w0 e0 He0.
    destruct (update_sync_offset_status_result c1 t w0) as [[Hz _]|(Hr & _ & He)];
      [left; exact Hz | right].
    rewrite Hr. cbn [fst snd]. split; [reflexivity|]. split; [exact Hl|].
    exists (e1 ++ e0). right. rewrite <- app_assoc.
    eapply emitted_trans; [exact He1|]. eapply emitted_trans; eassumption. }
  destruct (Z.eqb_spec (clock.clkid c1) CLOCK_REALTIME) as [Hrt|Hrt]; cbn [negb].
  - unfold bind, ret. apply (Hstatus _ w1 []). apply emitted_refl.
  - prims. fields.
    assert (Hfail : forall w0, emitted w1 w0 [E_clock_gettime CLOCK_REALTIME;
                                             E_pr_err "failed to read clock: %m"] ->
               exists evs,
                 emitted w w0 (evs ++ [E_clock_gettime CLOCK_REALTIME;
                                       E_pr_err "failed to read clock: %m"])
                 /\ clock.clkid c <> CLOCK_REALTIME
                 \/ emitted w w0
                      (evs ++ [E_pr_info "clock update suspended due to leap second" []])).
    { intros w0 He0. exists e1. left. split; [|congruence].
      eapply emitted_trans; eassumption. }
    destruct (w_gettime w1) as [|now q]; fields.
    + right. split; [reflexivity|]. split; [exact Hl|]. apply Hfail. solve_emitted.
    + destruct (now CLOCK_REALTIME) as [tp|]; fields.
      * apply (Hstatus _ _ [E_clock_gettime CLOCK_REALTIME]). solve_emitted.
      * right. split; [reflexivity|]. split; [exact Hl|]. apply Hfail. solve_emitted.
Qed.

(** X8.  For a slave that is not the system clock and without a management
    client, [update_sync_offset] looks at neither the offset nor the time
    stamp of the sample: the leap second is followed on the time that the
    system clock shows. *)
Theorem update_sync_offset_system_time (c : clock.t) (offset ts offset' ts' : Z)
  (w : world) :
  clock.pmc c = false -> clock.clkid c <> CLOCK_REALTIME ->
  update_sync_offset c offset ts w = update_sync_offset c offset' ts' w.
Proof.
  intros Hpmc Hclk.
  unfold update_sync_offset, update_sync_offset_pmc, pmc_update_due, bind, ret.
  rewrite Hpmc. cbn [andb]. cbv iota.
  unfold update_sync_offset_leap.
  destruct (_ && _); [reflexivity|].
  destruct (Z.eqb_spec (clock.clkid c) CLOCK_REALTIME) as [Hrt|_]; [now elim Hclk|].
  cbn [negb andb]. unfold bind. cbv iota.
  destruct (clock_gettime CLOCK_REALTIME w) as [[tp|] w1]; reflexivity.
Qed.

(** ** How the sampling loops end *)

Lemma do_phc_rounds_running (rounds : nat) (src rate n_readings : Z) :
  forall (c : clock.t) (l : Z * Z * Z) (w : world),
    fst (fst (do_phc_rounds rounds c src rate n_readings l w)) = None.
Proof.
  induction rounds as [|rounds IH]; intros c l w; [reflexivity|].
  cbn [do_phc_rounds]. unfold bind at 1. unfold do_phc_round.
  destruct (rate =? 0); [reflexivity|]. unfold bind.
  destruct (emit _ w) as [u w0]. destruct l as [[offset ts] delay].
  destruct (read_phc _ _ _ _ _ _ w0) as [[ok [[o t] d]] w1].
  destruct (ok =? 0); unfold ret; [apply IH|].
  destruct (update_clock _ _ _ _ w1) as [c1 w2]. apply IH.
Qed.

Lemma do_pps_rounds_result (rounds : nat) (fd src n_readings : Z) :
  forall (c : clock.t) (l : Z * Z * Z) (w : world),
    let r := fst (fst (do_pps_rounds rounds c fd src n_readings l w)) in
    r = None \/ (r = Some (-1) /\ src <> CLOCK_INVALID).
Proof.
  induction rounds as [|rounds IH]; intros c l w; cbv zeta; [left; reflexivity|].
  cbn [do_pps_rounds]. unfold bind, do_pps_round, bind.
  destruct (read_pps fd w) as [[[pps_offset pps_ts]|] w0]; unfold ret; [|apply IH].
  destruct (Z.eqb_spec src CLOCK_INVALID) as [Hinv|Hsrc]; cbn [negb].
  - destruct (update_clock _ _ _ _ w0) as [c1 w1]. apply IH.
  - destruct l as [[phc_offset phc_ts] phc_delay].
    destruct (read_phc _ _ _ _ _ _ w0) as [[ok [[o t] d]] w1].
    destruct (ok =? 0); [right; split; [reflexivity | exact Hsrc]|].
    destruct (_ >? _).
    + destruct (emit _ w1) as [u w2]. apply IH.
    + destruct (update_clock _ _ _ _ w1) as [c1 w2]. apply IH.
Qed.

Lemma do_sysoff_rounds_result (rounds : nat) (fd rate n_readings : Z) :
  forall (c : clock.t) (w : world),
    let r := fst (fst (do_sysoff_rounds rounds c fd rate n_readings w)) in
    r = None \/ r = Some (-1).
Proof.
  induction rounds as [|rounds IH]; intros c w; cbv zeta; [left; reflexivity|].
  cbn [do_sysoff_rounds]. destruct (rate =? 0); [left; reflexivity|]. unfold bind.
  destruct (emit _ w) as [u w0].
  destruct (sysoff_measure fd n_readings w0) as [[[[offset ts] delay]|] w1];
    unfold ret; [|right; reflexivity].
  destruct (update_clock _ _ _ _ w1) as [c1 w2]. apply IH.
Qed.

(** X9.  No sampling loop returns 0.  The PPS loop without a PHC and the
    PHC loop never return, however many rounds they are given; the PPS loop
    with a PHC and the loop over the kernel's offset measurement return
    nothing but -1.  With a rate that is not 0, the second does so as soon
    as a measurement fails, after [usleep] and the measurement only, with
    the clock as it was and the servo not called.  With the rate 0 the two
    loops that sleep do not come to their first [usleep]: the division ends
    the process in the first round, and nothing else happens. *)
Theorem sampling_loops_results (rounds : nat) (c : clock.t) (fd src rate n_readings : Z)
  (l : Z * Z * Z) (w : world) :
  fst (fst (do_pps_loop rounds c fd CLOCK_INVALID n_readings l w)) = None
  /\ (let r := fst (fst (do_pps_loop rounds c fd src n_readings l w)) in
      r = None \/ r = Some (-1))
  /\ fst (fst (do_phc_loop rounds c src rate n_readings l w)) = None
  /\ (let r := fst (fst (do_sysoff_loop rounds c src rate n_readings w)) in
      r = None \/ r = Some (-1))
  /\ (rate <> 0 ->
      let w0 := snd (emit (E_usleep (Z.quot 1000000 rate)) w) in
      let m := sysoff_measure (CLOCKID_TO_FD src) n_readings w0 in
      fst m = None ->
      do_sysoff_loop (S rounds) c src rate n_readings w
      = ((Some (-1), clock.set_source_label "sys" c), snd m)
      /\ emitted w (snd m)
           [E_usleep (Z.quot 1000000 rate);
            E_sysoff_measure (CLOCKID_TO_FD src) n_readings])
  /\ (rate = 0 ->
      do_phc_loop (S rounds) c src rate n_readings l w
      = ((None, clock.set_source_label "phc" c), snd (emit E_sigfpe w))
      /\ do_sysoff_loop (S rounds) c src rate n_readings w
         = ((None, clock.set_source_label "sys" c), snd (emit E_sigfpe w))).
Proof.
  split.
  { unfold do_pps_loop.
    destruct (do_pps_rounds_result rounds fd CLOCK_INVALID n_readings
                (if CLOCK_INVALID =? CLOCK_INVALID
                 then clock.set_sync_offset_direction 0 (clock.set_source_label "pps" c)
                 else clock.set_source_label "pps" c) l w) as [Hr|[_ Hne]];
      [exact Hr | now elim Hne]. }
  split.
  { cbv zeta. unfold do_pps_loop.
    match goal with
    | |- context [do_pps_rounds rounds ?c' fd src n_readings l w] =>
      destruct (do_pps_rounds_result rounds fd src n_readings c' l w) as [Hr|[Hr _]]
    end; auto. }
  split; [apply do_phc_rounds_running|].
  split; [apply do_sysoff_rounds_result|].
  split.
  - intros Hrate. cbv zeta. intros Hfail. unfold do_sysoff_loop. cbn [do_sysoff_rounds].
    destruct (Z.eqb_spec rate 0) as [Hzero|_]; [contradiction|].
    unfold bind at 1 2.
    destruct (emit (E_usleep (Z.quot 1000000 rate)) w) as [u w0] eqn:Hemit.
    cbn [snd] in *.
    destruct (sysoff_measure (CLOCKID_TO_FD src) n_readings w0) as [[m|] w1] eqn:Hm;
      [discriminate Hfail|].
    cbn [snd]. split; [reflexivity|].
    unfold emit in Hemit. injection Hemit as _ <-.
    revert Hm. unfold sysoff_measure. prims. fields.
    destruct (w_sysoff w) as [|a q]; intros Hm;
      [injection Hm as <- | injection Hm as _ <-]; solve_emitted.
  - intros ->. split.
    + unfold do_phc_loop. cbn [do_phc_rounds]. unfold bind at 1.
      unfold do_phc_round. cbn [Z.eqb]. reflexivity.
    + unfold do_sysoff_loop. cbn [do_sysoff_rounds Z.eqb]. reflexivity.
Qed.

(** ** What the loops leave as it is *)

Lemma same_setup_refl (c : clock.t) : same_setup c c.
Proof. unfold same_setup. intuition auto. Qed.

Lemma update_clock_stats_setup (c : clock.t) (offset : Z) (freq : float) (delay : Z)
  (w : world) :
  same_setup c (fst (update_clock_stats c offset freq delay w)).
Proof.
  unfold update_clock_stats, bind, emit, ret.
  destruct (clock.offset_stats c) as [os|] eqn:Hos; [|apply same_setup_refl].
  destruct (clock.freq_stats c) as [fs|] eqn:Hfs; [|apply same_setup_refl].
  destruct (clock.delay_stats c) as [ds|] eqn:Hds; [|apply same_setup_refl].
  assert (Hset : forall o f d,
             same_setup c (clock.set_stats (Some o) (Some f) (Some d) c)).
  { intros o f d. unfold same_setup. fields.
    split; [reflexivity|]. split; [reflexivity|]. split; [reflexivity|].
    split; [reflexivity|]. split.
    - intros _. unfold all_stats. fields. eauto 10.
    - intros (Hn & _). rewrite Hos in Hn. discriminate Hn. }
  destruct (_ <? _); [apply Hset|].
  destruct (stats_get_result _) as [r res].
  destruct (r =? 0); apply Hset.
Qed.

Lemma same_setup_trans (c1 c2 c3 : clock.t) :
  same_setup c1 c2 -> same_setup c2 c3 -> same_setup c1 c3.
Proof. unfold same_setup. intuition congruence. Qed.

Lemma mgmt_frame_setup (c c' : clock.t) : mgmt_frame c c' -> same_setup c c'.
Proof.
  unfold mgmt_frame, same_setup, all_stats, no_stats.
  intros (Hk & _ & _ & _ & Ho & Hf & Hd & Hm & _ & Hl & Hp).
  rewrite Ho, Hf, Hd. intuition auto.
Qed.

Lemma update_clock_setup (c : clock.t) (offset ts delay : Z) (w : world) :
  same_setup c (fst (update_clock c offset ts delay w))
  /\ clock.source_label (fst (update_clock c offset ts delay w)) = clock.source_label c.
Proof.
  unfold update_clock, bind.
  destruct (update_sync_offset_spec c offset ts w) as (Hf & _).
  destruct (update_sync_offset c offset ts w) as [[r c1] w1]. cbn [fst snd] in Hf.
  pose proof (mgmt_frame_setup c c1 Hf) as Hs1.
  assert (Hlabel : clock.source_label c1 = clock.source_label c) by apply Hf.
  destruct (negb (r =? 0)); [split; assumption|].
  destruct (servo_sample _ _ _) as [[ppb state] sv].
  destruct (emit _ w1) as [u w2].
  destruct (adjust_clock _ _ _ _ w2) as [u' w3]. fields.
  assert (Hs2 : same_setup c (clock.set_servo_state state (clock.set_servo sv c1))).
  { eapply same_setup_trans; [exact Hs1|].
    unfold same_setup, all_stats, no_stats. fields. intuition auto. }
  destruct (clock.offset_stats c1).
  - split.
    + eapply same_setup_trans; [exact Hs2 | apply update_clock_stats_setup].
    + destruct (update_clock_stats_frame
                  (clock.set_servo_state state (clock.set_servo sv c1))
                  (corrected_offset c1 offset) ppb delay w3) as (os & fs & ds & Hfr).
      rewrite Hfr. fields. exact Hlabel.
  - destruct (delay >=? 0); unfold emit, ret, bind; fields; split; assumption.
Qed.

(** X10.  Neither [update_clock] nor a sampling loop of [main] changes
    which clock is the slave, the number of samples of a summary, whether
    the kernel inserts the leap second, or whether there is a management
    client; and the accumulators of the statistics stay all three there, or
    all three absent, as they were. *)
Theorem main_loop_setup (rounds : nat) (s : main_locals) (l : Z * Z * Z) (w : world) :
  (forall c offset ts delay w0,
      same_setup c (fst (update_clock c offset ts delay w0)))
  /\ same_setup (dst_clock s) (snd (fst (main_loop rounds s l w))).
Proof.
  assert (Hkeep : forall c offset ts delay w0,
             same_setup (dst_clock s) c ->
             same_setup (dst_clock s) (fst (update_clock c offset ts delay w0))).
  { intros c offset ts delay w0 Hc. eapply same_setup_trans; [exact Hc|].
    apply update_clock_setup. }
  assert (Hlabel : forall label,
             same_setup (dst_clock s) (clock.set_source_label label (dst_clock s))).
  { intros label. unfold same_setup, all_stats, no_stats. fields. intuition auto. }
  split; [intros; apply update_clock_setup|].
  unfold main_loop. destruct (pps_fd s >=? 0).
  - unfold do_pps_loop.
    apply (do_pps_rounds_keeps (same_setup (dst_clock s)) Hkeep).
    destruct (src s =? CLOCK_INVALID); [|apply Hlabel].
    unfold same_setup, all_stats, no_stats. fields. intuition auto.
  - unfold bind at 1.
    destruct (if clock.clkid (dst_clock s) =? CLOCK_REALTIME then _ else _)
      as [[|] w1].
    + unfold do_sysoff_loop.
      apply (do_sysoff_rounds_keeps (same_setup (dst_clock s)) Hkeep). apply Hlabel.
    + unfold do_phc_loop.
      apply (do_phc_rounds_keeps (same_setup (dst_clock s)) Hkeep). apply Hlabel.
Qed.

(** ** [main] up to its loop *)

Lemma clock_open_quiet (device : string) (w : world) :
  exists evs, emitted w (snd (clock_open device w)) evs /\ no_adjust evs.
Proof.
  destruct (clock_open_cases device w) as [(rest & _ & ->)|(_ & ->)].
  - unfold open_. prims. fields.
    destruct (w_open w) as [|fd q]; fields.
    + change (-1 <? 0) with true. cbv iota. fields.
      eexists. split; [solve_emitted | reflexivity].
    + destruct (fd <? 0); fields; eexists; (split; [solve_emitted | reflexivity]).
  - destruct (_ =? 0); unfold emit, ret, bind; fields.
    + exists []. split; [apply emitted_refl | reflexivity].
    + eexists. split; [solve_emitted | reflexivity].
Qed.

Lemma options_read_init (argv0 : string) : options_read (main_init argv0).
Proof.
  unfold options_read, no_stats, main_init. locals.
  repeat split; auto.
Qed.

(** One option: what it logs, what it returns, what it keeps. *)
Lemma main_option_facts (a : option_arg) (s : main_locals) (w : world) :
  let r := main_option a s w in
  exists evs,
    emitted w (snd r) evs /\ no_adjust evs
    /\ match fst r with
       | inl s' =>
         (options_read s -> options_read s')
         /\ ((forall v, a <> Opt_O v) -> forced_sync_offset s' = forced_sync_offset s)
         /\ (a <> Opt_w -> wait_sync s' = wait_sync s)
         /\ a <> Opt_v /\ a <> Opt_h /\ a <> Opt_unknown
         /\ progname s' = progname s
       | inr z =>
         (z = 0 /\ (a = Opt_v \/ a = Opt_h) /\ exists e, evs = [e])
         \/ (z = -1 /\ (a = Opt_unknown \/ exists optarg, a = Opt_d optarg))
       end.
Proof.
  cbv zeta.
  assert (Hkeep : forall s' : main_locals,
             dst_clock s' = dst_clock s ->
             forced_sync_offset s' = forced_sync_offset s ->
             wait_sync s' = wait_sync s ->
             options_read s -> options_read s').
  { intros s' Hc Hf Hw. unfold options_read. rewrite Hc, Hf, Hw. auto. }
  destruct a; unfold main_option, bind.
  - (* -c *)
    destruct (clock_open_quiet optarg w) as (evs & He & Hn).
    destruct (clock_open optarg w) as [clk w1]. unfold ret. cbn [fst snd] in *.
    exists evs. split; [exact He|]. split; [exact Hn|]. locals.
    split; [|repeat split; auto; discriminate].
    unfold options_read, no_stats. locals. auto.
  - (* -d *)
    unfold open_. prims. fields.
    destruct (w_open w) as [|fd q]; fields.
    + change (-1 <? 0) with true. cbv iota. fields.
      eexists. split; [solve_emitted|]. split; [reflexivity|].
      right. split; [reflexivity | eauto].
    + destruct (fd <? 0); fields; eexists; (split; [solve_emitted|]);
        (split; [reflexivity|]).
      * right. split; [reflexivity | eauto].
      * locals. split; [apply Hkeep; reflexivity|]. repeat split; auto; discriminate.
  - (* -s *)
    destruct (clock_open_quiet optarg w) as (evs & He & Hn).
    destruct (clock_open optarg w) as [clk w1]. unfold ret. cbn [fst snd] in *.
    exists evs. split; [exact He|]. split; [exact Hn|]. locals.
    split; [apply Hkeep; reflexivity|]. repeat split; auto; discriminate.
  - unfold ret. exists []. split; [apply emitted_refl|]. split; [reflexivity|].
    cbn [fst]. locals.
    split; [apply Hkeep; reflexivity|]. repeat split; auto; discriminate.
  - unfold ret. exists []. split; [apply emitted_refl|]. split; [reflexivity|].
    cbn [fst]. locals.
    split; [apply Hkeep; reflexivity|]. repeat split; auto; discriminate.
  - unfold ret. exists []. split; [apply emitted_refl|]. split; [reflexivity|].
    cbn [fst]. locals.
    split; [apply Hkeep; reflexivity|]. repeat split; auto; discriminate.
  - unfold ret. exists []. split; [apply emitted_refl|]. split; [reflexivity|].
    cbn [fst]. locals.
    split; [apply Hkeep; reflexivity|]. repeat split; auto; discriminate.
  - unfold ret. exists []. split; [apply emitted_refl|]. split; [reflexivity|].
    cbn [fst]. locals.
    split; [apply Hkeep; reflexivity|]. repeat split; auto; discriminate.
  - (* -O *)
    unfold ret. exists []. split; [apply emitted_refl|]. split; [reflexivity|].
    cbn [fst]. locals.
    split; [unfold options_read, no_stats; locals; intuition auto|].
    split; [intros Hno; now elim (Hno offset)|]. repeat split; auto; discriminate.
  - unfold ret. exists []. split; [apply emitted_refl|]. split; [reflexivity|].
    cbn [fst]. locals.
    split; [apply Hkeep; reflexivity|]. repeat split; auto; discriminate.
  - (* -u *)
    unfold ret. exists []. split; [apply emitted_refl|]. split; [reflexivity|].
    cbn [fst]. locals.
    split; [unfold options_read, no_stats; locals; auto|].
    repeat split; auto; discriminate.
  - (* -w *)
    unfold ret. exists []. split; [apply emitted_refl|]. split; [reflexivity|].
    cbn [fst]. locals.
    split; [unfold options_read, no_stats; locals; intuition auto|].
    split; [reflexivity|]. split; [intros Hne; now elim Hne|].
    repeat split; auto; discriminate.
  - (* -x *)
    unfold ret. exists []. split; [apply emitted_refl|]. split; [reflexivity|].
    cbn [fst]. locals.
    split; [unfold options_read, no_stats; locals; auto|].
    repeat split; auto; discriminate.
  - unfold ret. exists []. split; [apply emitted_refl|]. split; [reflexivity|].
    cbn [fst]. locals.
    split; [apply Hkeep; reflexivity|]. repeat split; auto; discriminate.
  - unfold ret. exists []. split; [apply emitted_refl|]. split; [reflexivity|].
    cbn [fst]. locals.
    split; [apply Hkeep; reflexivity|]. repeat split; auto; discriminate.
  - unfold ret. exists []. split; [apply emitted_refl|]. split; [reflexivity|].
    cbn [fst]. locals.
    split; [apply Hkeep; reflexivity|]. repeat split; auto; discriminate.
  - unfold emit, ret. fields. eexists. split; [solve_emitted|]. split; [reflexivity|].
    left. split; [reflexivity|]. split; [now left | eauto].
  - unfold emit, ret. fields. eexists. split; [solve_emitted|]. split; [reflexivity|].
    left. split; [reflexivity|]. split; [now right | eauto].
  - unfold emit, ret. fields. eexists. split; [solve_emitted|]. split; [reflexivity|].
    right. split; [reflexivity | now left].
Qed.

Lemma main_options_facts (opts : list option_arg) :
  forall (s : main_locals) (w : world),
    let r := main_options opts s w in
    exists evs,
      emitted w (snd r) evs /\ no_adjust evs
      /\ match fst r with
         | inl s' =>
           (options_read s -> options_read s')
           /\ ((forall v, ~ In (Opt_O v) opts) ->
               forced_sync_offset s' = forced_sync_offset s)
           /\ (~ In Opt_w opts -> wait_sync s' = wait_sync s)
           /\ ~ In Opt_v opts /\ ~ In Opt_h opts /\ ~ In Opt_unknown opts
           /\ progname s' = progname s
         | inr z =>
           (z = 0 /\ (In Opt_v opts \/ In Opt_h opts))
           \/ (z = -1 /\ (In Opt_unknown opts \/ exists optarg, In (Opt_d optarg) opts))
         end.
Proof.
  induction opts as [|a opts IH]; intros s w; cbv zeta.
  - exists []. split; [apply emitted_refl|]. split; [reflexivity|].
    cbn. intuition auto.
  - cbn [main_options]. unfold bind.
    destruct (main_option_facts a s w) as (e1 & He1 & Hn1 & Hfact).
    destruct (main_option a s w) as [[s1|z] w1]; cbn [fst snd] in *.
    + destruct (IH s1 w1) as (e2 & He2 & Hn2 & Hrest).
      exists (e1 ++ e2). split; [eapply emitted_trans; eassumption|].
      split; [now apply no_adjust_app|].
      destruct Hfact as (Hread & Hforced & Hwait & Hv & Hh & Hu & Hprog).
      destruct (fst (main_options opts s1 w1)) as [s2|z].
      * destruct Hrest as (Hread2 & Hforced2 & Hwait2 & Hv2 & Hh2 & Hu2 & Hprog2).
        cbn [In].
        split; [auto|].
        split; [intros Hno; rewrite Hforced2, Hforced; auto; intros v Hin;
                [apply (Hno v); left; exact Hin | apply (Hno v); now right]|].
        split; [intros Hno; rewrite Hwait2, Hwait; auto|].
        split; [intros [Heq|Hin]; auto|].
        split; [intros [Heq|Hin]; auto|].
        split; [intros [Heq|Hin]; auto|].
        congruence.
      * cbn [In]. destruct Hrest as [(Hz & [Hin|Hin])|(Hz & [Hin|(optarg & Hin)])]; eauto 8.
    + unfold ret. cbn [fst snd]. exists e1. split; [exact He1|]. split; [exact Hn1|].
      cbn [In].
      destruct Hfact as [(Hz & [Heq|Heq] & _)|(Hz & [Heq|(optarg & Heq)])]; eauto 8.
Qed.

Lemma main_options_app (pre post : list option_arg) :
  forall (s : main_locals) (w : world),
    main_options (pre ++ post) s w
    = match main_options pre s w with
      | (inl s', w') => main_options post s' w'
      | (inr z, w') => (inr z, w')
      end.
Proof.
  induction pre as [|a pre IH]; intros s w; [reflexivity|].
  cbn [app main_options]. unfold bind.
  destruct (main_option a s w) as [[s1|z] w1]; [apply IH | reflexivity].
Qed.

Lemma main_discover_facts (s : main_locals) (w : world) :
  let r := main_discover s w in
  exists evs,
    emitted w (snd r) evs /\ no_adjust evs
    /\ match fst r with
       | inl s' =>
         dst_clock s' = dst_clock s
         /\ forced_sync_offset s' = forced_sync_offset s
         /\ wait_sync s' = wait_sync s
         /\ pps_fd s' = pps_fd s
         /\ pi s' = pi s
       | inr z => z = -1
       end.
Proof.
  cbv zeta. unfold main_discover.
  destruct (ethdev s) as [dev|];
    [|exists []; split; [apply emitted_refl|]; split; [reflexivity|];
      cbn; repeat split].
  destruct (src s =? CLOCK_INVALID);
    [|exists []; split; [apply emitted_refl|]; split; [reflexivity|];
      cbn; repeat split].
  unfold bind at 1. unfold sk_get_ts_info. prims. fields.
  destruct (w_ts_info w) as [|[err ts_info] q]; fields.
  { change (negb (-1 =? 0)) with true. cbn [orb]. cbv iota. fields.
    eexists. split; [solve_emitted|]. split; reflexivity. }
  destruct (negb (err =? 0) || _); fields.
  { eexists. split; [solve_emitted|]. split; reflexivity. }
  destruct (phc_index ts_info <? 0); fields.
  { eexists. split; [solve_emitted|]. split; reflexivity. }
  match goal with
  | |- context [clock_open ?d ?w0] =>
    destruct (clock_open_quiet d w0) as (evs & He & Hn);
    destruct (clock_open d w0) as [clk w1]
  end.
  cbn [fst snd] in *. eexists.
  split; [eapply emitted_trans; [|exact He]; solve_emitted|].
  split; [exact Hn|]. locals. repeat split.
Qed.

Lemma main_check_facts (s : main_locals) (w : world) :
  let r := main_check s w in
  exists evs,
    emitted w (snd r) evs /\ no_adjust evs
    /\ match fst r with
       | inl s' =>
         s' = s
         /\ (0 <= pps_fd s \/ src s <> CLOCK_INVALID)
         /\ clock.clkid (dst_clock s) <> CLOCK_INVALID
         /\ (0 <= pps_fd s -> clock.clkid (dst_clock s) = CLOCK_REALTIME)
       | inr z => z = -1
       end.
Proof.
  cbv zeta. unfold main_check.
  destruct (Z.geb_spec (pps_fd s) 0) as [Hpps|Hpps];
    destruct (Z.eqb_spec (src s) CLOCK_INVALID) as [Hsrc|Hsrc];
    destruct (Z.eqb_spec (clock.clkid (dst_clock s)) CLOCK_INVALID) as [Hinv|Hinv];
    destruct (Z.eqb_spec (clock.clkid (dst_clock s)) CLOCK_REALTIME) as [Hrt|Hrt];
    cbn [negb orb andb]; unfold emit, ret, bind; fields;
    try (eexists; split; [solve_emitted|]; split; reflexivity);
    (exists []; split; [apply emitted_refl|]; split; [reflexivity|]);
    repeat split; auto; try lia.
Qed.

Lemma main_stats_facts (s : main_locals) (w : world) :
  let r := main_stats s w in
  exists evs,
    emitted w (snd r) evs /\ no_adjust evs
    /\ match fst r with
       | inl s' =>
         src s' = src s
         /\ forced_sync_offset s' = forced_sync_offset s
         /\ wait_sync s' = wait_sync s
         /\ pps_fd s' = pps_fd s
         /\ pi s' = pi s
         /\ (if clock.stats_max_count (dst_clock s) >? 0
             then exists st, dst_clock s'
                             = clock.set_stats (Some st) (Some st) (Some st) (dst_clock s)
             else dst_clock s' = dst_clock s)
       | inr z => z = -1
       end.
Proof.
  cbv zeta. unfold main_stats. unfold bind at 1.
  destruct (clock.stats_max_count (dst_clock s) >? 0) eqn:Hmax.
  - destruct stats_create as [st|]; unfold emit, ret, bind; fields.
    + eexists. split; [solve_emitted|]. split; [reflexivity|]. locals.
      repeat split. eauto.
    + eexists. split; [solve_emitted|]. split; reflexivity.
  - unfold emit, ret, bind. fields.
    eexists. split; [solve_emitted|]. split; [reflexivity|]. repeat split.
Qed.

Lemma main_wait_rounds_facts (rounds : nat) (ws forced : Z) :
  forall (c : clock.t) (w : world),
    0 <= clock.pmc_ds_idx c ->
    let r := main_wait_rounds rounds c ws forced w in
    exists evs,
      emitted w (snd r) evs /\ no_adjust evs
      /\ match fst r with
         | Some (inl c') => pmc_frame c c' /\ clock.pmc_ds_idx c' = 0
         | Some (inr z) => z = -1
         | None => True
         end.
Proof.
  induction rounds as [|rounds IH]; intros c w Hidx; cbv zeta.
  - exists []. split; [apply emitted_refl|]. split; [reflexivity | exact I].
  - cbn [main_wait_rounds]. unfold bind.
    set (g := if forced =? 0 then 1 else 0).
    destruct (run_pmc_spec c 1000 ws g w) as (Hf & e1 & He1 & Hn1).
    destruct (run_pmc_facts c 1000 ws g w Hidx) as (e1' & a & _ & _ & _ & _ & Hres).
    destruct (run_pmc c 1000 ws g w) as [[r c1] w1]. cbn [fst snd] in *.
    destruct (Z.ltb_spec r 0) as [Hneg|Hpos].
    { unfold ret. exists e1. cbv iota. cbn [fst snd]. repeat split; auto. }
    destruct (Z.gtb_spec r 0) as [Hgt|Hle].
    { unfold ret. exists e1. cbv iota. cbn [fst snd]. split; [exact He1|]. split; [exact Hn1|].
      split; [exact Hf|].
      destruct Hres as [(_ & Hi)|[(Hr & _)|(Hr & _)]]; [exact Hi | lia | lia]. }
    assert (Hidx1 : 0 <= clock.pmc_ds_idx c1).
    { destruct Hres as [(Hr & _)|[(_ & _ & Hb)|(_ & Hb & _)]]; lia. }
    destruct (emit (E_pr_notice "Waiting for ptp4l...") w1) as [u w2] eqn:Hemit.
    destruct (IH c1 w2 Hidx1) as (e2 & He2 & Hn2 & Hrest).
    exists (e1 ++ [E_pr_notice "Waiting for ptp4l..."] ++ e2).
    split.
    { eapply emitted_trans; [exact He1|]. eapply emitted_trans; [|exact He2].
      unfold emit in Hemit. injection Hemit as _ <-. solve_emitted. }
    split; [apply no_adjust_app; [exact Hn1 | apply no_adjust_app; [reflexivity | exact Hn2]]|].
    destruct (fst (main_wait_rounds rounds c1 ws forced w2)) as [[c2|z]|]; auto.
    destruct Hrest as (Hf2 & Hi2). split; [eapply pmc_frame_trans; eassumption | exact Hi2].
Qed.

Lemma init_pmc_facts (c : clock.t) (w : world) :
  let r := init_pmc c w in
  (fst r = (0, clock.set_pmc true c) /\ emitted w (snd r) [E_pmc_create])
  \/ (fst (fst r) = -1
      /\ emitted w (snd r) [E_pmc_create; E_pr_err "failed to create pmc"]).
Proof.
  cbv zeta. unfold init_pmc. prims. fields.
  destruct (w_pmc_create w) as [|[|] q]; fields;
    [right | left | right]; (split; [reflexivity | solve_emitted]).
Qed.

Lemma main_wait_sync_facts (rounds : nat) (s : main_locals) (w : world) :
  clock.pmc (dst_clock s) = false -> clock.pmc_ds_idx (dst_clock s) = 0 ->
  let r := main_wait_sync rounds s w in
  exists evs,
    emitted w (snd r) evs /\ no_adjust evs
    /\ match fst r with
       | Some (inl s') => waited s s'
       | Some (inr z) => z = -1
       | None => wait_sync s <> 0
       end.
Proof.
  intros Hpmc Hidx. cbv zeta. unfold main_wait_sync.
  destruct (Z.eqb_spec (wait_sync s) 0) as [Hws|Hws]; cbn [negb].
  { unfold ret. exists []. split; [apply emitted_refl|]. split; [reflexivity|].
    cbn [fst]. unfold waited. rewrite Hpmc, Hidx.
    repeat split; auto; try discriminate; try tauto. }
  unfold bind.
  destruct (init_pmc_facts (dst_clock s) w) as [(Hinit & He0)|(Hinit & He0)];
    destruct (init_pmc (dst_clock s) w) as [[err c0] w0]; cbn [fst snd] in *.
  2: { subst err. change (negb (-1 =? 0)) with true. cbv iota. unfold ret. cbn [fst snd].
       eexists. split; [exact He0|]. split; reflexivity. }
  injection Hinit as -> ->. change (negb (0 =? 0)) with false. cbv iota.
  destruct (main_wait_rounds_facts rounds (wait_sync s) (forced_sync_offset s)
              (clock.set_pmc true (dst_clock s)) w0)
    as (e1 & He1 & Hn1 & Hres); [fields; lia|].
  destruct (main_wait_rounds rounds (clock.set_pmc true (dst_clock s))
              (wait_sync s) (forced_sync_offset s) w0) as [[[c1|z]|] w1];
    cbn [fst snd] in *.
  2: { unfold ret. cbn [fst snd]. exists ([E_pmc_create] ++ e1).
       split; [eapply emitted_trans; eassumption|].
       split; [apply no_adjust_app; [reflexivity | exact Hn1] | exact Hres]. }
  2: { unfold ret. cbn [fst snd]. exists ([E_pmc_create] ++ e1).
       split; [eapply emitted_trans; eassumption|].
       split; [apply no_adjust_app; [reflexivity | exact Hn1] | exact Hws]. }
  destruct Hres as (Hframe & Hi1).
  destruct Hframe as ((Hk & Hsv & Hst & Hlb & Hos & Hfs & Hds & Hmx & Hdir & Hkl & Hp)
                      & Hls & Hlu).
  cbn [clock.clkid clock.servo clock.servo_state clock.source_label clock.offset_stats
       clock.freq_stats clock.delay_stats clock.stats_max_count
       clock.sync_offset_direction clock.kernel_leap clock.pmc clock.leap_set
       clock.pmc_last_update clock.set_pmc] in *.
  assert (Hevs : emitted w w1 ([E_pmc_create] ++ e1))
    by (eapply emitted_trans; eassumption).
  assert (Hquiet : no_adjust ([E_pmc_create] ++ e1))
    by (apply no_adjust_app; [reflexivity | exact Hn1]).
  destruct (Z.eqb_spec (forced_sync_offset s) 0) as [Hforced|Hforced]; cbn [negb orb].
  - fields.
    destruct (Z.eqb_spec (main_direction (src s) (clock.clkid c1)) 0) as [Hzero|Hnz].
    + unfold close_pmc, emit, ret, bind. fields. eexists.
      split; [eapply emitted_trans; [exact Hevs | solve_emitted]|].
      split; [apply no_adjust_app; [exact Hquiet | reflexivity]|].
      unfold waited. locals. rewrite Hk in *.
      repeat split; auto; try congruence; try discriminate.
      intros (_ & _ & Hd). now elim Hd.
    + unfold ret. fields. eexists. split; [exact Hevs|]. split; [exact Hquiet|].
      unfold waited. locals. rewrite Hk in *.
      repeat split; auto; try congruence.
  - unfold close_pmc, emit, ret, bind. fields. eexists.
    split; [eapply emitted_trans; [exact Hevs | solve_emitted]|].
    split; [apply no_adjust_app; [exact Hquiet | reflexivity]|].
    unfold waited. locals.
    repeat split; auto; try congruence; try discriminate.
    intros (_ & Hf0 & _). now elim Hforced.
Qed.

Lemma main_servo_facts (s : main_locals) (w : world) :
  let r := main_servo s w in
  exists ppb,
    emitted w (snd r)
      [E_clockadj_get_freq (clock.clkid (dst_clock s));
       E_clockadj_set_freq (clock.clkid (dst_clock s)) ppb;
       E_clockadj_set_leap (clock.clkid (dst_clock s)) 0]
    /\ fst r = set_dst_clock
                 (clock.set_servo (servo_create (pi s) (- ppb)%float max_ppb 0)
                    (dst_clock s)) s.
Proof.
  cbv zeta. unfold main_servo. prims. fields.
  destruct (w_get_freq w) as [|ppb q]; fields; eexists;
    (split; [solve_emitted | reflexivity]).
Qed.

(** [main] up to its loop: what has happened, and in which state the loop
    is entered. *)
Lemma main_prepare_facts (rounds : nat) (argv0 : string) (opts : list option_arg)
  (w : world) :
  let r := main_prepare rounds argv0 opts w in
  exists evs,
    no_adjust evs
    /\ match fst r with
       | Some (inl s) =>
         let c := dst_clock s in
         (exists ppb,
             emitted w (snd r)
               (evs ++ [E_clockadj_get_freq (clock.clkid c);
                        E_clockadj_set_freq (clock.clkid c) ppb;
                        E_clockadj_set_leap (clock.clkid c) 0])
             /\ clock.servo c = servo_create (pi s) (- ppb)%float max_ppb 0)
         /\ ((0 <= pps_fd s \/ src s <> CLOCK_INVALID)
             /\ clock.clkid c <> CLOCK_INVALID
             /\ (0 <= pps_fd s -> clock.clkid c = CLOCK_REALTIME)
             /\ (if clock.stats_max_count c >? 0 then all_stats c else no_stats c)
             /\ clock.servo_state c = SERVO_UNLOCKED
             /\ clock.leap_set c = 0
             /\ clock.pmc_ds_idx c = 0)
         /\ ((clock.pmc c = true
              <-> wait_sync s <> 0 /\ forced_sync_offset s = 0
                  /\ clock.sync_offset_direction c <> 0)
             /\ (forced_sync_offset s = 0 ->
                 clock.sync_offset_direction c
                 = if wait_sync s =? 0 then 0
                   else main_direction (src s) (clock.clkid c))
             /\ (forced_sync_offset s = 0
                 \/ (forced_sync_offset s = 1 /\ clock.sync_offset_direction c = -1)))
         /\ ((forall v, ~ In (Opt_O v) opts) -> forced_sync_offset s = 0)
         /\ (~ In Opt_w opts ->
             wait_sync s = 0 /\ clock.leap c = 0
             /\ (forced_sync_offset s = 0 -> clock.sync_offset c = 0))
       | Some (inr z) =>
         emitted w (snd r) evs
         /\ ((z = 0 /\ (In Opt_v opts \/ In Opt_h opts)) \/ z = -1)
       | None => emitted w (snd r) evs
       end.
Proof.
  cbv zeta. unfold main_prepare, bind.
  destruct (main_options_facts opts (main_init argv0) w) as (e1 & He1 & Hn1 & Hopt).
  destruct (main_options opts (main_init argv0) w) as [[s1|z] w1]; cbn [fst snd] in *.
  2: { unfold ret. cbn [fst snd]. exists e1. split; [exact Hn1|]. split; [exact He1|].
       destruct Hopt as [(Hz & Hin)|(Hz & _)]; auto. }
  destruct Hopt as (Hread & Hforced & Hwait & _).
  specialize (Hread (options_read_init argv0)).
  destruct Hread as (Hpmc1 & Hleap1 & Hls1 & Hidx1 & Hns1 & Hst1 & Hdir1 & Hws1).
  change (forced_sync_offset (main_init argv0)) with 0 in Hforced.
  change (wait_sync (main_init argv0)) with 0 in Hwait.
  destruct (main_discover_facts s1 w1) as (e2 & He2 & Hn2 & Hdisc).
  destruct (main_discover s1 w1) as [[s2|z] w2]; cbn [fst snd] in *.
  2: { unfold ret. cbn [fst snd]. exists (e1 ++ e2).
       split; [now apply no_adjust_app|].
       split; [eapply emitted_trans; eassumption | now right]. }
  destruct Hdisc as (Hc2 & Hf2 & Hw2 & Hp2 & Hpi2).
  destruct (main_check_facts s2 w2) as (e3 & He3 & Hn3 & Hchk).
  destruct (main_check s2 w2) as [[s3|z] w3]; cbn [fst snd] in *.
  2: { unfold ret. cbn [fst snd]. exists (e1 ++ e2 ++ e3).
       split; [repeat apply no_adjust_app; assumption|].
       split; [|now right].
       eapply emitted_trans; [exact He1|]. eapply emitted_trans; eassumption. }
  destruct Hchk as (-> & Hsrc & Hinv & Hpps).
  destruct (main_stats_facts s2 w3) as (e4 & He4 & Hn4 & Hstats).
  destruct (main_stats s2 w3) as [[s4|z] w4]; cbn [fst snd] in *.
  2: { unfold ret. cbn [fst snd]. exists (e1 ++ e2 ++ e3 ++ e4).
       split; [repeat apply no_adjust_app; assumption|].
       split; [|now right].
       eapply emitted_trans; [exact He1|]. eapply emitted_trans; [exact He2|].
       eapply emitted_trans; eassumption. }
  destruct Hstats as (Hs4 & Hf4 & Hw4 & Hp4 & Hpi4 & Hc4).
  assert (Hclock4 : exists os fs ds,
             dst_clock s4 = clock.set_stats os fs ds (dst_clock s1)
             /\ (if clock.stats_max_count (dst_clock s1) >? 0
                 then exists st, os = Some st /\ fs = Some st /\ ds = Some st
                 else os = None /\ fs = None /\ ds = None)).
  { rewrite Hc2 in Hc4. destruct (clock.stats_max_count (dst_clock s1) >? 0).
    - destruct Hc4 as (st & ->). do 3 eexists. split; [reflexivity | eauto].
    - destruct Hns1 as (Ho & Hf & Hd).
      exists None, None, None. split; [|auto].
      rewrite Hc4. clear - Ho Hf Hd. destruct (dst_clock s1). cbn in *.
      subst. reflexivity. }
  destruct Hclock4 as (os & fs & ds & Hclk4 & Hstats4).
  destruct (main_wait_sync_facts rounds s4 w4) as (e5 & He5 & Hn5 & Hwaited).
  { rewrite Hclk4. fields. exact Hpmc1. }
  { rewrite Hclk4. fields. exact Hidx1. }
  assert (Hevs : forall w5, emitted w4 w5 e5 ->
             emitted w w5 (e1 ++ e2 ++ e3 ++ e4 ++ e5)).
  { intros w5 H5. eapply emitted_trans; [exact He1|]. eapply emitted_trans; [exact He2|].
    eapply emitted_trans; [exact He3|]. eapply emitted_trans; eassumption. }
  assert (Hquiet : no_adjust (e1 ++ e2 ++ e3 ++ e4 ++ e5))
    by (repeat apply no_adjust_app; assumption).
  destruct (main_wait_sync rounds s4 w4) as [[[s5|z]|] w5]; cbn [fst snd] in *.
  2: { unfold ret. cbn [fst snd]. eexists. split; [exact Hquiet|].
       split; [now apply Hevs | now right]. }
  2: { unfold ret. cbn [fst snd]. eexists. split; [exact Hquiet|]. now apply Hevs. }
  destruct (main_servo_facts s5 w5) as (ppb & He6 & Hs6).
  destruct (main_servo s5 w5) as [s6 w6]. cbn [fst snd] in *. subst s6.
  unfold ret. cbn [fst snd]. exists (e1 ++ e2 ++ e3 ++ e4 ++ e5).
  split; [exact Hquiet|]. locals.
  destruct Hwaited as (Hs5 & Hf5 & Hw5 & Hp5 & Hpi5 & Hk5 & Hst5 & Hos5 & Hfs5 & Hds5
                       & Hmx5 & Hkl5 & Hls5 & Hi5 & Hsame5 & Hpmc5 & Hdir5 & Hdirf5).
  rewrite Hclk4 in *. clear Hc4.
  cbn [clock.clkid clock.servo_state clock.offset_stats clock.freq_stats
       clock.delay_stats clock.stats_max_count clock.kernel_leap clock.leap_set
       clock.sync_offset_direction clock.set_stats] in *.
  assert (Hf51 : forced_sync_offset s5 = forced_sync_offset s1) by congruence.
  assert (Hw51 : wait_sync s5 = wait_sync s1) by congruence.
  assert (Hw41 : wait_sync s4 = wait_sync s1) by congruence.
  assert (Hf41 : forced_sync_offset s4 = forced_sync_offset s1) by congruence.
  rewrite Hc2 in *. rewrite Hf51, Hw51, Hk5, Hst5, Hls5, Hmx5, Hi5, Hs5, Hp5, Hp4, Hs4.
  rewrite Hw41, Hf41 in *.
  split.
  { exists ppb. split; [|reflexivity].
    rewrite Hk5 in He6. exact (emitted_trans _ _ _ _ _ (Hevs w5 He5) He6). }
  split.
  { split; [exact Hsrc|]. split; [exact Hinv|]. split; [exact Hpps|].
    split; [|auto].
    destruct (clock.stats_max_count (dst_clock s1) >? 0).
    - destruct Hstats4 as (st & -> & -> & ->). unfold all_stats. exists st, st, st. auto.
    - destruct Hstats4 as (-> & -> & ->). unfold no_stats. auto. }
  split.
  { split; [exact Hpmc5|]. split.
    - intros Hf0. destruct (Z.eqb_spec (wait_sync s1) 0) as [Hz|Hnz].
      + rewrite (Hsame5 Hz). fields.
        destruct Hdir1 as [(_ & Hd & _)|(Hf1 & _)]; [exact Hd | congruence].
      + rewrite Hs4 in Hdir5. now apply Hdir5.
    - destruct Hdir1 as [(Hf0 & _)|(Hf1 & Hd)]; [now left | right].
      split; [exact Hf1|]. rewrite Hdirf5 by (rewrite Hf1; discriminate). exact Hd. }
  split; [exact Hforced|].
  intros Hnow. specialize (Hwait Hnow). split; [exact Hwait|].
  rewrite (Hsame5 Hwait). fields. split; [exact Hleap1|].
  intros Hf0. destruct Hdir1 as [(_ & _ & Hso)|(Hf1 & _)]; [exact Hso | congruence].
Qed.


(** X12.  [main] enters a sampling loop only with a master, a PPS device or
    a clock, and with a slave that is a valid clock, the system clock when
    there is a PPS device.  The accumulators of the statistics are then all
    three there when the count of [-u] is positive, and all three absent
    otherwise; no leap second is latched, the servo state is unlocked and
    the cursor of the management data is on the first data set. *)
Theorem main_loop_entry (rounds : nat) (argv0 : string) (opts : list option_arg)
  (w w' : world) (s : main_locals) :
  main_prepare rounds argv0 opts w = (Some (inl s), w') ->
  (0 <= pps_fd s \/ src s <> CLOCK_INVALID)
  /\ clock.clkid (dst_clock s) <> CLOCK_INVALID
  /\ (0 <= pps_fd s -> clock.clkid (dst_clock s) = CLOCK_REALTIME)
  /\ (if clock.stats_max_count (dst_clock s) >? 0
      then all_stats (dst_clock s) else no_stats (dst_clock s))
  /\ clock.servo_state (dst_clock s) = SERVO_UNLOCKED
  /\ clock.leap_set (dst_clock s) = 0
  /\ clock.pmc_ds_idx (dst_clock s) = 0.
Proof.
  intros Hrun.
  destruct (main_prepare_facts rounds argv0 opts w) as (evs & _ & Hfacts).
  rewrite Hrun in Hfacts. cbn [fst snd] in Hfacts. cbv zeta in Hfacts.
  now destruct Hfacts as (_ & Hready & _).
Qed.

(** X13.  When [main] enters its loop and no UTC offset was forced, the
    direction in which the UTC offset is applied is 0 without [-w]; with
    [-w] it is 1 when the slave is the system clock and the master is not,
    -1 when the master is the system clock and the slave is not, and 0
    otherwise.  The management client is kept for the loop exactly when
    [-w] was given, no offset was forced and the direction is not 0. *)
Theorem main_utc_offset_direction (rounds : nat) (argv0 : string)
  (opts : list option_arg) (w w' : world) (s : main_locals) :
  main_prepare rounds argv0 opts w = (Some (inl s), w') ->
  let c := dst_clock s in
  (clock.pmc c = true
   <-> wait_sync s <> 0 /\ forced_sync_offset s = 0
       /\ clock.sync_offset_direction c <> 0)
  /\ (forced_sync_offset s = 0 ->
      clock.sync_offset_direction c
      = if wait_sync s =? 0 then 0
        else if negb (src s =? CLOCK_REALTIME) && (clock.clkid c =? CLOCK_REALTIME) then 1
        else if (src s =? CLOCK_REALTIME) && negb (clock.clkid c =? CLOCK_REALTIME) then -1
        else 0)
  /\ ((forall v, ~ In (Opt_O v) opts) -> forced_sync_offset s = 0)
  /\ (~ In Opt_w opts -> wait_sync s = 0).
Proof.
  intros Hrun.
  destruct (main_prepare_facts rounds argv0 opts w) as (evs & _ & Hfacts).
  rewrite Hrun in Hfacts. cbn [fst snd] in Hfacts. cbv zeta in Hfacts.
  destruct Hfacts as (_ & _ & (Hpmc & Hdir & _) & Hforced & Hwait).
  cbv zeta. split; [exact Hpmc|]. split; [exact Hdir|]. split; [exact Hforced|].
  intros Hnow. now destruct (Hwait Hnow).
Qed.

Lemma update_clock_plain (c : clock.t) (offset ts delay : Z) (w : world) :
  plain_clock c ->
  let r := update_clock c offset ts delay w in
  (exists evs, emitted w (snd r) (E_servo_sample offset ts :: evs)
               /\ existsb is_poll evs = false)
  /\ plain_clock (fst r)
  /\ clock.sync_offset (fst r) = clock.sync_offset c.
Proof.
  intros (Hdir & Hpmc & Hleap & Hset). cbv zeta.
  destruct (update_clock c offset ts delay w) as [c' w'] eqn:Hu. cbn [fst snd].
  revert Hu. unfold update_clock, bind.
  rewrite (update_sync_offset_idle c offset ts w Hpmc Hleap Hset).
  cbn [Z.eqb negb]. unfold corrected_offset. rewrite Hdir. cbn [Z.eqb negb].
  destruct (servo_sample _ _ _) as [[ppb state] sv].
  unfold emit at 1. fields.
  assert (Hadj : exists e0,
             emitted (set_trace (w_trace w ++ [E_servo_sample offset ts]) w)
               (snd (adjust_clock (clock.clkid c) state offset ppb
                       (set_trace (w_trace w ++ [E_servo_sample offset ts]) w))) e0
             /\ existsb is_poll e0 = false).
  { unfold adjust_clock, emit, ret, bind.
    destruct state; eexists; (split; [solve_emitted | reflexivity]). }
  destruct Hadj as (e0 & He0 & Hp0).
  destruct (adjust_clock _ _ _ _ _) as [u' w2]. cbn [snd] in He0.
  assert (Hstart : emitted w (set_trace (w_trace w ++ [E_servo_sample offset ts]) w)
                     [E_servo_sample offset ts]) by solve_emitted.
  assert (Hdone : forall e1,
             emitted w2 w' e1 -> existsb is_poll e1 = false ->
             exists evs, emitted w w' (E_servo_sample offset ts :: evs)
                         /\ existsb is_poll evs = false).
  { intros e1 He1 Hp1. exists (e0 ++ e1). split.
    - change (E_servo_sample offset ts :: e0 ++ e1)
        with ([E_servo_sample offset ts] ++ e0 ++ e1).
      eapply emitted_trans; [exact Hstart|]. eapply emitted_trans; eassumption.
    - rewrite existsb_app, Hp0, Hp1. reflexivity. }
  destruct (clock.offset_stats c).
  - destruct (update_clock_stats_frame
                (clock.set_servo_state state (clock.set_servo sv c))
                offset ppb delay w2) as (os & fs & ds & Hfr).
    destruct (update_clock_stats_events
                (clock.set_servo_state state (clock.set_servo sv c))
                offset ppb delay w2) as (e1 & He1 & Hinfo).
    intros Hu. rewrite Hu in Hfr, He1. cbn [fst snd] in Hfr, He1. subst c'.
    unfold plain_clock. fields. split; [|auto].
    apply (Hdone e1 He1).
    clear - Hinfo. induction e1 as [|e e1 IH]; [reflexivity|].
    cbn [forallb existsb] in *. apply andb_true_iff in Hinfo.
    destruct Hinfo as [He Hrest]. rewrite (IH Hrest).
    destruct e; try discriminate He; reflexivity.
  - unfold plain_clock.
    destruct (delay >=? 0); unfold emit, ret, bind; fields; intros Hu;
      injection Hu as <- <-; fields; (split; [|auto]);
      (eapply Hdone; [solve_emitted | reflexivity]).
Qed.

(** X14.  Without [-w] and without [-O] no UTC offset is ever applied:
    [main] enters its loop without a management client, without a leap
    second and with direction 0, every loop keeps the clock so, and on such
    a clock [update_clock] hands the servo the offset as it was measured and
    does not call [poll]. *)
Theorem main_without_utc_offset (rounds : nat) (argv0 : string)
  (opts : list option_arg) (w w' : world) (s : main_locals) :
  ~ In Opt_w opts -> (forall v, ~ In (Opt_O v) opts) ->
  main_prepare rounds argv0 opts w = (Some (inl s), w') ->
  plain_clock (dst_clock s)
  /\ clock.sync_offset (dst_clock s) = 0
  /\ (forall rounds' l w0, plain_clock (snd (fst (main_loop rounds' s l w0))))
  /\ (forall c offset ts delay w0,
         plain_clock c ->
         exists evs,
           emitted w0 (snd (update_clock c offset ts delay w0))
             (E_servo_sample offset ts :: evs)
           /\ existsb is_poll evs = false).
Proof.
  intros Hnow Hnoo Hrun.
  destruct (main_prepare_facts rounds argv0 opts w) as (evs & _ & Hfacts).
  rewrite Hrun in Hfacts. cbn [fst snd] in Hfacts. cbv zeta in Hfacts.
  destruct Hfacts as (_ & (_ & _ & _ & _ & _ & Hls & _) & (Hpmc & Hdir & _)
                      & Hforced & Hwait).
  specialize (Hforced Hnoo). destruct (Hwait Hnow) as (Hws & Hleap & Hso).
  assert (Hplain : plain_clock (dst_clock s)).
  { unfold plain_clock. rewrite (Hdir Hforced), Hws. cbn [Z.eqb].
    split; [reflexivity|]. split; [|auto].
    destruct (clock.pmc (dst_clock s)); [|reflexivity].
    destruct (proj1 Hpmc eq_refl) as (Hne & _). now elim Hne. }
  split; [exact Hplain|]. split; [auto|].
  assert (Hkeep : forall c offset ts delay w0,
             plain_clock c -> plain_clock (fst (update_clock c offset ts delay w0))).
  { intros c offset ts delay w0 Hc.
    now destruct (update_clock_plain c offset ts delay w0 Hc) as (_ & Hp & _). }
  assert (Hlabel : forall label,
             plain_clock (clock.set_source_label label (dst_clock s))).
  { intros label. unfold plain_clock in *. fields. exact Hplain. }
  split.
  - intros rounds' l w0. unfold main_loop. destruct (pps_fd s >=? 0).
    + unfold do_pps_loop. apply (do_pps_rounds_keeps plain_clock Hkeep).
      destruct (src s =? CLOCK_INVALID); [|apply Hlabel].
      unfold plain_clock in *. fields. intuition auto.
    + unfold bind at 1.
      destruct (if clock.clkid (dst_clock s) =? CLOCK_REALTIME then _ else _)
        as [[|] w1].
      * unfold do_sysoff_loop. apply (do_sysoff_rounds_keeps plain_clock Hkeep).
        apply Hlabel.
      * unfold do_phc_loop. apply (do_phc_rounds_keeps plain_clock Hkeep).
        apply Hlabel.
  - intros c offset ts delay w0 Hc.
    now destruct (update_clock_plain c offset ts delay w0 Hc) as (Hev & _).
Qed.

(** X15.  The options are taken from left to right, and [-v], [-h] and an
    option that [getopt] does not know end the program on the spot, when the
    options before them have been done: what follows on the command line is
    not looked at.  [main] returns 0 after the version or the usage for [-v]
    and [-h], and -1 after the usage for an unknown option. *)
Theorem main_stops_at_option (rounds : nat) (argv0 : string)
  (pre post : list option_arg) (a : option_arg) (l : Z * Z * Z)
  (w w' : world) (s : main_locals) :
  main_options pre (main_init argv0) w = (inl s, w') ->
  a = Opt_v \/ a = Opt_h \/ a = Opt_unknown ->
  main rounds argv0 (pre ++ a :: post) l w
  = (Some (match a with Opt_unknown => -1 | _ => 0 end),
     snd (emit (match a with
                | Opt_v => E_version_show
                | _ => E_usage (match after_last_slash argv0 with
                                | Some r => r
                                | None => argv0
                                end)
                end) w')).
Proof.
  intros Hpre Ha.
  destruct (main_options_facts pre (main_init argv0) w) as (evs & _ & _ & Hfacts).
  rewrite Hpre in Hfacts. cbn [fst] in Hfacts.
  destruct Hfacts as (_ & _ & _ & _ & _ & _ & Hprog).
  change (progname (main_init argv0))
    with (match after_last_slash argv0 with Some r => r | None => argv0 end) in Hprog.
  unfold main, main_prepare, bind. rewrite main_options_app, Hpre.
  cbn [main_options]. unfold bind.
  destruct Ha as [-> | [-> | ->]]; unfold main_option, emit, ret, bind; cbn [fst snd];
    rewrite ?Hprog; reflexivity.
Qed.

(** ** A response with the time properties *)

(** X16.  When the cursor is on the time properties and a management
    response for them is waiting, [run_pmc] takes the UTC offset of the clock
    from the response, sets the pending leap second to 1 when the response
    has the flag of a minute of 61 seconds, else to -1 when it has the flag
    of a minute of 59 seconds, else to 0, releases the message and returns 1
    with the cursor back on the first data set and no request pending. *)
Theorem run_pmc_time_properties (c : clock.t) (timeout wait_sync : Z) (w : world)
  (cnt revents : Z) (msg : ptp_message) (q : list (Z * Z))
  (qr : list (option ptp_message)) :
  clock.pmc_ds_idx c = 1 ->
  w_poll w = (cnt, revents) :: q -> 0 < cnt ->
  Z.land revents (Z.lor POLLIN POLLPRI) <> 0 ->
  w_recv w = Some msg :: qr ->
  is_msg_mgt msg = 1 -> get_mgt_id msg = TIME_PROPERTIES_DATA_SET ->
  let r := run_pmc c timeout wait_sync 1 w in
  let c' := snd (fst r) in
  fst (fst r) = 1
  /\ clock.sync_offset c' = currentUtcOffset msg
  /\ clock.leap c'
     = (if negb (Z.land (tp_flags msg) LEAP_61 =? 0) then 1
        else if negb (Z.land (tp_flags msg) LEAP_59 =? 0) then -1
        else 0)
  /\ clock.pmc_ds_idx c' = 0
  /\ clock.pmc_ds_requested c' = 0
  /\ w_recv (snd r) = qr
  /\ exists events,
      emitted w (snd r) [E_poll events timeout; E_pmc_recv; E_msg_put msg].
Proof.
  intros Hidx Hpoll Hcnt Hin Hrecv Hmgt Hid. cbv zeta.
  unfold run_pmc, run_pmc_fuel. rewrite Hpoll, Hidx. cbn [List.length].
  change (Z.to_nat (N_ID - 1)) with 1%nat.
  replace (S (List.length q) + 1 + 1)%nat with (S (S (S (List.length q)))) by lia.
  cbn [run_pmc_loop]. rewrite Hidx. change (1 <? N_ID) with true. cbv iota.
  unfold bind at 1.
  unfold run_pmc_round. rewrite Hidx. change (ds_ids 1) with TIME_PROPERTIES_DATA_SET.
  change ((TIME_PROPERTIES_DATA_SET =? PORT_DATA_SET) && (wait_sync =? 0)
          || (TIME_PROPERTIES_DATA_SET =? TIME_PROPERTIES_DATA_SET) && (1 =? 0))
    with ((TIME_PROPERTIES_DATA_SET =? PORT_DATA_SET) && (wait_sync =? 0) || false).
  change (TIME_PROPERTIES_DATA_SET =? PORT_DATA_SET) with false.
  cbn [andb orb]. cbv iota.
  prims. fields. rewrite Hpoll. fields.
  destruct (Z.ltb_spec cnt 0); [lia|].
  destruct (Z.eqb_spec cnt 0); [lia|].
  destruct (Z.eqb_spec (Z.land revents (Z.lor POLLIN POLLPRI)) 0) as [|_];
    [contradiction|].
  rewrite andb_false_r. fields. rewrite Hrecv. fields.
  rewrite Hmgt, Hid. change (1 =? 0) with false.
  change (TIME_PROPERTIES_DATA_SET =? TIME_PROPERTIES_DATA_SET) with true.
  cbn [orb negb].
  unfold pmc_handle_data. rewrite Hid.
  change (TIME_PROPERTIES_DATA_SET =? PORT_DATA_SET) with false.
  change (TIME_PROPERTIES_DATA_SET =? TIME_PROPERTIES_DATA_SET) with true.
  cbv iota. change (negb (1 =? 0)) with true. cbv iota. fields.
  destruct (negb (Z.land (tp_flags msg) LEAP_61 =? 0));
    [|destruct (negb (Z.land (tp_flags msg) LEAP_59 =? 0))];
    fields; rewrite Hidx; change (1 + 1 <? N_ID) with false; cbv iota;
    unfold ret; fields;
    (repeat split; try reflexivity; eexists; solve_emitted).
Qed.

(** ** The time at which the leap second is looked up *)

(** X17.  For a slave that is the system clock, without a management
    client and with a leap second pending or latched, the time at which
    [update_sync_offset] looks up the leap second is the time stamp of the
    sample, and in the servo state unlocked, in which the clock will be
    stepped, the time stamp less the offset that [update_clock] hands to the
    servo.  The sample is suspended, with -1, exactly when that time lies in
    the ambiguous second; otherwise [leap_set] takes the leap status at that
    time. *)
Theorem update_sync_offset_target_time (c : clock.t) (offset ts : Z) (w : world) :
  clock.pmc c = false -> clock.clkid c = CLOCK_REALTIME ->
  clock.leap c <> 0 \/ clock.leap_set c <> 0 ->
  - 2 ^ 63 <= offset < 2 ^ 63 ->
  let t := match clock.servo_state c with
           | SERVO_UNLOCKED => uint64 (ts - corrected_offset c offset)
           | _ => ts
           end in
  let r := update_sync_offset c offset ts w in
  r = update_sync_offset_status c t w
  /\ (fst (fst r) = -1 <-> is_utc_ambiguous t <> 0)
  /\ (is_utc_ambiguous t = 0 ->
      fst (fst r) = 0
      /\ clock.leap_set (snd (fst r))
         = fst (leap_second_status t (clock.leap_set c) (clock.leap c)
                  (clock.sync_offset c))).
Proof.
  intros Hpmc Hclk Hleap Hoff. cbv zeta.
  assert (Hcorr : int64 (offset + sync_offset_ns c) = corrected_offset c offset).
  { unfold corrected_offset.
    destruct (Z.eqb_spec (clock.sync_offset_direction c) 0) as [Hz|Hnz]; cbn [negb];
      [|reflexivity].
    unfold sync_offset_ns. rewrite Hz, Z.mul_0_r. change (int64 0) with 0.
    rewrite Z.add_0_r. now apply int64_in_range. }
  assert (Heq : update_sync_offset c offset ts w
                = update_sync_offset_status c
                    match clock.servo_state c with
                    | SERVO_UNLOCKED => uint64 (ts - corrected_offset c offset)
                    | _ => ts
                    end w).
  { unfold update_sync_offset, update_sync_offset_pmc, pmc_update_due, bind, ret.
    rewrite Hpmc. cbn [andb]. cbv iota.
    unfold update_sync_offset_leap.
    destruct (Z.eqb_spec (clock.leap c) 0) as [Hl|Hl];
      destruct (Z.eqb_spec (clock.leap_set c) 0) as [Hs|Hs]; cbn [andb];
      try (destruct Hleap as [Hne|Hne]; now elim Hne).
    all: rewrite Hclk; change (CLOCK_REALTIME =? CLOCK_REALTIME) with true;
      cbn [negb andb]; unfold bind, ret; rewrite Hcorr;
      destruct (clock.servo_state c); reflexivity. }
  split; [exact Heq|]. rewrite Heq.
  match goal with
  | |- context [update_sync_offset_status c ?t w] =>
    destruct (update_sync_offset_status_result c t w) as [(Hz & Ha)|(Hr & Ha & _)];
    pose proof (update_sync_offset_status_latch c t w) as Hlatch
  end; cbv zeta in Hlatch.
  - split; [split; [intros Hm; rewrite Hz in Hm; discriminate Hm
                   | intros Hne; now elim Hne]|].
    exact Hlatch.
  - split; [split; [intros _; exact Ha | intros _; now rewrite Hr]|].
    intros Hz. now elim Ha.
Qed.

(** ** The summaries of the statistics *)


(** ** The name of the program *)

Lemma after_last_slash_spec (a : string) :
  match after_last_slash a with
  | Some r =>
    (exists prefix, a = (prefix ++ String "/" r)%string)
    /\ ~ In "/"%char (list_ascii_of_string r)
  | None => ~ In "/"%char (list_ascii_of_string a)
  end.
Proof.
  induction a as [|x a IH]; [intros []|].
  cbn [after_last_slash]. destruct (after_last_slash a) as [r|].
  - destruct IH as ((prefix & ->) & Hno). split; [|exact Hno].
    exists (String x prefix). reflexivity.
  - destruct (Ascii.eqb_spec x "/"%char) as [->|Hne].
    + split; [exists ""; reflexivity | exact IH].
    + cbn [list_ascii_of_string In]. intros [Heq|Hin]; [now elim Hne | now elim IH].
Qed.

(** X19.  The name under which the program logs and prints its usage is
    what follows the last slash of [argv[0]], and all of [argv[0]] when
    there is no slash in it: it has no slash, and [argv[0]] is that name, or
    ends with a slash and that name. *)
Theorem main_progname (argv0 : string) :
  let p := progname (main_init argv0) in
  ~ In "/"%char (list_ascii_of_string p)
  /\ (argv0 = p \/ exists prefix, argv0 = (prefix ++ String "/" p)%string).
Proof.
  cbv zeta.
  change (progname (main_init argv0))
    with (match after_last_slash argv0 with Some r => r | None => argv0 end).
  pose proof (after_last_slash_spec argv0) as Hspec.
  assert (Hname : ~ In "/"%char
                      (list_ascii_of_string
                         match after_last_slash argv0 with Some r => r | None => argv0 end)
                  /\ (argv0 = match after_last_slash argv0 with
                              | Some r => r | None => argv0 end
                      \/ exists prefix,
                          argv0 = (prefix ++ String "/"
                                     match after_last_slash argv0 with
                                     | Some r => r | None => argv0 end)%string)).
  { destruct (after_last_slash argv0) as [r|].
    - destruct Hspec as (Hpre & Hno). split; [exact Hno | now right].
    - split; [exact Hspec | now left]. }
  exact Hname.
Qed.

(** ** What the servo is handed with a PPS alone *)

Lemma samples_app (e1 e2 : list event) : samples (e1 ++ e2) = samples e1 ++ samples e2.
Proof. apply flat_map_app. Qed.

Lemma no_adjust_samples (evs : list event) : no_adjust evs -> samples evs = [].
Proof.
  unfold no_adjust. induction evs as [|e evs IH]; [reflexivity|].
  cbn [forallb]. intros Hall. apply andb_true_iff in Hall. destruct Hall as [He Hrest].
  cbn [samples flat_map]. fold (samples evs). rewrite (IH Hrest).
  destruct e; try reflexivity; discriminate He.
Qed.

Lemma update_sync_offset_samples (c : clock.t) (offset ts : Z) (w : world) :
  exists evs,
    emitted w (snd (update_sync_offset c offset ts w)) evs /\ samples evs = [].
Proof.
  unfold update_sync_offset, bind.
  destruct (update_sync_offset_pmc_spec c ts w) as (_ & _ & e1 & He1 & Hn1).
  destruct (update_sync_offset_pmc c ts w) as [c1 w1]. cbn [fst snd] in *.
  assert (Hstatus : forall t w0 e0,
             emitted w1 w0 e0 -> samples e0 = [] ->
             exists evs,
               emitted w (snd (update_sync_offset_status c1 t w0)) evs
               /\ samples evs = []).
  { intros t w0 e0 He0 Hs0. unfold update_sync_offset_status. prims.
    assert (Hend : forall w2 e2,
               emitted w0 w2 e2 -> samples e2 = [] ->
               exists evs, emitted w w2 evs /\ samples evs = []).
    { intros w2 e2 He2 Hs2. exists (e1 ++ e0 ++ e2).
      split; [eapply emitted_trans; [exact He1|]; eapply emitted_trans; eassumption|].
      rewrite !samples_app, Hs0, Hs2, (no_adjust_samples e1 Hn1). reflexivity. }
    destruct (negb (is_utc_ambiguous t =? 0)).
    - fields. eapply Hend; [solve_emitted | reflexivity].
    - destruct (leap_second_status _ _ _ _) as [clock_leap [leap' utc_offset']].
      destruct (negb _); [destruct (_ && _)|]; fields;
        (eapply Hend; [solve_emitted | reflexivity]). }
  unfold update_sync_offset_leap.
  destruct (_ && _).
  { unfold ret. cbn [snd]. exists e1. split; [exact He1 | now apply no_adjust_samples]. }
  destruct (negb (clock.clkid c1 =? CLOCK_REALTIME)).
  - prims. fields.
    destruct (w_gettime w1) as [|now q]; fields.
    + exists (e1 ++ [E_clock_gettime CLOCK_REALTIME; E_pr_err "failed to read clock: %m"]).
      split; [eapply emitted_trans; [exact He1 | solve_emitted]|].
      rewrite samples_app, (no_adjust_samples e1 Hn1). reflexivity.
    + destruct (now CLOCK_REALTIME) as [tp|]; fields.
      * apply (Hstatus _ _ [E_clock_gettime CLOCK_REALTIME]); [solve_emitted | reflexivity].
      * exists (e1 ++ [E_clock_gettime CLOCK_REALTIME;
                       E_pr_err "failed to read clock: %m"]).
        split; [eapply emitted_trans; [exact He1 | solve_emitted]|].
        rewrite samples_app, (no_adjust_samples e1 Hn1). reflexivity.
  - unfold bind, ret. apply (Hstatus _ w1 []); [apply emitted_refl | reflexivity].
Qed.

Lemma update_clock_samples (c : clock.t) (offset ts delay : Z) (w : world) :
  clock.sync_offset_direction c = 0 ->
  exists evs,
    emitted w (snd (update_clock c offset ts delay w)) evs
    /\ (samples evs = [] \/ samples evs = [(offset, ts)]).
Proof.
  intros Hdir.
  destruct (update_sync_offset_samples c offset ts w) as (e1 & He1 & Hs1).
  destruct (update_sync_offset_spec c offset ts w) as (Hf & _).
  destruct (update_sync_offset c offset ts w) as [[r c1] w1] eqn:Hsync.
  cbn [fst snd] in *.
  assert (Hdir1 : clock.sync_offset_direction c1 = 0).
  { destruct Hf as (_ & _ & _ & _ & _ & _ & _ & _ & Hd & _). congruence. }
  destruct (Z.eqb_spec r 0) as [->|Hr].
  - destruct (servo_sample (clock.servo c1) (corrected_offset c1 offset) ts)
      as [[ppb state] sv] eqn:Hservo.
    destruct (update_clock_sampled c c1 offset ts delay w w1 ppb state sv Hsync Hservo)
      as (e2 & He2 & Hinfo).
    assert (Hcorr : corrected_offset c1 offset = offset).
    { unfold corrected_offset. rewrite Hdir1. reflexivity. }
    rewrite Hcorr in He2.
    eexists. split; [eapply emitted_trans; [exact He1 | exact He2]|].
    right. rewrite !samples_app, Hs1. cbn [app].
    assert (Hs2 : samples e2 = []).
    { clear - Hinfo. induction e2 as [|e e2 IH]; [reflexivity|].
      cbn [forallb] in Hinfo. apply andb_true_iff in Hinfo. destruct Hinfo as [He Hrest].
      cbn [samples flat_map]. fold (samples e2). rewrite (IH Hrest).
      destruct e; try reflexivity; discriminate He. }
    rewrite Hs2, app_nil_r. destruct state; reflexivity.
  - unfold update_clock, bind. rewrite Hsync.
    destruct (Z.eqb_spec r 0) as [Hz|_]; [now elim Hr|]. cbn [negb]. unfold ret.
    cbn [snd]. exists e1. split; [exact He1 | now left].
Qed.

(** The samples of the rounds of the PPS loop without a PHC. *)
Lemma do_pps_rounds_samples (rounds : nat) (fd n_readings : Z) :
  forall (c : clock.t) (l : Z * Z * Z) (w : world),
    clock.sync_offset_direction c = 0 ->
    exists evs,
      emitted w (snd (do_pps_rounds rounds c fd CLOCK_INVALID n_readings l w)) evs
      /\ Forall (fun s : Z * Z =>
                   - 500000000 < fst s <= 500000000
                   /\ (snd s - fst s) mod 1000000000 = 0) (samples evs).
Proof.
  induction rounds as [|rounds IH]; intros c l w Hdir.
  - exists []. split; [apply emitted_refl | constructor].
  - cbn [do_pps_rounds]. unfold bind at 1. unfold do_pps_round, bind at 1.
    destruct (read_pps fd w) as [[[pps_offset pps_ts]|] w1] eqn:Hpps.
    + pose proof (read_pps_ok fd w w1 pps_offset pps_ts Hpps) as He0.
      destruct (read_pps_answered fd w w1 pps_offset pps_ts Hpps)
        as (a & _ & Hts & Hoff).
      change (negb (CLOCK_INVALID =? CLOCK_INVALID)) with false. cbv iota.
      unfold bind, ret.
      destruct (update_clock_samples c pps_offset pps_ts (-1) w1 Hdir)
        as (e1 & He1 & Hs1).
      pose proof (update_clock_direction c pps_offset pps_ts (-1) w1) as Hkeep.
      destruct (update_clock c pps_offset pps_ts (-1) w1) as [c1 w2].
      cbn [fst snd] in *.
      destruct (IH c1 l w2) as (e2 & He2 & Hall); [congruence|].
      exists ([E_pps_fetch fd] ++ e1 ++ e2).
      split; [eapply emitted_trans; [exact He0|]; eapply emitted_trans; eassumption|].
      rewrite !samples_app. cbn [samples flat_map app]. fold (samples e1).
      apply Forall_app. split; [|exact Hall].
      destruct Hs1 as [-> | ->]; constructor; [|constructor].
      cbn [fst snd].
      assert (Hmod : 0 <= pps_ts mod NS_PER_SEC < NS_PER_SEC)
        by (apply Z.mod_pos_bound; reflexivity).
      change (Z.quot NS_PER_SEC 2) with 500000000 in Hoff.
      unfold NS_PER_SEC in *.
      rewrite (int64_in_range (pps_ts mod 1000000000)) in Hoff by lia.
      destruct (Z.gtb_spec (pps_ts mod 1000000000) 500000000) as [Hgt|Hle].
      * rewrite int64_in_range in Hoff by lia. subst pps_offset. split; [lia|].
        replace (pps_ts - (pps_ts mod 1000000000 - 1000000000))
          with (pps_ts - pps_ts mod 1000000000 + 1 * 1000000000) by ring.
        rewrite Z_mod_plus_full. apply sub_mod_self.
      * subst pps_offset. split; [lia | apply sub_mod_self].
    + unfold ret.
      pose proof (read_pps_failed fd w) as He0. rewrite Hpps in He0. cbn [fst snd] in He0.
      specialize (He0 eq_refl).
      destruct (IH c l w1 Hdir) as (e2 & He2 & Hall).
      eexists. split; [eapply emitted_trans; [exact He0 | exact He2]|].
      rewrite samples_app. exact Hall.
Qed.

(** X20.  In the PPS loop without a PHC every offset handed to the servo
    lies in (-5*10^8, 5*10^8] and differs from the time stamp handed with it
    by a whole number of seconds, for every clock the loop is entered with
    and every answer of the PPS device. *)
Theorem do_pps_loop_servo_input (rounds : nat) (c : clock.t) (fd n_readings : Z)
  (l : Z * Z * Z) (w : world) :
  exists evs,
    emitted w (snd (do_pps_loop rounds c fd CLOCK_INVALID n_readings l w)) evs
    /\ forall o t, In (E_servo_sample o t) evs ->
                   - 500000000 < o <= 500000000 /\ (t - o) mod 1000000000 = 0.
Proof.
  unfold do_pps_loop. change (CLOCK_INVALID =? CLOCK_INVALID) with true. cbv iota.
  destruct (do_pps_rounds_samples rounds fd n_readings
              (clock.set_sync_offset_direction 0 (clock.set_source_label "pps" c))
              l w eq_refl) as (evs & He & Hall).
  exists evs. split; [exact He|]. intros o t Hin.
  rewrite Forall_forall in Hall. apply (Hall (o, t)).
  unfold samples. apply in_flat_map. exists (E_servo_sample o t).
  split; [exact Hin | now left].
Qed.

(** ** The wait for ptp4l *)


End Properties.

(* ================================================================== *)
(** * The program on given inputs *)

#[local] Existing Instance script_library.

(** A PHC as the slave, a leap second announced, thirty seconds before the
    midnight: the time looked up is the one the system clock shows, and the
    leap second is latched. *)
Lemma update_sync_offset_kernel_leap_witness :
  let c := sample_clock phc_3 [] (-1) 36 1 1 in
  let r := update_sync_offset c 0 1483228770000000000 world_before_midnight in
  fst (fst r) = 0 /\ clock.leap_set (snd (fst r)) = 1.
Proof.
  exact (proj2 (update_sync_offset_kernel_leap (sample_clock phc_3 [] (-1) 36 1 1)
                  0 1483228770000000000 world_before_midnight)).
Defined.

(** The PPS asserted 1000 ns before a second gives the offset -1000. *)
Lemma read_pps_offset_range_witness :
  let r := read_pps 3 world_pps_early in
  (exists a, w_pps world_pps_early = Some a :: w_pps (snd r)
             /\ 1700000000999999000 = uint64 (pk_sec a * NS_PER_SEC + pk_nsec a))
  /\ - 500000000 < -1000 <= 500000000
  /\ (1700000000999999000 - -1000) mod 1000000000 = 0.
Proof.
  exact (read_pps_offset_range 3 world_pps_early (snd (read_pps 3 world_pps_early))
           (-1000) 1700000000999999000 eq_refl).
Defined.

(** Of the two sample trials the second, with the interval of 200 ns, is
    the one [read_phc] returns. *)
Lemma read_phc_best_trial_witness :
  exists t1 tm t2,
    In (t1, tm, t2) sample_trials
    /\ (forall t1' tm' t2', In (t1', tm', t2') sample_trials ->
                            ns t2 - ns t1 <= ns t2' - ns t1')
    /\ fst (read_phc phc_3 CLOCK_REALTIME (Z.of_nat (List.length sample_trials))
              0 0 0 world_trials)
       = (1, (ns t1 - ns tm + Z.quot (ns t2 - ns t1) 2, ns t2, ns t2 - ns t1)).
Proof.
  apply (read_phc_best_trial phc_3 CLOCK_REALTIME sample_trials 0 0 0 world_trials).
  - discriminate.
  - repeat constructor; cbv; intuition discriminate.
  - cbv. intuition reflexivity.
Defined.

Example read_phc_sample :
  fst (read_phc phc_3 CLOCK_REALTIME 2 0 0 0 world_trials)
  = (1, (-36999999950, 1700000001000000300, 200)).
Proof. reflexivity. Qed.

(** A servo that answers jump to the corrected offset 1500: the clock is
    stepped by -1500 and its frequency set to -12.5. *)
Lemma update_clock_dispatch_witness :
  let c := sample_clock CLOCK_REALTIME [(12.5%float, SERVO_JUMP)] 1 37 0 1 in
  let r := update_clock c (-36999998500) 1700000000000000000 (-1) silent_world in
  exists evs,
    emitted silent_world (snd r)
      (E_servo_sample 1500 1700000000000000000 ::
       [E_clockadj_step CLOCK_REALTIME (- 1500);
        E_clockadj_set_freq CLOCK_REALTIME (- 12.5)%float] ++ evs)
    /\ forallb is_pr_info evs = true
    /\ clock.servo_state (fst r) = SERVO_JUMP.
Proof.
  exact (update_clock_dispatch
           (sample_clock CLOCK_REALTIME [(12.5%float, SERVO_JUMP)] 1 37 0 1)
           (sample_clock CLOCK_REALTIME [(12.5%float, SERVO_JUMP)] 1 37 0 1)
           (-36999998500) 1700000000000000000 (-1) silent_world silent_world
           12.5%float SERVO_JUMP [] eq_refl eq_refl (conj eq_refl eq_refl)).
Defined.

(** The PPS loop with a PHC that shows 10^7 - 1 ns after its second feeds
    the sample on; with 10^7 + 1 ns it prints the warning and skips. *)
Lemma do_pps_round_hybrid_witness :
  let c := sample_clock CLOCK_REALTIME [] 1 37 0 1 in
  let w2 (n : Z) :=
    snd (read_phc phc_4 CLOCK_REALTIME 1 0 0 0 (snd (read_pps 3 (world_hybrid n)))) in
  (let r := do_pps_round c 3 phc_4 1 (0, 0, 0) (world_hybrid 9999899) in
   let u := update_clock c
              (1700000000000005000 - 1700000037009999999 / 1000000000 * 1000000000)
              1700000000000005000 (-1) (w2 9999899) in
   1700000037009999999 mod 1000000000 = 10000000 - 1
   /\ (exists l', fst r = Round_next (fst u) l') /\ snd r = snd u)
  /\ (let r := do_pps_round c 3 phc_4 1 (0, 0, 0) (world_hybrid 9999901) in
      1700000037010000001 mod 1000000000 = 10000000 + 1
      /\ (exists l', fst r = Round_next c l')
      /\ emitted (w2 9999901) (snd r)
           [E_pr_warning "PPS is not in sync with PHC (0.%09lld)"
              [P_int (1700000037010000001 mod 1000000000)]]
      /\ exists evs, emitted (world_hybrid 9999901) (snd r) evs /\ no_adjust evs).
Proof.
  cbv zeta.
  assert (Hsrc : phc_4 <> CLOCK_INVALID) by discriminate.
  split; (split; [reflexivity|]).
  - assert (Hpps : read_pps 3 (world_hybrid 9999899)
                   = (Some (5000, 1700000000000005000),
                      snd (read_pps 3 (world_hybrid 9999899))))
      by (vm_compute; reflexivity).
    assert (Hphc : (let '(o0, t0, d0) := (0, 0, 0) in
                    read_phc phc_4 (clock.clkid (sample_clock CLOCK_REALTIME [] 1 37 0 1))
                      1 o0 t0 d0 (snd (read_pps 3 (world_hybrid 9999899))))
                   = ((1, (-37000000799, 1700000000009999200, 200)),
                      snd (read_phc phc_4 CLOCK_REALTIME 1 0 0 0
                             (snd (read_pps 3 (world_hybrid 9999899))))))
      by (vm_compute; reflexivity).
    pose proof (do_pps_round_hybrid (sample_clock CLOCK_REALTIME [] 1 37 0 1)
                  3 phc_4 1 (0, 0, 0) _ _ _ _ _ _ _ _ Hsrc Hpps Hphc
                  ltac:(split; [discriminate | reflexivity]) eq_refl) as W.
    cbv zeta in W.
    change (1700000000009999200 - -37000000799) with 1700000037009999999 in W.
    change (1700000037009999999 mod 1000000000 >? 10000000) with false in W.
    exact W.
  - assert (Hpps : read_pps 3 (world_hybrid 9999901)
                   = (Some (5000, 1700000000000005000),
                      snd (read_pps 3 (world_hybrid 9999901))))
      by (vm_compute; reflexivity).
    assert (Hphc : (let '(o0, t0, d0) := (0, 0, 0) in
                    read_phc phc_4 (clock.clkid (sample_clock CLOCK_REALTIME [] 1 37 0 1))
                      1 o0 t0 d0 (snd (read_pps 3 (world_hybrid 9999901))))
                   = ((1, (-37000000801, 1700000000009999200, 200)),
                      snd (read_phc phc_4 CLOCK_REALTIME 1 0 0 0
                             (snd (read_pps 3 (world_hybrid 9999901))))))
      by (vm_compute; reflexivity).
    pose proof (do_pps_round_hybrid (sample_clock CLOCK_REALTIME [] 1 37 0 1)
                  3 phc_4 1 (0, 0, 0) _ _ _ _ _ _ _ _ Hsrc Hpps Hphc
                  ltac:(split; [discriminate | reflexivity]) eq_refl) as W.
    cbv zeta in W.
    change (1700000000009999200 - -37000000801) with 1700000037010000001 in W.
    change (1700000037010000001 mod 1000000000 >? 10000000) with true in W.
    exact W.
Defined.

(** Sixty-one seconds after the last refresh the management data are asked
    for again, and the answer moves [pmc_last_update]. *)
Lemma update_sync_offset_pmc_round_witness :
  let c := managed_clock 1000000000000 in
  let r := update_sync_offset c 0 1061000000000 world_time_properties in
  (polled world_time_properties (snd r)
   <-> 1061000000000 <= 1000000000000
       \/ PMC_UPDATE_INTERVAL <= 1061000000000 - 1000000000000)
  /\ clock.pmc_last_update (snd (fst r)) = 1061000000000.
Proof.
  refine (update_sync_offset_pmc_round (managed_clock 1000000000000) 0 1061000000000
            world_time_properties eq_refl (conj _ eq_refl) (conj _ eq_refl)
            (conj _ eq_refl)); discriminate.
Defined.

(** A fetch of the PPS that fails, a reading of the clocks that fails in the
    PHC loop, and one that fails in the PPS loop with a PHC. *)
Lemma sample_failure_witness :
  let c := sample_clock CLOCK_REALTIME [] 0 0 0 1 in
  let c3 := sample_clock phc_3 [] 0 0 0 1 in
  (do_pps_round c 3 CLOCK_INVALID 5 (0, 0, 0) world_fetch_fails
   = (Round_next c (0, 0, 0), snd (read_pps 3 world_fetch_fails))
   /\ emitted world_fetch_fails (snd (read_pps 3 world_fetch_fails))
        [E_pps_fetch 3; E_pr_err "failed to fetch PPS: %m"]
   /\ forall k, do_pps_rounds (S k) c 3 CLOCK_INVALID 5 (0, 0, 0) world_fetch_fails
                = do_pps_rounds k c 3 CLOCK_INVALID 5 (0, 0, 0)
                    (snd (read_pps 3 world_fetch_fails)))
  /\ (let r := read_phc phc_4 phc_3 5 0 0 0
                 (snd (emit (E_usleep (Z.quot 1000000 1)) world_read_fails)) in
      do_phc_round c3 phc_4 1 5 (0, 0, 0) world_read_fails
      = (Round_next c3 (snd (fst r)), snd r)
      /\ (exists evs, emitted world_read_fails (snd r) evs /\ no_adjust evs
                      /\ In (E_pr_err "failed to read clock: %m") evs)
      /\ forall k, do_phc_rounds (S k) c3 phc_4 1 5 (0, 0, 0) world_read_fails
                   = do_phc_rounds k c3 phc_4 1 5 (snd (fst r)) (snd r))
  /\ (let r := read_phc phc_4 CLOCK_REALTIME 5 0 0 0
                 (snd (read_pps 3 world_read_fails)) in
      do_pps_round c 3 phc_4 5 (0, 0, 0) world_read_fails
      = (Round_return (-1) c, snd r)
      /\ (exists evs, emitted world_read_fails (snd r) evs /\ no_adjust evs
                      /\ In (E_pr_err "failed to read clock: %m") evs)
      /\ forall k, do_pps_rounds (S k) c 3 phc_4 5 (0, 0, 0) world_read_fails
                   = (Some (-1), c, snd r)).
Proof.
  split; [|split].
  - exact (proj1 (sample_failure (sample_clock CLOCK_REALTIME [] 0 0 0 1)
                    3 CLOCK_INVALID 1 5 (0, 0, 0) world_fetch_fails) eq_refl).
  - refine (proj1 (proj2 (sample_failure (sample_clock phc_3 [] 0 0 0 1)
                            3 phc_4 1 5 (0, 0, 0) world_read_fails)) _ eq_refl).
    discriminate.
  - refine (proj2 (proj2 (sample_failure (sample_clock CLOCK_REALTIME [] 0 0 0 1)
                            3 phc_4 1 5 (0, 0, 0) world_read_fails))
              250 1700000000000000250 (snd (read_pps 3 world_read_fails))
              _ eq_refl eq_refl).
    discriminate.
Defined.

(** A port in state master lets the cursor move on; and with both data sets
    answered [run_pmc] returns 1 with the cursor back at the start. *)
Lemma run_pmc_cursor_witness :
  let c := sample_clock CLOCK_REALTIME [] 0 0 0 1 in
  let r := run_pmc c 1000 1 1 world_ptp4l in
  (exists c',
      fst (run_pmc_round c 1000 1 1 (world_port_response PS_MASTER)) = Pmc_continue c'
      /\ (clock.pmc_ds_idx c' = 1
          <-> portState (port_response PS_MASTER) = PS_MASTER
              \/ portState (port_response PS_MASTER) = PS_SLAVE)
      /\ (clock.pmc_ds_idx c' = 0
          <-> ~ (portState (port_response PS_MASTER) = PS_MASTER
                 \/ portState (port_response PS_MASTER) = PS_SLAVE)))
  /\ (fst (fst r) = 1
      /\ clock.pmc_ds_idx (snd (fst r)) = 0
      /\ exists evs,
          emitted world_ptp4l (snd r) evs
          /\ (clock.pmc_ds_idx c = 0 -> 1 <> 0 -> port_satisfied evs)
          /\ (clock.pmc_ds_idx c <= 1 -> 1 <> 0 -> time_satisfied evs)).
Proof.
  cbv zeta. split.
  - apply (proj1 (run_pmc_cursor 1000 1 1)
             (sample_clock CLOCK_REALTIME [] 0 0 0 1)
             (world_port_response PS_MASTER) 1 POLLIN (port_response PS_MASTER)
             [] []); try reflexivity; discriminate.
  - assert (Hr : fst (fst (run_pmc (sample_clock CLOCK_REALTIME [] 0 0 0 1)
                             1000 1 1 world_ptp4l)) = 1)
      by (vm_compute; reflexivity).
    split; [exact Hr|].
    destruct (run_pmc (sample_clock CLOCK_REALTIME [] 0 0 0 1) 1000 1 1 world_ptp4l)
      as [[r c'] w'] eqn:Hrun.
    cbn [fst snd] in *. subst r.
    apply (proj2 (run_pmc_cursor 1000 1 1)
             (sample_clock CLOCK_REALTIME [] 0 0 0 1) c' world_ptp4l w').
    + discriminate.
    + exact Hrun.
Defined.

Example run_pmc_port_listening :
  clock.pmc_ds_idx
    (pmc_round_clock
       (fst (run_pmc_round (sample_clock CLOCK_REALTIME [] 0 0 0 1) 1000 1 1
               (world_port_response 4))))
  = 0.
Proof. reflexivity. Qed.

(** The command line [-s /dev/ptp0 -O 37], where [open] gives the
    descriptor 4: [main] comes to its loop, and there the offset 37 is
    forced. *)
Lemma forced_offset_subtracted_witness :
  exists s w',
    main_prepare 1 "/usr/sbin/phc2sys" [Opt_s "/dev/ptp0"; Opt_O 37]
      (set_open [4] silent_world) = (Some (inl s), w')
    /\ exists v',
        last_forced [Opt_s "/dev/ptp0"; Opt_O 37] = Some v'
        /\ forced_sync_offset s = 1
        /\ clock.sync_offset (dst_clock s) = v'
        /\ clock.sync_offset_direction (dst_clock s) = -1
        /\ (forall rounds' l w0,
              let c' := snd (fst (main_loop rounds' s l w0)) in
              if (pps_fd s >=? 0) && (src s =? CLOCK_INVALID)
              then clock.sync_offset_direction c' = 0
                   /\ forall offset, corrected_offset c' offset = offset
              else forced_clock v' c')
        /\ (forall c offset ts delay w0,
              forced_clock v' c ->
              exists evs,
                emitted w0 (snd (update_clock c offset ts delay w0))
                  (E_servo_sample (int64 (offset - v' * NS_PER_SEC)) ts :: evs)).
Proof.
  assert (Hrun : match fst (main_prepare 1 "/usr/sbin/phc2sys"
                              [Opt_s "/dev/ptp0"; Opt_O 37] (set_open [4] silent_world))
                 with Some (inl _) => true | _ => false end = true)
    by (vm_compute; reflexivity).
  destruct (main_prepare 1 "/usr/sbin/phc2sys" [Opt_s "/dev/ptp0"; Opt_O 37]
              (set_open [4] silent_world)) as [[[s|z]|] w'] eqn:Hprepare;
    try discriminate Hrun.
  exists s, w'. split; [reflexivity|].
  apply (forced_offset_subtracted 1 "/usr/sbin/phc2sys" [Opt_s "/dev/ptp0"; Opt_O 37]
           37 (set_open [4] silent_world) s w').
  - right. left. reflexivity.
  - exact Hprepare.
Defined.

Example forced_offset_sample :
  w_trace
    (snd (main 1 "/usr/sbin/phc2sys" [Opt_s "/dev/ptp0"; Opt_N 1; Opt_O 37] (0, 0, 0)
            (set_open [4]
               (set_sysoff_probe [2]
                  (set_gettime
                     [fun _ => Some (mk_timespec 1700000000 100);
                      fun _ => Some (mk_timespec 1699999963 90);
                      fun _ => Some (mk_timespec 1700000000 300)]
                     silent_world)))))
  = [E_open "/dev/ptp0"; E_print_set_progname "phc2sys"; E_print_set_verbose 0;
     E_print_set_syslog 1; E_print_set_level 6; E_clockadj_get_freq 0;
     E_clockadj_set_freq 0 0; E_clockadj_set_leap 0 0; E_sysoff_probe 4 1;
     E_usleep 1000000; E_clock_gettime 0; E_clock_gettime (-37); E_clock_gettime 0;
     E_servo_sample 110 1700000000000000300;
     E_pr_info "%s offset %9ld s%d freq %+7.0f delay %6ld"
       [P_string "phc"; P_int 110; P_int 0; P_double 0; P_int 200]].
Proof. vm_compute. reflexivity. Qed.

(** ** Runs that the properties as first stated do not cover *)

(** Thirty seconds before the midnight of an announced leap second, with a
    PHC as the slave: the sample passes, the kernel is not told of the leap
    second, and yet [leap_set] goes from 0 to 1. *)
Lemma leap_set_follows_phc_slave :
  let c := sample_clock phc_3 [] (-1) 36 1 1 in
  let r := update_sync_offset c 0 1483228770000000000 world_before_midnight in
  clock.clkid c <> CLOCK_REALTIME
  /\ clock.leap_set c = 0
  /\ fst (fst r) = 0
  /\ clock.leap_set (snd (fst r)) = 1
  /\ w_trace (snd r) = [E_clock_gettime CLOCK_REALTIME].
Proof.
  cbv zeta. split; [discriminate|].
  repeat split; vm_compute; reflexivity.
Qed.

(** The PPS loop with a PHC, two assertions of the PPS waiting: the one
    reading of the clocks that fails ends the loop with -1; the second
    assertion is never fetched, though five rounds were allowed. *)
Lemma hybrid_read_failure_ends_loop :
  let c := sample_clock CLOCK_REALTIME [] 0 0 0 1 in
  let r := do_pps_loop 5 c 3 phc_4 5 (0, 0, 0) world_read_fails in
  fst (fst r) = Some (-1)
  /\ w_pps (snd r) = [Some (mk_pps_ktime 1700000001 260)]
  /\ w_trace (snd r)
     = [E_pps_fetch 3; E_clock_gettime CLOCK_REALTIME;
        E_pr_err "failed to read clock: %m"].
Proof.
  cbv zeta. repeat split; vm_compute; reflexivity.
Qed.

(** A sample whose time stamp is the time of the last refresh: no time has
    gone by, and the management data are asked for all the same. *)
Lemma pmc_round_without_elapsed_time :
  let c := managed_clock 1000000000000 in
  let r := update_sync_offset c 0 1000000000000 world_pollout in
  clock.pmc c = true
  /\ 1000000000000 - clock.pmc_last_update c = 0
  /\ 0 < PMC_UPDATE_INTERVAL
  /\ existsb is_poll (w_trace (snd r)) = true
  /\ w_trace (snd r)
     = [E_poll (Z.lor POLLIN (Z.lor POLLPRI POLLOUT)) 0;
        E_pmc_send_get_action TIME_PROPERTIES_DATA_SET;
        E_poll (Z.lor POLLIN POLLPRI) 0].
Proof.
  cbv zeta. repeat split; vm_compute; reflexivity.
Qed.

(** The command line [-d /dev/pps0 -O 37]: the options leave the direction
    at -1 and the offset at 37, but the PPS loop clears the direction, and
    the servo is handed the 250 ns measured, not 250 - 37 * 10^9. *)
Lemma forced_offset_dropped_in_pure_pps :
  let opts := [Opt_d "/dev/pps0"; Opt_O 37] in
  let p := main_prepare 1 "/usr/sbin/phc2sys" opts world_pure_pps in
  let r := main 1 "/usr/sbin/phc2sys" opts (0, 0, 0) world_pure_pps in
  match fst p with
  | Some (inl s) =>
    (forced_sync_offset s, clock.sync_offset (dst_clock s),
     clock.sync_offset_direction (dst_clock s))
  | _ => (0, 0, 0)
  end = (1, 37, -1)
  /\ In (E_servo_sample 250 1700000000000000250) (w_trace (snd r))
  /\ 250 - 37 * NS_PER_SEC = -36999999750
  /\ existsb (fun e => match e with
                       | E_servo_sample o _ => o =? -36999999750
                       | _ => false
                       end) (w_trace (snd r)) = false.
Proof.
  cbv zeta. split; [vm_compute; reflexivity|].
  split; [|split; vm_compute; reflexivity].
  assert (Htrace : w_trace
                     (snd (main 1 "/usr/sbin/phc2sys" [Opt_d "/dev/pps0"; Opt_O 37]
                             (0, 0, 0) world_pure_pps))
                   = [E_open "/dev/pps0"; E_print_set_progname "phc2sys";
                      E_print_set_verbose 0; E_print_set_syslog 1; E_print_set_level 6;
                      E_clockadj_get_freq 0; E_clockadj_set_freq 0 0;
                      E_clockadj_set_leap 0 0; E_pps_fetch 3;
                      E_servo_sample 250 1700000000000000250;
                      E_pr_info "%s offset %9ld s%d freq %+7.0f"
                        [P_string "pps"; P_int 250; P_int 0; P_double 0]])
    by (vm_compute; reflexivity).
  rewrite Htrace. cbn [In]. do 9 right. left. reflexivity.
Qed.

(** ** Further runs *)

(** The device /dev/ptp0, opened with the descriptor 4. *)
Lemma clock_open_descriptor_witness :
  exists fd,
    w_open world_device = fd :: w_open (snd (clock_open "/dev/ptp0" world_device))
    /\ 0 <= fd
    /\ (fd < 2 ^ 28 ->
        phc_4 = - 8 * fd - 5
        /\ CLOCKID_TO_FD phc_4 = fd
        /\ forall k c rate n,
            do_sysoff_loop k c phc_4 rate n
            = do_sysoff_rounds k (clock.set_source_label "sys" c) fd rate n).
Proof.
  apply (clock_open_descriptor "/dev/ptp0" world_device
           (snd (clock_open "/dev/ptp0" world_device)) phc_4).
  - vm_compute. reflexivity.
  - discriminate.
  - discriminate.
Defined.

(** ptp4l answers both requests. *)
Lemma run_pmc_result_witness :
  let c := sample_clock CLOCK_REALTIME [] 0 0 0 1 in
  let r := run_pmc c 1000 1 1 world_ptp4l in
  0 <= clock.pmc_ds_idx (snd (fst r)) < N_ID
  /\ ((fst (fst r) = 1 /\ clock.pmc_ds_idx (snd (fst r)) = 0)
      \/ (fst (fst r) = 0 /\ clock.pmc_ds_requested (snd (fst r)) = 0)
      \/ (fst (fst r) = -1
          /\ exists e0 ev,
              emitted world_ptp4l (snd r)
                (e0 ++ [E_poll ev 1000; E_pr_err "poll failed"]))).
Proof.
  apply (run_pmc_result (sample_clock CLOCK_REALTIME [] 0 0 0 1) 1000 1 1 world_ptp4l).
  split; [discriminate | reflexivity].
Defined.

Lemma run_pmc_releases_witness :
  let c := sample_clock CLOCK_REALTIME [] 0 0 0 1 in
  let r := run_pmc c 1000 1 1 world_ptp4l in
  exists evs consumed,
    emitted world_ptp4l (snd r) evs
    /\ w_recv world_ptp4l = consumed ++ w_recv (snd r)
    /\ released evs = received consumed.
Proof.
  apply (run_pmc_releases (sample_clock CLOCK_REALTIME [] 0 0 0 1) 1000 1 1 world_ptp4l).
  discriminate.
Defined.

Example run_pmc_released :
  released (w_trace (snd (run_pmc (sample_clock CLOCK_REALTIME [] 0 0 0 1) 1000 1 1
                            world_ptp4l)))
  = [port_response PS_SLAVE; time_response].
Proof. vm_compute. reflexivity. Qed.

(** The wait for ptp4l under a forced offset: the port is in state slave. *)
Lemma run_pmc_requests_witness :
  let c := sample_clock CLOCK_REALTIME [] (-1) 37 0 1 in
  let r := run_pmc c 1000 1 0 (world_port_response PS_SLAVE) in
  (exists evs,
      emitted (world_port_response PS_SLAVE) (snd r) evs
      /\ forall id, In (E_pmc_send_get_action id) evs ->
                    (id = PORT_DATA_SET /\ 1 <> 0)
                    \/ (id = TIME_PROPERTIES_DATA_SET /\ 0 <> 0))
  /\ (0 = 0 ->
      clock.sync_offset (snd (fst r)) = clock.sync_offset c
      /\ clock.leap (snd (fst r)) = clock.leap c).
Proof.
  apply (run_pmc_requests (sample_clock CLOCK_REALTIME [] (-1) 37 0 1) 1000 1 0
           (world_port_response PS_SLAVE)).
  discriminate.
Defined.

(** A PHC as the slave: the leap second is followed on the system clock,
    whatever the sample is. *)
Lemma update_sync_offset_system_time_witness :
  update_sync_offset (sample_clock phc_3 [] (-1) 36 1 1) 0 1 world_before_midnight
  = update_sync_offset (sample_clock phc_3 [] (-1) 36 1 1) 5 2 world_before_midnight.
Proof.
  apply (update_sync_offset_system_time (sample_clock phc_3 [] (-1) 36 1 1) 0 1 5 2
           world_before_midnight).
  - reflexivity.
  - discriminate.
Defined.

(** The command line [-s /dev/ptp0 -u 2]: a PHC as the master of the system
    clock, with summaries of two samples. *)
Lemma main_loop_entry_witness :
  exists s w',
    main_prepare 1 "/usr/sbin/phc2sys" [Opt_s "/dev/ptp0"; Opt_u 2] world_device
    = (Some (inl s), w')
    /\ (0 <= pps_fd s \/ src s <> CLOCK_INVALID)
    /\ clock.clkid (dst_clock s) <> CLOCK_INVALID
    /\ (0 <= pps_fd s -> clock.clkid (dst_clock s) = CLOCK_REALTIME)
    /\ (if clock.stats_max_count (dst_clock s) >? 0
        then all_stats (dst_clock s) else no_stats (dst_clock s))
    /\ clock.servo_state (dst_clock s) = SERVO_UNLOCKED
    /\ clock.leap_set (dst_clock s) = 0
    /\ clock.pmc_ds_idx (dst_clock s) = 0.
Proof.
  assert (Hrun : match fst (main_prepare 1 "/usr/sbin/phc2sys"
                              [Opt_s "/dev/ptp0"; Opt_u 2] world_device)
                 with Some (inl _) => true | _ => false end = true)
    by (vm_compute; reflexivity).
  destruct (main_prepare 1 "/usr/sbin/phc2sys" [Opt_s "/dev/ptp0"; Opt_u 2]
              world_device) as [[[s|z]|] w'] eqn:Hprepare;
    try discriminate Hrun.
  exists s, w'. split; [reflexivity|].
  exact (main_loop_entry 1 "/usr/sbin/phc2sys" [Opt_s "/dev/ptp0"; Opt_u 2]
           world_device w' s Hprepare).
Defined.

(** The command line [-s /dev/ptp0 -w], with ptp4l answering both
    requests. *)
Lemma main_utc_offset_direction_witness :
  exists s w',
    main_prepare 1 "/usr/sbin/phc2sys" [Opt_s "/dev/ptp0"; Opt_w]
      (set_pmc_create [true] (set_open [4] world_ptp4l))
    = (Some (inl s), w')
    /\ let c := dst_clock s in
       (clock.pmc c = true
        <-> wait_sync s <> 0 /\ forced_sync_offset s = 0
            /\ clock.sync_offset_direction c <> 0)
       /\ (forced_sync_offset s = 0 ->
           clock.sync_offset_direction c
           = if wait_sync s =? 0 then 0
             else if negb (src s =? CLOCK_REALTIME) && (clock.clkid c =? CLOCK_REALTIME)
                  then 1
             else if (src s =? CLOCK_REALTIME) && negb (clock.clkid c =? CLOCK_REALTIME)
                  then -1
             else 0)
       /\ ((forall v, ~ In (Opt_O v) [Opt_s "/dev/ptp0"; Opt_w]) ->
           forced_sync_offset s = 0)
       /\ (~ In Opt_w [Opt_s "/dev/ptp0"; Opt_w] -> wait_sync s = 0).
Proof.
  assert (Hrun : match fst (main_prepare 1 "/usr/sbin/phc2sys"
                              [Opt_s "/dev/ptp0"; Opt_w]
                              (set_pmc_create [true] (set_open [4] world_ptp4l)))
                 with Some (inl _) => true | _ => false end = true)
    by (vm_compute; reflexivity).
  destruct (main_prepare 1 "/usr/sbin/phc2sys" [Opt_s "/dev/ptp0"; Opt_w]
              (set_pmc_create [true] (set_open [4] world_ptp4l)))
    as [[[s|z]|] w'] eqn:Hprepare;
    try discriminate Hrun.
  exists s, w'. split; [reflexivity|].
  exact (main_utc_offset_direction 1 "/usr/sbin/phc2sys" [Opt_s "/dev/ptp0"; Opt_w]
           (set_pmc_create [true] (set_open [4] world_ptp4l)) w' s Hprepare).
Defined.

Example main_direction_sample :
  match fst (main_prepare 1 "/usr/sbin/phc2sys" [Opt_s "/dev/ptp0"; Opt_w]
               (set_pmc_create [true] (set_open [4] world_ptp4l)))
  with
  | Some (inl s) =>
    (clock.sync_offset_direction (dst_clock s), clock.sync_offset (dst_clock s),
     clock.leap (dst_clock s), clock.pmc (dst_clock s))
  | _ => (0, 0, 0, false)
  end = (1, 37, 1, true).
Proof. vm_compute. reflexivity. Qed.

(** The command line [-s /dev/ptp0]. *)
Lemma main_without_utc_offset_witness :
  exists s w',
    main_prepare 1 "/usr/sbin/phc2sys" [Opt_s "/dev/ptp0"] world_device
    = (Some (inl s), w')
    /\ plain_clock (dst_clock s)
    /\ clock.sync_offset (dst_clock s) = 0
    /\ (forall rounds' l w0, plain_clock (snd (fst (main_loop rounds' s l w0))))
    /\ (forall c offset ts delay w0,
           plain_clock c ->
           exists evs,
             emitted w0 (snd (update_clock c offset ts delay w0))
               (E_servo_sample offset ts :: evs)
             /\ existsb is_poll evs = false).
Proof.
  assert (Hrun : match fst (main_prepare 1 "/usr/sbin/phc2sys" [Opt_s "/dev/ptp0"]
                              world_device)
                 with Some (inl _) => true | _ => false end = true)
    by (vm_compute; reflexivity).
  destruct (main_prepare 1 "/usr/sbin/phc2sys" [Opt_s "/dev/ptp0"] world_device)
    as [[[s|z]|] w'] eqn:Hprepare;
    try discriminate Hrun.
  exists s, w'. split; [reflexivity|].
  apply (main_without_utc_offset 1 "/usr/sbin/phc2sys" [Opt_s "/dev/ptp0"]
           world_device w' s).
  - intros [Heq|[]]. discriminate Heq.
  - intros v [Heq|[]]. discriminate Heq.
  - exact Hprepare.
Defined.

(** The command line [-s /dev/ptp0 -h -O 37]. *)
Lemma main_stops_at_option_witness :
  exists s w',
    main_options [Opt_s "/dev/ptp0"] (main_init "/usr/sbin/phc2sys") world_device
    = (inl s, w')
    /\ main 1 "/usr/sbin/phc2sys" ([Opt_s "/dev/ptp0"] ++ Opt_h :: [Opt_O 37]) (0, 0, 0)
         world_device
       = (Some 0, snd (emit (E_usage "phc2sys") w')).
Proof.
  assert (Hrun : match fst (main_options [Opt_s "/dev/ptp0"]
                              (main_init "/usr/sbin/phc2sys") world_device)
                 with inl _ => true | inr _ => false end = true)
    by (vm_compute; reflexivity).
  destruct (main_options [Opt_s "/dev/ptp0"] (main_init "/usr/sbin/phc2sys")
              world_device) as [[s|z] w'] eqn:Hoptions;
    try discriminate Hrun.
  exists s, w'. split; [reflexivity|].
  apply (main_stops_at_option 1 "/usr/sbin/phc2sys" [Opt_s "/dev/ptp0"] [Opt_O 37]
           Opt_h (0, 0, 0) world_device w' s Hoptions).
  right. left. reflexivity.
Defined.

(** The response with the time properties: UTC offset 37 and a minute of 61
    seconds ahead. *)
Lemma run_pmc_time_properties_witness :
  let r := run_pmc time_cursor_clock 0 0 1 world_time_response in
  let c' := snd (fst r) in
  fst (fst r) = 1
  /\ clock.sync_offset c' = currentUtcOffset time_response
  /\ clock.leap c'
     = (if negb (Z.land (tp_flags time_response) LEAP_61 =? 0) then 1
        else if negb (Z.land (tp_flags time_response) LEAP_59 =? 0) then -1
        else 0)
  /\ clock.pmc_ds_idx c' = 0
  /\ clock.pmc_ds_requested c' = 0
  /\ w_recv (snd r) = []
  /\ exists events,
      emitted world_time_response (snd r)
        [E_poll events 0; E_pmc_recv; E_msg_put time_response].
Proof.
  apply (run_pmc_time_properties time_cursor_clock 0 0 world_time_response 1 POLLIN
           time_response [] []); try reflexivity.
  discriminate.
Defined.

(** The system clock one hour before the midnight of 2016-12-31, measured
    two seconds ahead of the master: the time looked up is two seconds
    earlier. *)
Lemma update_sync_offset_target_time_witness :
  let c := sample_clock CLOCK_REALTIME [] 0 0 1 1 in
  let t := match clock.servo_state c with
           | SERVO_UNLOCKED => uint64 (1483225200000000000 - corrected_offset c 2000000000)
           | _ => 1483225200000000000
           end in
  let r := update_sync_offset c 2000000000 1483225200000000000 silent_world in
  r = update_sync_offset_status c t silent_world
  /\ (fst (fst r) = -1 <-> is_utc_ambiguous t <> 0)
  /\ (is_utc_ambiguous t = 0 ->
      fst (fst r) = 0
      /\ clock.leap_set (snd (fst r))
         = fst (leap_second_status t (clock.leap_set c) (clock.leap c)
                  (clock.sync_offset c))).
Proof.
  apply (update_sync_offset_target_time (sample_clock CLOCK_REALTIME [] 0 0 1 1)
           2000000000 1483225200000000000 silent_world).
  - reflexivity.
  - reflexivity.
  - left. discriminate.
  - split; [discriminate | reflexivity].
Defined.



(** The loop over the kernel's offset measurement at one round a second, the
    measurement failing: -1 after [usleep] and the measurement.  The rate 0:
    the two loops that sleep end with the division, three rounds allowed. *)
Lemma sampling_loops_results_witness :
  let c := sample_clock CLOCK_REALTIME [] 0 0 0 1 in
  (let w0 := snd (emit (E_usleep (Z.quot 1000000 1)) silent_world) in
   let m := sysoff_measure (CLOCKID_TO_FD phc_4) 5 w0 in
   do_sysoff_loop 3 c phc_4 1 5 silent_world
   = ((Some (-1), clock.set_source_label "sys" c), snd m)
   /\ emitted silent_world (snd m)
        [E_usleep (Z.quot 1000000 1); E_sysoff_measure (CLOCKID_TO_FD phc_4) 5])
  /\ do_phc_loop 3 c phc_4 0 5 (0, 0, 0) silent_world
     = ((None, clock.set_source_label "phc" c), snd (emit E_sigfpe silent_world))
  /\ do_sysoff_loop 3 c phc_4 0 5 silent_world
     = ((None, clock.set_source_label "sys" c), snd (emit E_sigfpe silent_world)).
Proof.
  pose proof (sampling_loops_results 2 (sample_clock CLOCK_REALTIME [] 0 0 0 1)
                3 phc_4 1 5 (0, 0, 0) silent_world) as (_ & _ & _ & _ & Hfail & _).
  pose proof (sampling_loops_results 2 (sample_clock CLOCK_REALTIME [] 0 0 0 1)
                3 phc_4 0 5 (0, 0, 0) silent_world) as (_ & _ & _ & _ & _ & Hzero).
  split; [apply Hfail; [discriminate | reflexivity] | apply Hzero; reflexivity].
Defined.

(** [-R 0]: [main] comes to the loop and the first division ends the
    process; nothing is measured and [main] does not return. *)
Example main_rate_zero :
  let r := main 3 "/usr/sbin/phc2sys" [Opt_s "/dev/ptp0"; Opt_R 0] (0, 0, 0)
             world_device in
  fst r = None
  /\ w_trace (snd r)
     = [E_open "/dev/ptp0"; E_print_set_progname "phc2sys"; E_print_set_verbose 0;
        E_print_set_syslog 1; E_print_set_level 6; E_clockadj_get_freq 0;
        E_clockadj_set_freq 0 0; E_clockadj_set_leap 0 0; E_sysoff_probe 4 5;
        E_sigfpe].
Proof. cbv zeta. split; vm_compute; reflexivity. Qed.
